(** * The status bar of ranger: a shallow embedding of
      [ranger/gui/widgets/statusbar.py]

    The widget decides, once per frame, whether the status line has to be
    recomposed, composes a left part (an "ls -l"-like line for the current
    file) and a right part (directory summary and scroll indicator), and
    layers a hint and a timed message over it.

    Python values are embedded as follows: integers as [Z], strings as
    [string], [None]-able attributes as [option], dictionaries as [gmap],
    the two floating-point computations of the file with the binary64
    operations of [SpecFloat].  The widget mutates itself, two class-level
    dictionaries and the curses window; this is a state monad over a
    [World] that also collects the operations performed on the terminal and
    on the user database, and that can end in an exception. *)

From Stdlib Require Import ZArith String Ascii List Bool Lia.
From Stdlib Require Import SpecFloat.
From stdpp Require Import base option list gmap strings pretty.

Local Open Scope string_scope.
Local Open Scope list_scope.
Local Open Scope Z_scope.

(** ** Python built-ins used by the widget *)

Module Py.

(** [str(n)] for an integer. *)
Definition str (n : Z) : string := pretty n.

(** [len(s)] for a string, one character for each byte of the
    embedded string. *)
Definition len (s : string) : Z := Z.of_nat (String.length s).

(** [s.split('//')]: scan from the left, cut at every non-overlapping
    occurrence of the separator.  [cur] is the segment being collected. *)
Fixpoint split_go (s cur : string) : list string :=
  match s with
  | EmptyString => [cur]
  | String c rest =>
      match rest with
      | EmptyString => [cur +:+ String c ""]
      | String d rest' =>
          if Ascii.eqb c "/" && Ascii.eqb d "/"
          then cur :: split_go rest' ""
          else split_go rest (cur +:+ String c "")
      end
  end.

Definition split (s : string) : list string := split_go s "".

(** [sep.join(l)] *)
Fixpoint join (sep : string) (l : list string) : string :=
  match l with
  | [] => ""
  | s :: rest =>
      match rest with
      | [] => s
      | _ :: _ => s +:+ sep +:+ join sep rest
      end
  end.

(** binary64, the format of a Python float. *)
Definition prec : Z := 53.
Definition emax : Z := 1024.

(** [float(n)]: the binary64 number nearest to the integer. *)
Definition float (n : Z) : spec_float := binary_normalize prec emax n 0 false.

Definition fmul : spec_float -> spec_float -> spec_float := SFmul prec emax.
Definition fdiv : spec_float -> spec_float -> spec_float := SFdiv prec emax.

(** Nearest integer to [m * 2^e], ties to the even one: what the
    conversion [.0f] prints for the magnitude of a finite float. *)
Definition round_half_even (m : positive) (e : Z) : Z :=
  if 0 <=? e then Z.pos m * 2 ^ e
  else
    let d := 2 ^ (- e) in
    let q := Z.pos m / d in
    let r := Z.pos m mod d in
    match 2 * r ?= d with
    | Lt => q
    | Gt => q + 1
    | Eq => if Z.even q then q else q + 1
    end.

(** ['{0:0>.0f}'.format(x)]: fill and alignment are given without a
    width, so only the precision [.0f] acts. *)
Definition format_0f (x : spec_float) : string :=
  match x with
  | S754_nan => "nan"
  | S754_infinity s => if s then "-inf" else "inf"
  | S754_zero s => if s then "-0" else "0"
  | S754_finite s m e =>
      (if s then "-" else "") +:+ str (round_half_even m e)
  end.

(** Truth value of an optional integer ([None] and [0] are false). *)
Definition truthy_int (v : option Z) : bool :=
  match v with
  | Some n => negb (n =? 0)
  | None => false
  end.

(** Truth value of an optional string ([None] and [''] are false). *)
Definition truthy_str (v : option string) : bool :=
  match v with
  | Some s => negb (String.eqb s "")
  | None => false
  end.

End Py.

(** ** Data the widget reads from its collaborators *)

(** [os.stat] result, the fields the status bar reads. *)
Record Stat := {
  st_uid : Z;
  st_gid : Z;
  st_nlink : Z;
  st_mtime : Z
}.

(** A file system object of the browser.  [ident] is the identity of the
    Python object: [old_cf != cf] compares objects, not contents.
    [stat = None] stands for a [stat] attribute that is [None] or whose
    access raises. *)
Record File := {
  ident : nat;
  stat : option Stat;
  permission_string : string;
  is_link : bool;
  exists_ : bool;
  readlink : string;
  infostring : option string;
  is_file : bool;
  size : Z
}.

#[global] Instance Stat_eq_dec : EqDecision Stat.
Proof. solve_decision. Defined.

#[global] Instance File_eq_dec : EqDecision File.
Proof. solve_decision. Defined.

(** The target of a column, with the attributes [_get_right_part] and
    [_get_left_part] read from it. *)
Record Directory := {
  is_directory : bool;
  accessible : bool;
  files : option (list File);
  marked_items : list File;
  scroll_begin : Z;
  disk_usage : option Z;
  mount_path : string;
  pointed_obj : option File
}.

Record Column := {
  target : option Directory;
  hei : Z
}.

(** What one call of [draw()] observes outside the widget: [self.env],
    [self.settings] and the column the widget was created with. *)
Record Env := {
  cf : option File;
  cwd : Directory;
  at_level_0 : Directory;
  get_free_space : string -> Z;
  display_size_in_status_bar : bool;
  column : option Column
}.

(** ** The widget *)

(** Modelled from the spec: [ranger.gui.bar] is not part of the sources.
    A fragment is a text with its ordered style tags; a [Bar] has a left
    and a right sequence of fragments; [add] appends one fragment, tagged
    with the base tag the bar was created with and the tags given. *)
Record ColoredString := {
  cs_string : string;
  lst : list string
}.

Record Bar := {
  base_color_tag : string;
  left : list ColoredString;
  right : list ColoredString
}.

Definition Bar_new (base : string) : Bar :=
  {| base_color_tag := base; left := []; right := [] |}.

Definition mk_fragment (base : string) (s : string) (tags : list string) : ColoredString :=
  {| cs_string := s; lst := base :: tags |}.

Definition add_left (s : string) (tags : list string) (bar : Bar) : Bar :=
  {| base_color_tag := base_color_tag bar;
     left := left bar ++ [mk_fragment (base_color_tag bar) s tags];
     right := right bar |}.

Definition add_space_left (bar : Bar) : Bar := add_left " " ["space"] bar.

Definition add_right (s : string) (tags : list string) (bar : Bar) : Bar :=
  {| base_color_tag := base_color_tag bar;
     left := left bar;
     right := right bar ++ [mk_fragment (base_color_tag bar) s tags] |}.

(** The timed message. *)
Record Message := {
  text : string;
  bad : bool;
  elapse : Z
}.

(** [Message(text, duration, bad)], created when the clock shows [now]. *)
Definition Message_init (now : Z) (text : string) (duration : Z) (bad : bool) : Message :=
  {| text := text; bad := bad; elapse := now + duration |}.

(** [Message.is_alive], called when the clock shows [now]. *)
Definition is_alive (now : Z) (m : Message) : bool := now <=? elapse m.

(** The value of the [hint] attribute: [None], a string, or some other
    object, of which only the truth value matters. *)
Inductive hintval :=
| HNone
| HStr (s : string)
| HObj (truth : bool).

Definition hint_truthy (h : hintval) : bool :=
  match h with
  | HNone => false
  | HStr s => negb (String.eqb s "")
  | HObj b => b
  end.

Definition hint_is_str (h : hintval) : bool :=
  match h with
  | HStr _ => true
  | _ => false
  end.

(** [old != h] where [h] is the string [s]. *)
Definition hint_ne_str (old : hintval) (s : string) : bool :=
  match old with
  | HStr s' => negb (String.eqb s' s)
  | _ => true
  end.

(** [a != b] on file objects or [None]: identity of objects. *)
Definition cf_ne (a b : option File) : bool :=
  match a, b with
  | None, None => false
  | Some f, Some g => negb (Nat.eqb (ident f) (ident g))
  | _, _ => true
  end.

(** [a != m] where [m] is a number and [a] a number or [None]. *)
Definition mtime_ne (a : option Z) (m : Z) : bool :=
  match a with
  | Some o => negb (o =? m)
  | None => true
  end.

(** The attributes of a [StatusBar] instance.  [need_redraw], [wid] and
    [x] are inherited from the widget base class. *)
Record StatusBar := {
  hint : hintval;
  msg : option Message;
  old_cf : option File;
  old_mtime : option Z;
  old_du : option Z;
  old_hint : hintval;
  result : option (list ColoredString);
  need_redraw : bool;
  wid : Z;
  x : Z
}.

(** Truth value of [self.result]: [None] and the empty list are false. *)
Definition result_truthy (r : option (list ColoredString)) : bool :=
  match r with
  | Some (_ :: _) => true
  | _ => false
  end.

Definition with_hint (v : hintval) (s : StatusBar) : StatusBar :=
  {| hint := v; msg := msg s; old_cf := old_cf s; old_mtime := old_mtime s;
     old_du := old_du s; old_hint := old_hint s; result := result s;
     need_redraw := need_redraw s; wid := wid s; x := x s |}.

Definition with_msg (v : option Message) (s : StatusBar) : StatusBar :=
  {| hint := hint s; msg := v; old_cf := old_cf s; old_mtime := old_mtime s;
     old_du := old_du s; old_hint := old_hint s; result := result s;
     need_redraw := need_redraw s; wid := wid s; x := x s |}.

Definition with_old_cf (v : option File) (s : StatusBar) : StatusBar :=
  {| hint := hint s; msg := msg s; old_cf := v; old_mtime := old_mtime s;
     old_du := old_du s; old_hint := old_hint s; result := result s;
     need_redraw := need_redraw s; wid := wid s; x := x s |}.

Definition with_old_mtime (v : option Z) (s : StatusBar) : StatusBar :=
  {| hint := hint s; msg := msg s; old_cf := old_cf s; old_mtime := v;
     old_du := old_du s; old_hint := old_hint s; result := result s;
     need_redraw := need_redraw s; wid := wid s; x := x s |}.

Definition with_old_du (v : option Z) (s : StatusBar) : StatusBar :=
  {| hint := hint s; msg := msg s; old_cf := old_cf s; old_mtime := old_mtime s;
     old_du := v; old_hint := old_hint s; result := result s;
     need_redraw := need_redraw s; wid := wid s; x := x s |}.

Definition with_old_hint (v : hintval) (s : StatusBar) : StatusBar :=
  {| hint := hint s; msg := msg s; old_cf := old_cf s; old_mtime := old_mtime s;
     old_du := old_du s; old_hint := v; result := result s;
     need_redraw := need_redraw s; wid := wid s; x := x s |}.

Definition with_result (v : option (list ColoredString)) (s : StatusBar) : StatusBar :=
  {| hint := hint s; msg := msg s; old_cf := old_cf s; old_mtime := old_mtime s;
     old_du := old_du s; old_hint := old_hint s; result := v;
     need_redraw := need_redraw s; wid := wid s; x := x s |}.

Definition with_need_redraw (v : bool) (s : StatusBar) : StatusBar :=
  {| hint := hint s; msg := msg s; old_cf := old_cf s; old_mtime := old_mtime s;
     old_du := old_du s; old_hint := old_hint s; result := result s;
     need_redraw := v; wid := wid s; x := x s |}.

(** The class attributes of a freshly created status bar.  The base class
    sets the geometry and [need_redraw]; they are taken as given. *)
Definition StatusBar_init (need : bool) (wid x : Z) : StatusBar :=
  {| hint := HNone; msg := None; old_cf := None; old_mtime := None;
     old_du := None; old_hint := HNone; result := None;
     need_redraw := need; wid := wid; x := x |}.

(** ** Effects *)

(** What a call does to the outside, in order: operations on the curses
    window and look-ups in the user database.  [Composed] marks one call
    of [_calc_bar]. *)
Inductive event :=
| Erase
| Color (tags : list string)
| ColorReset
| Move (y x : Z)
| AddStr (s : string)
| AddNStr (y x : Z) (s : string) (n : Z)
| GetPwUid (uid : Z)
| GetGrGid (gid : Z)
| Composed.

(** The mutable state: the instance and the two class-level dictionaries
    [StatusBar.owners] and [StatusBar.groups], shared by all instances. *)
Record World := {
  sb : StatusBar;
  owners : gmap Z string;
  groups : gmap Z string
}.

Definition with_sb (v : StatusBar) (w : World) : World :=
  {| sb := v; owners := owners w; groups := groups w |}.

Definition with_owners (v : gmap Z string) (w : World) : World :=
  {| sb := sb w; owners := v; groups := groups w |}.

Definition with_groups (v : gmap Z string) (w : World) : World :=
  {| sb := sb w; owners := owners w; groups := v |}.

(** A call returns a value or raises; either way it leaves a world and a
    trace of events behind. *)
Inductive outcome (A : Type) :=
| Done (a : A)
| Raised.
Arguments Done {A} a.
Arguments Raised {A}.

Record run (A : Type) := {
  value : outcome A;
  world : World;
  trace : list event
}.
Arguments value {A} r.
Arguments world {A} r.
Arguments trace {A} r.

Definition M (A : Type) : Type := World -> run A.

Definition ret {A} (a : A) : M A :=
  fun w => {| value := Done a; world := w; trace := [] |}.

Definition bind {A B} (m : M A) (k : A -> M B) : M B :=
  fun w =>
    let r := m w in
    match value r with
    | Done a =>
        let r' := k a (world r) in
        {| value := value r'; world := world r'; trace := trace r ++ trace r' |}
    | Raised => {| value := Raised; world := world r; trace := trace r |}
    end.

Declare Scope py_scope.
Delimit Scope py_scope with py.
Notation "x <- m ;; k" := (bind m (fun x => k))
  (at level 100, m at next level, right associativity) : py_scope.
Notation "m ;; k" := (bind m (fun _ => k))
  (at level 100, right associativity) : py_scope.
Local Open Scope py_scope.

Definition raise {A} : M A :=
  fun w => {| value := Raised; world := w; trace := [] |}.

(** [try: m / except: return False], with [True] when [m] returns. *)
Definition try_ (m : M unit) : M bool :=
  fun w =>
    let r := m w in
    {| value := Done (match value r with Done _ => true | Raised => false end);
       world := world r; trace := trace r |}.

(** Reading and writing the world; [self] and [update] do it for the
    instance. *)
Definition read {A} (f : World -> A) : M A :=
  fun w => {| value := Done (f w); world := w; trace := [] |}.

Definition store (f : World -> World) : M unit :=
  fun w => {| value := Done tt; world := f w; trace := [] |}.

Definition self : M StatusBar := read sb.

Definition update (f : StatusBar -> StatusBar) : M unit :=
  store (fun w => with_sb (f (sb w)) w).

Definition emit (e : event) : M unit :=
  fun w => {| value := Done tt; world := w; trace := [e] |}.

Definition when (b : bool) (m : M unit) : M unit :=
  if b then m else ret tt.

(** ** Collaborators that are not part of the sources *)

(** The user ids of the running process. *)
Record Credentials := {
  real_uid : Z;
  effective_uid : Z
}.

(** The operating system, the imported helpers and the curses window.
    - [getpwuid uid] is [pwd.getpwuid(uid)[0]], [None] when it raises
      [KeyError]; [getgrgid] likewise for [grp.getgrgid];
    - [strftime fmt t] is [time.strftime(fmt, time.localtime(t))];
    - [human_readable v] is [human_readable(v, seperator='')];
    - [shrink_by_removing] and [combine] are the two methods of [Bar] that
      [_calc_bar] calls;
    - [addnstr_ok y x s n] tells whether the window accepts
      [addnstr(y, x, s, n)], and [addstr_ok written s] whether it accepts
      [addstr(s)] after the strings [written] since the cursor was moved;
      a write that is not accepted raises. *)
Class Platform := {
  process : Credentials;
  getpwuid : Z -> option string;
  getgrgid : Z -> option string;
  strftime : string -> Z -> string;
  human_readable : option Z -> string;
  shrink_by_removing : Z -> Bar -> Bar;
  combine : Bar -> list ColoredString;
  addnstr_ok : Z -> Z -> string -> Z -> bool;
  addstr_ok : list string -> string -> bool
}.

Section Widget.

Context {P : Platform}.

(** [os.getuid()]: the real user id of the process. *)
Definition getuid : Z := real_uid process.

Definition timeformat : string := "%Y-%m-%d %H:%M".

Definition addnstr (y x : Z) (s : string) (n : Z) : M unit :=
  emit (AddNStr y x s n);;
  if addnstr_ok y x s n then ret tt else raise.

Definition addstr (written : list string) (s : string) : M unit :=
  emit (AddStr s);;
  if addstr_ok written s then ret tt else raise.

Definition color (tags : list string) : M unit := emit (Color tags).

(** [StatusBar.request_redraw] *)
Definition request_redraw : M unit := update (with_need_redraw true).

(** [StatusBar.notify], called when the clock shows [now]. *)
Definition notify (now : Z) (text : string) (duration : Z) (bad : bool) : M unit :=
  update (with_msg (Some (Message_init now text duration bad))).

(** [StatusBar._draw_message] *)
Definition _draw_message : M unit :=
  me <- self;;
  emit Erase;;
  match msg me with
  | None => raise
  | Some m =>
      color ["in_statusbar"; "message"; if bad m then "bad" else "good"];;
      addnstr 0 0 (text m) (wid me)
  end.

(** The loop of [StatusBar._draw_hint] over the remaining segments. *)
Fixpoint _draw_hint_loop (strings : list string) (highlight : bool)
    (space_left starting_point : Z) : M unit :=
  match strings with
  | [] => ret tt
  | string :: rest =>
      let highlight := negb highlight in
      (if highlight
       then color ["in_statusbar"; "text"; "highlight"]
       else color ["in_statusbar"; "text"]);;
      written <- try_ (addnstr 0 starting_point string space_left);;
      if written
      then _draw_hint_loop rest highlight
             (space_left - Py.len string) (starting_point + Py.len string)
      else ret tt
  end.

(** [StatusBar._draw_hint] *)
Definition _draw_hint : M unit :=
  me <- self;;
  emit Erase;;
  match hint me with
  | HStr s => _draw_hint_loop (Py.split s) true (wid me) (x me)
  | _ => raise
  end.

(** [StatusBar._get_owner] *)
Definition _get_owner (target : File) : M string :=
  match stat target with
  | None => raise
  | Some st =>
      let uid := st_uid st in
      cache <- read owners;;
      match cache !! uid with
      | Some name => ret name
      | None =>
          emit (GetPwUid uid);;
          match getpwuid uid with
          | Some name =>
              store (fun w => with_owners (<[uid := name]> (owners w)) w);;
              ret name
          | None => ret (Py.str uid)
          end
      end
  end.

(** [StatusBar._get_group] *)
Definition _get_group (target : File) : M string :=
  match stat target with
  | None => raise
  | Some st =>
      let gid := st_gid st in
      cache <- read groups;;
      match cache !! gid with
      | Some name => ret name
      | None =>
          emit (GetGrGid gid);;
          match getgrgid gid with
          | Some name =>
              store (fun w => with_groups (<[gid := name]> (groups w)) w);;
              ret name
          | None => ret (Py.str gid)
          end
      end
  end.

(** The file [StatusBar._get_left_part] describes. *)
Definition left_target (env : Env) : option File :=
  match column env with
  | Some c =>
      match target c with
      | Some t =>
          if is_directory t then pointed_obj t
          else pointed_obj (at_level_0 env)
      | None => pointed_obj (at_level_0 env)
      end
  | None => pointed_obj (at_level_0 env)
  end.

(** [StatusBar._get_left_part] *)
Definition _get_left_part (env : Env) (bar : Bar) : M Bar :=
  match left_target env with
  | None => ret bar
  | Some target =>
      match stat target with
      | None => ret bar
      | Some st =>
          let perms := permission_string target in
          let how := if getuid =? st_uid st then "good" else "bad" in
          let bar := add_left perms ["permissions"; how] bar in
          let bar := add_space_left bar in
          let bar := add_left (Py.str (st_nlink st)) ["nlink"] bar in
          let bar := add_space_left bar in
          owner <- _get_owner target;;
          let bar := add_left owner ["owner"] bar in
          let bar := add_space_left bar in
          group <- _get_group target;;
          let bar := add_left group ["group"] bar in
          if is_link target then
            let how := if exists_ target then "good" else "bad" in
            ret (add_left (" -> " +:+ readlink target) ["link"; how] bar)
          else
            let bar :=
              if display_size_in_status_bar env && Py.truthy_str (infostring target)
              then add_left (default "" (infostring target)) [] bar
              else bar in
            let bar := add_space_left bar in
            ret (add_left (strftime timeformat (st_mtime st)) ["mtime"] bar)
      end
  end.

(** [sum(f.size for f in marked_items if f.is_file)] *)
Definition marked_file_size (marked : list File) : Z :=
  foldr Z.add 0 (map size (filter (fun f => is_file f = true) marked)).

(** ['{0:0>.0f}%'.format(100.0 * pos / max_pos)] *)
Definition percentage (pos max_pos : Z) : string :=
  Py.format_0f (Py.fdiv (Py.fmul (Py.float 100) (Py.float pos)) (Py.float max_pos))
  +:+ "%".

(** [StatusBar._get_right_part].  [len(target)] is the number of listed
    files; it raises, like [len(target.files)], when there is no
    listing. *)
Definition _get_right_part (env : Env) (bar : Bar) : M Bar :=
  match column env with
  | None => ret bar
  | Some col =>
      match target col with
      | None => ret bar
      | Some target =>
          if negb (accessible target)
             || (is_directory target && bool_decide (files target = None))
          then ret bar
          else
            match files target with
            | None => raise
            | Some listing =>
                let pos := scroll_begin target in
                let max_pos := Z.of_nat (length listing) - hei col in
                let base := "scroll" in
                let marked := marked_items target in
                let bar :=
                  if bool_decide (marked <> []) then
                    let bar :=
                      if Nat.eqb (length marked) (length listing)
                      then add_right (human_readable (disk_usage target)) [] bar
                      else add_right (human_readable (Some (marked_file_size marked))) [] bar in
                    add_right (" / " +:+ Py.str (Z.of_nat (length marked))) [] bar
                  else
                    let bar := add_right (human_readable (disk_usage target)) [] bar in
                    let bar := add_right ", " ["space"] bar in
                    add_right (human_readable (Some (get_free_space env (mount_path target)))) [] bar in
                let bar := add_right "  " ["space"] bar in
                if bool_decide (marked <> []) then
                  ret (add_right "Mrk" [base; "marked"] bar)
                else if 0 <? max_pos then
                  if pos =? 0 then ret (add_right "Top" [base; "top"] bar)
                  else if max_pos <=? pos then ret (add_right "Bot" [base; "bot"] bar)
                  else ret (add_right (percentage pos max_pos) [base; "percentage"] bar)
                else ret (add_right "All" [base; "all"] bar)
            end
      end
  end.

(** [StatusBar._calc_bar] *)
Definition _calc_bar (env : Env) : M unit :=
  emit Composed;;
  bar <- _get_left_part env (Bar_new "in_statusbar");;
  bar <- _get_right_part env bar;;
  me <- self;;
  let bar := shrink_by_removing (wid me) bar in
  update (with_result (Some (combine bar))).

(** The loop of [StatusBar._print_result]. *)
Fixpoint _print_parts (parts : list ColoredString) (written : list string) : M unit :=
  match parts with
  | [] => ret tt
  | part :: rest =>
      color (lst part);;
      addstr written (cs_string part);;
      _print_parts rest (written ++ [cs_string part])
  end.

(** [StatusBar._print_result] *)
Definition _print_result (result : option (list ColoredString)) : M unit :=
  emit (Move 0 0);;
  match result with
  | None => raise
  | Some parts => _print_parts parts []
  end;;
  emit ColorReset.

(** [self.env.cf.stat.st_mtime], or [-1] when reading it raises. *)
Definition observed_mtime (env : Env) : Z :=
  match cf env with
  | Some f =>
      match stat f with
      | Some st => st_mtime st
      | None => -1
      end
  | None => -1
  end.

(** [StatusBar.draw], from the [try] that reads the modification time
    to the end: the path taken when neither a hint nor a live message
    is shown. *)
Definition draw_content (env : Env) : M unit :=
  let mtime := observed_mtime env in
  me <- self;;
  when (negb (result_truthy (result me)))
    (update (with_need_redraw true));;
  me <- self;;
  when (Py.truthy_int (old_du me) && negb (Py.truthy_int (disk_usage (cwd env))))
    (update (with_old_du (disk_usage (cwd env)));;
     update (with_need_redraw true));;
  me <- self;;
  when (cf_ne (old_cf me) (cf env))
    (update (with_old_cf (cf env));;
     update (with_need_redraw true));;
  me <- self;;
  when (mtime_ne (old_mtime me) mtime)
    (update (with_old_mtime (Some mtime));;
     update (with_need_redraw true));;
  me <- self;;
  when (need_redraw me)
    (update (with_need_redraw false);;
     _calc_bar env;;
     me <- self;;
     _print_result (result me)).

(** [StatusBar.draw] below the test for a hint: forgetting the old
    hint, then the message, then the content. *)
Definition draw_below_hint (env : Env) (now : Z) : M unit :=
  me <- self;;
  when (hint_truthy (old_hint me) && negb (hint_truthy (hint me)))
    (update (with_old_hint HNone);;
     update (with_need_redraw true));;
  me <- self;;
  match msg me with
  | Some m =>
      if is_alive now m then _draw_message
      else
        update (with_msg None);;
        update (with_need_redraw true);;
        draw_content env
  | None => draw_content env
  end.

(** [StatusBar.draw], called when the clock shows [now]. *)
Definition draw (env : Env) (now : Z) : M unit :=
  me <- self;;
  if hint_truthy (hint me) && hint_is_str (hint me) then
    when (match hint me with
          | HStr s => hint_ne_str (old_hint me) s
          | _ => true
          end)
      (update (with_need_redraw true));;
    me <- self;;
    when (need_redraw me) _draw_hint
  else draw_below_hint env now.

End Widget.

(** ** Notions used to state the properties *)

(** The result of a call that returned, changed nothing and did nothing. *)
Definition skipped (w : World) : run unit :=
  {| value := Done tt; world := w; trace := [] |}.

(** The call went through [_calc_bar]. *)
Definition recomposed {A} (r : run A) : Prop := In Composed (trace r).

(** A hint is shown: the test at the head of [draw()]. *)
Definition shows_hint (me : StatusBar) : bool :=
  hint_truthy (hint me) && hint_is_str (hint me).

(** A message is held and alive. *)
Definition shows_message (now : Z) (me : StatusBar) : bool :=
  match msg me with
  | Some m => is_alive now m
  | None => false
  end.

(** What the two lines below the hint test of [draw()] do to the
    instance: an old hint that is no longer held is forgotten. *)
Definition forget_hint (me : StatusBar) : StatusBar :=
  if hint_truthy (old_hint me) && negb (hint_truthy (hint me))
  then with_need_redraw true (with_old_hint HNone me)
  else me.

(** What [draw()] does to the instance when the message it holds is dead. *)
Definition drop_message (me : StatusBar) : StatusBar :=
  match msg me with
  | Some _ => with_need_redraw true (with_msg None me)
  | None => me
  end.

(** The hint is cleared or replaced from outside: [self.hint = h]. *)
Definition set_hint (h : hintval) (w : World) : World :=
  with_sb (with_hint h (sb w)) w.

(** The style of the segment number [i] of a hint, counted from 0: plain
    for the first, highlighted for the second, and so on. *)
Definition hint_style (i : nat) : list string :=
  if Nat.even i then ["in_statusbar"; "text"]
  else ["in_statusbar"; "text"; "highlight"].

(** The total length of some segments. *)
Definition total_len (segs : list string) : Z :=
  foldr Z.add 0 (map Py.len segs).

(** Nearest integer to [100 * offset / maxScroll], ties to the even one,
    for [maxScroll > 0]. *)
Definition rounded_percentage (offset maxScroll : Z) : Z :=
  let q := (100 * offset) / maxScroll in
  let r := (100 * offset) mod maxScroll in
  match 2 * r ?= maxScroll with
  | Lt => q
  | Gt => q + 1
  | Eq => if Z.even q then q else q + 1
  end.

(** [f] is the binary64 number with a mantissa of 53 digits that equals
    the positive integer [n]. *)
Definition float_is (f : spec_float) (n : Z) : Prop :=
  exists m e,
    f = S754_finite false m e
    /\ 2 ^ 52 <= Z.pos m < 2 ^ 53
    /\ e <= 0
    /\ Z.pos m = n * 2 ^ (- e).

Section Statements.

Context {P : Platform}.

(** The four tests on the fingerprint in [draw()], taken together. *)
Definition fingerprint_stale (me : StatusBar) (env : Env) : bool :=
  negb (result_truthy (result me))
  || (Py.truthy_int (old_du me) && negb (Py.truthy_int (disk_usage (cwd env))))
  || cf_ne (old_cf me) (cf env)
  || mtime_ne (old_mtime me) (observed_mtime env).

(** The fingerprint as [draw()] leaves it. *)
Definition remembered (me : StatusBar) (env : Env) : StatusBar :=
  let me :=
    if Py.truthy_int (old_du me) && negb (Py.truthy_int (disk_usage (cwd env)))
    then with_old_du (disk_usage (cwd env)) me else me in
  let me :=
    if cf_ne (old_cf me) (cf env) then with_old_cf (cf env) me else me in
  if mtime_ne (old_mtime me) (observed_mtime env)
  then with_old_mtime (Some (observed_mtime env)) me else me.

(** The instance asks for nothing: no hint is shown, no old hint is to be
    forgotten, no message is held, the flag is down and the fingerprint
    agrees with the surroundings. *)
Definition at_rest (env : Env) (me : StatusBar) : Prop :=
  shows_hint me = false
  /\ hint_truthy (old_hint me) && negb (hint_truthy (hint me)) = false
  /\ msg me = None
  /\ need_redraw me = false
  /\ fingerprint_stale me env = false.

(** What drawing the message [m] into a line of [width] columns does to
    the window. *)
Definition message_trace (m : Message) (width : Z) : list event :=
  [Erase;
   Color ["in_statusbar"; "message"; if bad m then "bad" else "good"];
   AddNStr 0 0 (text m) width].

(** The modification time of the current file cannot be read. *)
Definition stat_unavailable (env : Env) : Prop :=
  match cf env with
  | Some f => stat f = None
  | None => True
  end.

(** [env'] is [env] with a current file whose [stat] can be read and
    whose modification time is [-1], where [env] has the same file
    object without a readable [stat]. *)
Definition minus_one_for_failure (env env' : Env) : Prop :=
  exists f f' st,
    cf env = Some f /\ stat f = None
    /\ cf env' = Some f' /\ ident f' = ident f
    /\ stat f' = Some st /\ st_mtime st = -1
    /\ disk_usage (cwd env') = disk_usage (cwd env).

(** The calls the surrounding program makes on the widget. *)
Inductive call :=
| CallDraw (env : Env) (now : Z)
| CallNotify (now : Z) (text : string) (duration : Z) (bad : bool)
| CallRequestRedraw
| CallSetHint (h : hintval).

Definition perform (w : World) (c : call) : World :=
  match c with
  | CallDraw env now => world (draw env now w)
  | CallNotify now text duration bad => world (notify now text duration bad w)
  | CallRequestRedraw => world (request_redraw w)
  | CallSetHint h => set_hint h w
  end.

(** The world after a sequence of calls. *)
Definition session (calls : list call) (w : World) : World :=
  foldl perform w calls.

(** Recomposition and repainting, the body of the last [if] of [draw()]
    after the flag is cleared. *)
Definition repaint (env : Env) : M unit :=
  _calc_bar env;;
  me <- self;;
  _print_result (result me).

(** The name [_get_owner] returns for a user id, given the cache. *)
Definition owner_name (cache : gmap Z string) (uid : Z) : string :=
  match cache !! uid with
  | Some name => name
  | None => default (Py.str uid) (getpwuid uid)
  end.

(** The name [_get_group] returns for a group id, given the cache. *)
Definition group_name (cache : gmap Z string) (gid : Z) : string :=
  match cache !! gid with
  | Some name => name
  | None => default (Py.str gid) (getgrgid gid)
  end.

(** The write for the segment number [i] of a hint drawn into a line of
    [wid] columns that starts at column [x]: after the segments before
    it, with what is left of the width as the limit. *)
Definition hint_write (x wid : Z) (segs : list string) (i : nat) : list event :=
  match segs !! i with
  | Some seg =>
      let used := total_len (take i segs) in
      [Color (hint_style i); AddNStr 0 (x + used) seg (wid - used)]
  | None => []
  end.

(** Whether the window accepts that write. *)
Definition hint_write_accepted (x wid : Z) (segs : list string) (i : nat) : bool :=
  match segs !! i with
  | Some seg =>
      let used := total_len (take i segs) in
      addnstr_ok 0 (x + used) seg (wid - used)
  | None => false
  end.

(** How many of the [n] writes from number [i] on are attempted when
    drawing stops after the first write that is rejected. *)
Fixpoint attempts (accepted : nat -> bool) (i n : nat) : nat :=
  match n with
  | O => O
  | S n' => if accepted i then S (attempts accepted (S i) n') else 1%nat
  end.

(** The left sequence as the specification lists it, for a target with
    its [stat], the resolved names and the id of the user. *)
Definition left_fragments (user : Z) (target : File) (st : Stat)
    (owner group : string) (show_size : bool) : list ColoredString :=
  let base := "in_statusbar" in
  [ mk_fragment base (permission_string target)
      ["permissions"; if user =? st_uid st then "good" else "bad"];
    mk_fragment base " " ["space"];
    mk_fragment base (Py.str (st_nlink st)) ["nlink"];
    mk_fragment base " " ["space"];
    mk_fragment base owner ["owner"];
    mk_fragment base " " ["space"];
    mk_fragment base group ["group"] ]
  ++
  (if is_link target then
     [ mk_fragment base (" -> " +:+ readlink target)
         ["link"; if exists_ target then "good" else "bad"] ]
   else
     (match infostring target with
      | Some info =>
          if show_size && negb (String.eqb info "")
          then [mk_fragment base info []] else []
      | None => []
      end)
     ++ [ mk_fragment base " " ["space"];
          mk_fragment base (strftime "%Y-%m-%d %H:%M" (st_mtime st)) ["mtime"] ]).

(** The selection and scroll indicator as the specification lists it. *)
Definition indicator (any_marked : bool) (itemCount columnHeight offset : Z) : string :=
  if any_marked then "Mrk"
  else
    let maxScroll := itemCount - columnHeight in
    if maxScroll <=? 0 then "All"
    else if offset =? 0 then "Top"
    else if maxScroll <=? offset then "Bot"
    else percentage offset maxScroll.

End Statements.

(** ** Notions for the further properties *)

(** The texts of the [addnstr] calls of a trace, in order. *)
Definition written_texts (t : list event) : list string :=
  flat_map (fun e => match e with
                     | AddNStr _ _ s _ => [s]
                     | _ => []
                     end) t.

(** What painting the fragments [parts] does to the window when every
    write is accepted. *)
Definition painted (parts : list ColoredString) : list event :=
  flat_map (fun part => [Color (lst part); AddStr (cs_string part)]) parts.

(** The user database look-ups of a trace. *)
Definition lookups (t : list event) : list event :=
  List.filter (fun e => match e with
                        | GetPwUid _ | GetGrGid _ => true
                        | _ => false
                        end) t.

Section MoreStatements.

Context {P : Platform}.

(** Whether the window accepts the write of the fragment number [i] of
    [parts], after the fragments before it. *)
Definition paint_accepted (parts : list ColoredString) (i : nat) : bool :=
  match parts !! i with
  | Some part => addstr_ok (map cs_string (take i parts)) (cs_string part)
  | None => false
  end.

(** Every name in the two caches is the one the user database gives. *)
Definition cache_sound (w : World) : Prop :=
  (forall uid name, owners w !! uid = Some name -> getpwuid uid = Some name)
  /\ (forall gid name, groups w !! gid = Some name -> getgrgid gid = Some name).

(** The caches of [w'] hold what those of [w] hold, and are sound if
    those of [w] are. *)
Definition caches_extended (w w' : World) : Prop :=
  owners w ⊆ owners w'
  /\ groups w ⊆ groups w'
  /\ (cache_sound w -> cache_sound w').

End MoreStatements.

(** ** The entry point, [ranger/__main__.py] *)

Module Main.

(** The calls [main()] makes on the rest of the program and on the
    operating system, in the order of the source: each one can be seen
    from outside, and each one may raise. *)
Inductive action :=
| ImportCurses
| Print (line : string)
| SetLocale (name : string)
| StatFloatTimes
| ParseArgs
| RedirectStderr
| Access (target : string)
| IsFile (target : string)
| NewFile (target : string)
| NewFM
| ExecuteFile (target : string)
| SettingsSetup
| NewEnvironment (path : string)
| NewUI
| NewFMWithUI
| FMInitialize
| UIInitialize
| Loop
| UIDestroy
| WritePwd.

#[global] Instance action_eq_dec : EqDecision action.
Proof. solve_decision. Defined.

(** What [parser.parse_args()] returns: the flag [--cd-after-exit] and
    the remaining arguments. *)
Record Args := {
  cd_after_exit : bool;
  rest : list string
}.

(** The surroundings of [main()]: the parsed command line, the message
    of the [ImportError], the answers of [os.access(target, os.F_OK)]
    and [os.path.isfile(target)], and which calls raise.  When
    [parser.parse_args()] raises, [parse_exit] tells whether it left
    through [sys.exit], and with which status: [optparse] does so for an
    option it does not know (status 2) and for [--help] and [--version]
    (status 0). *)
Record Surroundings := {
  args : Args;
  errormessage : string;
  access : string -> bool;
  isfile : string -> bool;
  fails : action -> bool;
  parse_exit : option Z
}.

(** How [main()] ends: it returns, it leaves through [sys.exit(code)],
    called by itself or by [parse_args()], or the exception of a call
    leaves it (of whatever kind: for the calls other than
    [parse_args()] a [SystemExit] is not told apart). *)
Inductive ending :=
| Returned
| Exited (code : Z)
| Failed (at_call : action).

Record outcome := {
  calls : list action;
  final : ending
}.

(** Calls made one after the other up to the first one that raises. *)
Fixpoint sequence (fails : action -> bool) (todo : list action)
    : list action * option action :=
  match todo with
  | [] => ([], None)
  | a :: todo' =>
      if fails a then ([a], Some a)
      else
        let (done, failed) := sequence fails todo' in
        (a :: done, failed)
  end.

(** A sequence of calls followed by the rest of [main()]. *)
Definition and_then (fails : action -> bool) (todo : list action)
    (continue : outcome) : outcome :=
  match sequence fails todo with
  | (done, Some a) => {| calls := done; final := Failed a |}
  | (done, None) => {| calls := done ++ calls continue; final := final continue |}
  end.

(** The [try] block of [main()] with its [finally] clause.  [my_ui] is
    bound when [UI()] has returned, [my_fm] when [FM(ui=my_ui)] has. *)
Definition browse (env : Surroundings) : outcome :=
  let body := sequence (fails env) [NewUI; NewFMWithUI; FMInitialize; UIInitialize; Loop] in
  let my_ui := negb (fails env NewUI) in
  let my_fm := my_ui && negb (fails env NewFMWithUI) in
  let ended := match snd body with
               | Some a => Failed a
               | None => Returned
               end in
  if my_ui && fails env UIDestroy then
    {| calls := fst body ++ [UIDestroy]; final := Failed UIDestroy |}
  else
    {| calls := fst body
                ++ (if my_ui then [UIDestroy] else [])
                ++ (if cd_after_exit (args env) && my_fm then [WritePwd] else []);
       final := ended |}.


(** [destroy()] is the last call, or the last but for the writing of the
    directory. *)
Definition ends_with_cleanup (made : list action) : bool :=
  match reverse made with
  | UIDestroy :: _ => true
  | WritePwd :: UIDestroy :: _ => true
  | _ => false
  end.

(** How often the call [a] was made. *)
Definition times (a : action) (made : list action) : nat :=
  length (List.filter (fun b => bool_decide (b = a)) made).

(** The surroundings with another answer to which calls raise. *)
Definition with_fails (f : action -> bool) (env : Surroundings) : Surroundings :=
  {| args := args env; errormessage := errormessage env;
     access := access env; isfile := isfile env; fails := f;
     parse_exit := parse_exit env |}.

(** The outcome [r] after the call [a] has returned. *)
Definition preceded_by (a : action) (r : outcome) : outcome :=
  {| calls := a :: calls r; final := final r |}.

(** [main()].  An [ImportError] of [import curses] is caught; the other
    imports are taken to succeed.  The assignment of [stderr_to_out] is
    not a call and leaves no trace.  A [SystemExit] raised by
    [parse_args()] ends [main()] with its status. *)
Definition main (env : Surroundings) : outcome :=
  if fails env ImportCurses then
    let exit :=
      and_then (fails env)
        [Print (errormessage env);
         Print "ranger requires the python curses module. Aborting."]
        {| calls := []; final := Exited 1 |} in
    {| calls := ImportCurses :: calls exit; final := final exit |}
  else
    and_then (fails env) [ImportCurses; SetLocale "en_US.utf8"; StatFloatTimes]
      (if fails env ParseArgs then
         {| calls := [ParseArgs];
            final := match parse_exit env with
                     | Some code => Exited code
                     | None => Failed ParseArgs
                     end |}
       else
         preceded_by ParseArgs
           (and_then (fails env)
              (if cd_after_exit (args env) then [RedirectStderr] else [])
              (let target := Py.join " " (rest (args env)) in
               let start path :=
                 and_then (fails env) [SettingsSetup; NewEnvironment path] (browse env) in
               if negb (String.eqb target "") then
                 and_then (fails env) [Access target]
                   (if negb (access env target) then
                      and_then (fails env)
                        [Print ("File or directory doesn't exist: " +:+ target)]
                        {| calls := []; final := Exited 1 |}
                    else
                      and_then (fails env) [IsFile target]
                        (if isfile env target then
                           and_then (fails env)
                             [NewFile target; NewFM; ExecuteFile target]
                             {| calls := []; final := Exited 0 |}
                         else start target))
               else start "."))).

End Main.

(** ** Sample data *)

Module Sample.

Definition user : Credentials := {| real_uid := 1000; effective_uid := 1000 |}.

(** A process that runs with the rights of another user. *)
Definition setuid_user : Credentials := {| real_uid := 1000; effective_uid := 0 |}.

Definition passwd (uid : Z) : option string :=
  if uid =? 1000 then Some "alice" else if uid =? 0 then Some "root" else None.

Definition group (gid : Z) : option string :=
  if gid =? 100 then Some "users" else None.

Definition readable (v : option Z) : string :=
  match v with
  | Some n => Py.str n
  | None => "-"
  end.

(** A window that accepts every write, a bar that is never shrunk. *)
Definition platform : Platform :=
  {| process := user;
     getpwuid := passwd;
     getgrgid := group;
     strftime := fun _ t => "@" +:+ Py.str t;
     human_readable := readable;
     shrink_by_removing := fun _ bar => bar;
     combine := fun bar => app (left bar) (right bar);
     addnstr_ok := fun _ _ _ _ => true;
     addstr_ok := fun _ _ => true |}.

(** The same with a window of three columns that rejects a write that
    does not start inside it. *)
Definition narrow_platform : Platform :=
  {| process := user;
     getpwuid := passwd;
     getgrgid := group;
     strftime := fun _ t => "@" +:+ Py.str t;
     human_readable := readable;
     shrink_by_removing := fun _ bar => bar;
     combine := fun bar => app (left bar) (right bar);
     addnstr_ok := fun _ x _ _ => (0 <=? x) && (x <? 3);
     addstr_ok := fun _ _ => true |}.

Definition setuid_platform : Platform :=
  {| process := setuid_user;
     getpwuid := passwd;
     getgrgid := group;
     strftime := fun _ t => "@" +:+ Py.str t;
     human_readable := readable;
     shrink_by_removing := fun _ bar => bar;
     combine := fun bar => app (left bar) (right bar);
     addnstr_ok := fun _ _ _ _ => true;
     addstr_ok := fun _ _ => true |}.

(** A window that rejects every write but that of the first fragment of
    the bar. *)
Definition rejecting_platform : Platform :=
  {| process := user;
     getpwuid := passwd;
     getgrgid := group;
     strftime := fun _ t => "@" +:+ Py.str t;
     human_readable := readable;
     shrink_by_removing := fun _ bar => bar;
     combine := fun bar => app (left bar) (right bar);
     addnstr_ok := fun _ _ _ _ => false;
     addstr_ok := fun written _ => match written with [] => true | _ => false end |}.

Definition file (id : nat) (uid : Z) (sz : Z) : File :=
  {| ident := id;
     stat := Some {| st_uid := uid; st_gid := 100; st_nlink := 1; st_mtime := 1262304000 |};
     permission_string := "-rw-r--r--";
     is_link := false;
     exists_ := true;
     readlink := "";
     infostring := Some "4 K";
     is_file := true;
     size := sz |}.

(** A file whose [stat] cannot be read, and the same file with the
    modification time [-1]. *)
Definition file_without_stat : File :=
  {| ident := 9; stat := None; permission_string := "----------";
     is_link := false; exists_ := true; readlink := ""; infostring := None;
     is_file := true; size := 0 |}.

Definition file_with_mtime_minus_one : File :=
  {| ident := 9;
     stat := Some {| st_uid := 1000; st_gid := 100; st_nlink := 1; st_mtime := -1 |};
     permission_string := "----------";
     is_link := false; exists_ := true; readlink := ""; infostring := None;
     is_file := true; size := 0 |}.

Definition a_link : File :=
  {| ident := 8;
     stat := Some {| st_uid := 1000; st_gid := 100; st_nlink := 1; st_mtime := 1262304000 |};
     permission_string := "lrwxrwxrwx";
     is_link := true; exists_ := false; readlink := "gone"; infostring := None;
     is_file := false; size := 0 |}.

Definition f1 := file 1 1000 10.
Definition f2 := file 2 1000 20.
Definition f3 := file 3 1000 30.
Definition f4 := file 4 1000 40.
Definition f5 := file 5 1000 50.

Definition dir (marked : list File) (begin : Z) (du : option Z) : Directory :=
  {| is_directory := true;
     accessible := true;
     files := Some [f1; f2; f3; f4; f5];
     marked_items := marked;
     scroll_begin := begin;
     disk_usage := du;
     mount_path := "/";
     pointed_obj := Some f1 |}.

Definition env_of (d : Directory) (height : Z) : Env :=
  {| cf := pointed_obj d;
     cwd := d;
     at_level_0 := d;
     get_free_space := fun _ => 1000000;
     display_size_in_status_bar := true;
     column := Some {| target := Some d; hei := height |} |}.

Definition env : Env := env_of (dir [] 0 None) 40.

(** The same surroundings once the disk usage of the directory is known. *)
Definition env_with_du : Env := env_of (dir [] 0 (Some 4096)) 40.

(** The surroundings with [f] as the current and pointed-at file. *)
Definition env_at (f : File) : Env :=
  {| cf := Some f;
     cwd := dir [] 0 None;
     at_level_0 :=
       {| is_directory := true; accessible := true;
          files := Some [f1; f2; f3; f4; f5]; marked_items := [];
          scroll_begin := 0; disk_usage := None; mount_path := "/";
          pointed_obj := Some f |};
     get_free_space := fun _ => 1000000;
     display_size_in_status_bar := true;
     column := None |}.

(** Surroundings without a column and without a file pointed at. *)
Definition empty_env : Env :=
  {| cf := None;
     cwd := dir [] 0 None;
     at_level_0 :=
       {| is_directory := true; accessible := true;
          files := Some []; marked_items := [];
          scroll_begin := 0; disk_usage := None; mount_path := "/";
          pointed_obj := None |};
     get_free_space := fun _ => 1000000;
     display_size_in_status_bar := true;
     column := None |}.

(** A file of a user and a group that the user database does not know. *)
Definition strangers_file : File :=
  {| ident := 6;
     stat := Some {| st_uid := 1234; st_gid := 4321; st_nlink := 1; st_mtime := 1262304000 |};
     permission_string := "-rw-------";
     is_link := false; exists_ := true; readlink := ""; infostring := None;
     is_file := true; size := 1 |}.

(** A file of the user with the id 0. *)
Definition roots_file : File := file 10 0 10.

Definition fresh (wid : Z) : World :=
  {| sb := StatusBar_init true wid 0; owners := ∅; groups := ∅ |}.

Definition saved : Message := Message_init 0 "saved" 4 false.

(** A start of the program with the given command line, where the
    target exists and is a directory, and the calls in [failing] raise. *)
Definition start (cd : bool) (arguments : list string) (failing : list Main.action)
    : Main.Surroundings :=
  {| Main.args := {| Main.cd_after_exit := cd; Main.rest := arguments |};
     Main.errormessage := "No module named curses";
     Main.access := fun _ => true;
     Main.isfile := fun _ => false;
     Main.fails := fun a => bool_decide (a ∈ failing);
     Main.parse_exit := None |}.




End Sample.

(** * Properties *)

(** ** The built-ins on examples *)

Example split_abc : Py.split "a//b//c" = ["a"; "b"; "c"].
Proof. reflexivity. Qed.

Example split_three_slashes : Py.split "///" = [""; "/"].
Proof. reflexivity. Qed.

Example split_no_separator : Py.split "abc" = ["abc"].
Proof. reflexivity. Qed.

Example str_examples : Py.str 1234 = "1234" /\ Py.str 0 = "0" /\ Py.str (-7) = "-7".
Proof. repeat split; reflexivity. Qed.

Example format_0f_examples :
  Py.format_0f (Py.fdiv (Py.fmul (Py.float 100) (Py.float 5)) (Py.float 10)) = "50"
  /\ Py.format_0f (Py.fdiv (Py.fmul (Py.float 100) (Py.float 1)) (Py.float 8)) = "12"
  /\ Py.format_0f (Py.fdiv (Py.fmul (Py.float 100) (Py.float 3)) (Py.float 8)) = "38"
  /\ Py.format_0f (Py.fdiv (Py.fmul (Py.float 100) (Py.float 2)) (Py.float 3)) = "67".
Proof. repeat split; vm_compute; reflexivity. Qed.

Example percentage_examples :
  percentage 5 10 = "50%" /\ percentage 1 8 = "12%" /\ percentage 3 8 = "38%"
  /\ percentage 1 3 = "33%" /\ percentage 2 3 = "67%".
Proof. repeat split; vm_compute; reflexivity. Qed.

(** ** Running the monad *)

Lemma run_eta {A} (r : run A) :
  {| value := value r; world := world r; trace := trace r |} = r.
Proof. destruct r; reflexivity. Qed.

Lemma with_sb_same (w : World) : with_sb (sb w) w = w.
Proof. destruct w; reflexivity. Qed.

Lemma need_redraw_already (me : StatusBar) :
  need_redraw me = true -> with_need_redraw true me = me.
Proof. destruct me; simpl; intros ->; reflexivity. Qed.

Lemma bind_done {A B} (m : M A) (k : A -> M B) (w : World) (a : A) :
  value (m w) = Done a ->
  (x <- m;; k x) w =
  {| value := value (k a (world (m w)));
     world := world (k a (world (m w)));
     trace := trace (m w) ++ trace (k a (world (m w))) |}.
Proof. intros E. unfold bind. rewrite E. reflexivity. Qed.

Lemma trace_bind_prefix {A B} (m : M A) (k : A -> M B) (w : World) :
  exists rest, trace ((x <- m;; k x) w) = trace (m w) ++ rest.
Proof.
  unfold bind. destruct (value (m w)); simpl.
  - eexists; reflexivity.
  - exists []. symmetry. apply app_nil_r.
Qed.

Lemma bind_read {A B} (f : World -> A) (k : A -> M B) (w : World) :
  (a <- read f;; k a) w = k (f w) w.
Proof. unfold bind, read. simpl. apply run_eta. Qed.

Lemma bind_store {B} (f : World -> World) (k : unit -> M B) (w : World) :
  (a <- store f;; k a) w = k tt (f w).
Proof. unfold bind, store. simpl. apply run_eta. Qed.

Lemma bind_ret {A B} (a : A) (k : A -> M B) (w : World) :
  (a' <- ret a;; k a') w = k a w.
Proof. unfold bind, ret. simpl. apply run_eta. Qed.

Lemma bind_emit {B} (e : event) (k : unit -> M B) (w : World) :
  (a <- emit e;; k a) w =
  {| value := value (k tt w); world := world (k tt w); trace := e :: trace (k tt w) |}.
Proof. reflexivity. Qed.

Lemma bind_assoc {A B C} (m : M A) (f : A -> M B) (g : B -> M C) (w : World) :
  (b <- (a <- m;; f a);; g b) w = (a <- m;; b <- f a;; g b) w.
Proof.
  unfold bind. destruct (value (m w)) as [a|]; simpl; [|reflexivity].
  destruct (value (f a (world (m w)))) as [b|]; simpl.
  - rewrite app_assoc. reflexivity.
  - reflexivity.
Qed.

(** One step of a computation whose head is a read, a write, a return
    or a nested sequence. *)
Ltac run_step :=
  first [ rewrite bind_read | rewrite bind_store | rewrite bind_ret
        | rewrite bind_assoc ];
  cbv beta.

Lemma sb_bind {A B} (m : M A) (k : A -> M B) (w : World) (Q : StatusBar -> Prop) :
  Q (sb (world (m w))) ->
  (forall a w', Q (sb w') -> Q (sb (world (k a w')))) ->
  Q (sb (world ((x <- m;; k x) w))).
Proof.
  intros Hm Hk. unfold bind. destruct (value (m w)); simpl; auto.
Qed.

Section Properties.

Context {P : Platform}.

(** ** What the parts of [draw()] leave untouched *)

Lemma _get_owner_sb target w : sb (world (_get_owner target w)) = sb w.
Proof.
  unfold _get_owner. destruct (stat target) as [st|]; [|reflexivity].
  unfold bind, read, emit, store, ret; simpl.
  destruct (owners w !! st_uid st); simpl; [reflexivity|].
  destruct (getpwuid (st_uid st)); reflexivity.
Qed.

Lemma _get_group_sb target w : sb (world (_get_group target w)) = sb w.
Proof.
  unfold _get_group. destruct (stat target) as [st|]; [|reflexivity].
  unfold bind, read, emit, store, ret; simpl.
  destruct (groups w !! st_gid st); simpl; [reflexivity|].
  destruct (getgrgid (st_gid st)); reflexivity.
Qed.

Lemma _get_left_part_sb env bar w :
  sb (world (_get_left_part env bar w)) = sb w.
Proof.
  unfold _get_left_part.
  destruct (left_target env) as [target|]; [|reflexivity].
  destruct (stat target) as [st|] eqn:Est; [|reflexivity].
  apply (sb_bind _ _ _ (fun me => me = sb w)); [apply _get_owner_sb|].
  intros owner w1 E1.
  apply (sb_bind _ _ _ (fun me => me = sb w)); [rewrite _get_group_sb; exact E1|].
  intros group w2 E2.
  destruct (is_link target); simpl; exact E2.
Qed.

Lemma _get_right_part_sb env bar w :
  sb (world (_get_right_part env bar w)) = sb w.
Proof.
  unfold _get_right_part.
  destruct (column env) as [col|]; [|reflexivity].
  destruct (target col) as [t|]; [|reflexivity].
  destruct (negb (accessible t) || _); [reflexivity|].
  destruct (files t) as [listing|]; [|reflexivity].
  repeat match goal with |- context [if ?b then _ else _] => destruct b end;
    reflexivity.
Qed.

(** [_calc_bar] assigns [result] at most. *)
Lemma _calc_bar_sb env w :
  exists res, sb (world (_calc_bar env w)) = with_result res (sb w).
Proof.
  unfold _calc_bar.
  apply (sb_bind _ _ _ (fun me => exists res, me = with_result res (sb w))).
  { exists (result (sb w)). simpl. destruct (sb w); reflexivity. }
  intros _ w0 [res0 E0].
  apply (sb_bind _ _ _ (fun me => exists res, me = with_result res (sb w))).
  { rewrite _get_left_part_sb. eauto. }
  intros bar1 w1 [res1 E1].
  apply (sb_bind _ _ _ (fun me => exists res, me = with_result res (sb w))).
  { rewrite _get_right_part_sb. eauto. }
  intros bar2 w2 [res2 E2].
  unfold bind, self, read, update, store; simpl.
  rewrite E2. eexists. reflexivity.
Qed.

Lemma _print_parts_world parts written w :
  world (_print_parts parts written w) = w.
Proof.
  revert written w. induction parts as [|part rest IH]; intros written w; [reflexivity|].
  simpl. unfold bind, color, addstr, emit, raise, ret; simpl.
  destruct (addstr_ok written (cs_string part)); simpl; [apply IH|reflexivity].
Qed.

Lemma _print_result_world res w : world (_print_result res w) = w.
Proof.
  unfold _print_result, bind, emit; simpl.
  destruct res as [parts|]; simpl.
  - pose proof (_print_parts_world parts [] w) as E.
    destruct (value (_print_parts parts [] w)); simpl; exact E.
  - reflexivity.
Qed.

(** Repainting assigns [result] at most. *)
Lemma repaint_sb env w :
  exists res, sb (world (repaint env w)) = with_result res (sb w).
Proof.
  unfold repaint.
  apply (sb_bind _ _ _ (fun me => exists res, me = with_result res (sb w))).
  { apply _calc_bar_sb. }
  intros _ w1 E1.
  unfold bind, self, read; cbn -[_print_result].
  rewrite _print_result_world. exact E1.
Qed.

(** Repainting goes through [_calc_bar]. *)
Lemma repaint_recomposed env w : recomposed (repaint env w).
Proof.
  unfold recomposed, repaint.
  destruct (trace_bind_prefix (_calc_bar env)
              (fun _ => me <- self;; _print_result (result me)) w) as [rest ->].
  unfold _calc_bar.
  destruct (trace_bind_prefix (emit Composed)
              (fun _ => bar <- _get_left_part env (Bar_new "in_statusbar");;
                        bar <- _get_right_part env bar;;
                        me <- self;;
                        update (with_result (Some (combine (shrink_by_removing (wid me) bar))))) w)
    as [rest' ->].
  simpl. left. reflexivity.
Qed.

(** ** The control flow of [draw()] *)

(** The content path: the fingerprint is brought up to date, and the bar
    is repainted when the flag was set or the fingerprint was stale. *)
Lemma draw_content_run env w :
  draw_content env w =
  if need_redraw (sb w) || fingerprint_stale (sb w) env
  then repaint env (with_sb (with_need_redraw false (remembered (sb w) env)) w)
  else skipped (with_sb (remembered (sb w) env) w).
Proof.
  unfold draw_content. fold (repaint env).
  unfold fingerprint_stale, remembered, skipped, self, update, when.
  destruct w as [me ow gr].
  run_step; cbn -[repaint].
  destruct (result_truthy (result me)); cbn -[repaint];
    repeat run_step; cbn -[repaint];
  (destruct (Py.truthy_int (old_du me) && negb (Py.truthy_int (disk_usage (cwd env))));
    cbn -[repaint]; repeat run_step; cbn -[repaint]);
  (destruct (cf_ne (old_cf me) (cf env)); cbn -[repaint];
    repeat run_step; cbn -[repaint]);
  (destruct (mtime_ne (old_mtime me) (observed_mtime env)); cbn -[repaint];
    repeat run_step; cbn -[repaint]);
  (destruct (need_redraw me); cbn -[repaint]; repeat run_step; cbn -[repaint]);
  rewrite ?run_eta; reflexivity.
Qed.

(** A fingerprint that is not stale is left as it is. *)
Lemma remembered_fresh me env :
  fingerprint_stale me env = false -> remembered me env = me.
Proof.
  unfold fingerprint_stale, remembered. intros E.
  apply orb_false_elim in E as [E Em].
  apply orb_false_elim in E as [E Ec].
  apply orb_false_elim in E as [_ Ed].
  rewrite Ed, Ec, Em. reflexivity.
Qed.

Lemma cf_ne_refl (c : option File) : cf_ne c c = false.
Proof. destruct c; simpl; [rewrite Nat.eqb_refl|]; reflexivity. Qed.

(** Once brought up to date, a fingerprint with a non-empty result is
    fresh in the same surroundings. *)
Lemma remembered_is_fresh me env res :
  result_truthy res = true ->
  fingerprint_stale (with_result res (with_need_redraw false (remembered me env))) env = false.
Proof.
  intros Hres. unfold fingerprint_stale, remembered.
  destruct (Py.truthy_int (old_du me) && negb (Py.truthy_int (disk_usage (cwd env)))) eqn:Ed;
  destruct (cf_ne (old_cf _) (cf env)) eqn:Ec;
  destruct (mtime_ne (old_mtime _) (observed_mtime env)) eqn:Em;
  simpl in *; rewrite Hres; simpl;
  rewrite ?cf_ne_refl, ?Z.eqb_refl, ?Ec, ?Em; simpl;
  rewrite ?orb_false_r;
  try reflexivity.
  all: try (apply andb_true_iff in Ed as [_ Ed]; apply negb_true_iff in Ed;
            rewrite Ed; simpl; rewrite ?andb_false_r; reflexivity).
  all: try (rewrite Ed; reflexivity).
Qed.

(** The whole of [draw()]. *)
Lemma draw_run env now w :
  draw env now w =
  if shows_hint (sb w) then
    match hint (sb w) with
    | HStr s =>
        if hint_ne_str (old_hint (sb w)) s || need_redraw (sb w)
        then _draw_hint (with_sb (with_need_redraw true (sb w)) w)
        else skipped w
    | _ => skipped w
    end
  else if shows_message now (forget_hint (sb w))
  then _draw_message (with_sb (forget_hint (sb w)) w)
  else draw_content env (with_sb (drop_message (forget_hint (sb w))) w).
Proof.
  unfold draw, draw_below_hint, shows_hint, shows_message, forget_hint, drop_message,
    skipped, self, update, when.
  run_step.
  destruct (hint_truthy (hint (sb w)) && hint_is_str (hint (sb w))) eqn:Eh.
  - destruct (hint (sb w)) as [|s|b] eqn:Ehint;
      try (rewrite andb_false_r in Eh; discriminate Eh).
    destruct (hint_ne_str (old_hint (sb w)) s) eqn:Ene;
      repeat run_step; cbn -[_draw_hint].
    + reflexivity.
    + destruct (need_redraw (sb w)) eqn:Enr; cbn -[_draw_hint].
      * rewrite (need_redraw_already _ Enr), with_sb_same. reflexivity.
      * reflexivity.
  - run_step.
    destruct (hint_truthy (old_hint (sb w)) && negb (hint_truthy (hint (sb w))));
      repeat run_step; cbn -[_draw_message draw_content is_alive].
    + destruct (msg (sb w)) as [m|]; [destruct (is_alive now m)|];
        repeat run_step; reflexivity.
    + destruct (msg (sb w)) as [m|] eqn:Em; [destruct (is_alive now m)|];
        repeat run_step; cbn -[_draw_message draw_content is_alive];
        rewrite ?with_sb_same; reflexivity.
Qed.

(** ** Drawing the overlays *)

(** Drawing the message: three operations on the window, nothing else. *)
Lemma _draw_message_run m w :
  msg (sb w) = Some m ->
  world (_draw_message w) = w
  /\ trace (_draw_message w) =
     [Erase;
      Color ["in_statusbar"; "message"; if bad m then "bad" else "good"];
      AddNStr 0 0 (text m) (wid (sb w))].
Proof.
  intros E. unfold _draw_message, bind, self, read, emit, color, addnstr, raise, ret.
  simpl. rewrite E. simpl.
  destruct (addnstr_ok 0 0 (text m) (wid (sb w))); simpl; split; reflexivity.
Qed.

(** One turn of the loop of [_draw_hint]. *)
Lemma _draw_hint_loop_step seg rest hl sl sp w :
  _draw_hint_loop (seg :: rest) hl sl sp w =
  let tags := if negb hl then ["in_statusbar"; "text"; "highlight"]
              else ["in_statusbar"; "text"] in
  if addnstr_ok 0 sp seg sl then
    let r := _draw_hint_loop rest (negb hl) (sl - Py.len seg) (sp + Py.len seg) w in
    {| value := value r; world := world r;
       trace := Color tags :: AddNStr 0 sp seg sl :: trace r |}
  else
    {| value := Done tt; world := w; trace := [Color tags; AddNStr 0 sp seg sl] |}.
Proof.
  cbn [_draw_hint_loop]. unfold bind, color, emit, try_, addnstr, raise, ret.
  destruct (negb hl); cbn -[_draw_hint_loop];
    destruct (addnstr_ok 0 sp seg sl); reflexivity.
Qed.

(** The loop of [_draw_hint] always returns and changes nothing. *)
Lemma _draw_hint_loop_returns segs hl sl sp w :
  value (_draw_hint_loop segs hl sl sp w) = Done tt
  /\ world (_draw_hint_loop segs hl sl sp w) = w.
Proof.
  revert hl sl sp. induction segs as [|seg rest IH]; intros hl sl sp.
  - split; reflexivity.
  - rewrite _draw_hint_loop_step. cbn zeta.
    destruct (addnstr_ok 0 sp seg sl); cbn [value world]; [apply IH|split; reflexivity].
Qed.

Lemma total_len_take_S (segs : list string) (i : nat) (seg : string) :
  segs !! i = Some seg ->
  total_len (take (S i) segs) = total_len (take i segs) + Py.len seg.
Proof.
  revert i. induction segs as [|s0 rest IH]; intros i E; [discriminate|].
  destruct i as [|i].
  - simpl in E. injection E as ->. unfold total_len. simpl. lia.
  - simpl in E. specialize (IH i E). unfold total_len in *. simpl.
    simpl in IH. rewrite IH. lia.
Qed.

(** The loop, started at segment [i] with the flag, the width left and
    the column it has there, attempts the writes [i], [i+1], ... up to
    the first one that is rejected. *)
Lemma _draw_hint_loop_trace x0 W (segs : list string) n i w :
  (i + n = length segs)%nat ->
  trace (_draw_hint_loop (drop i segs) (Nat.even i)
           (W - total_len (take i segs)) (x0 + total_len (take i segs)) w)
  = flat_map (hint_write x0 W segs)
      (seq i (attempts (hint_write_accepted x0 W segs) i n)).
Proof.
  revert i. induction n as [|n IH]; intros i Hlen.
  - rewrite drop_ge by lia. reflexivity.
  - destruct (lookup_lt_is_Some_2 segs i) as [seg Eseg]; [lia|].
    rewrite (drop_S _ _ _ Eseg), _draw_hint_loop_step.
    cbn [attempts]. cbn zeta.
    unfold hint_write_accepted at 1. rewrite Eseg. cbn zeta.
    assert (Estyle : (if negb (Nat.even i)
                      then ["in_statusbar"; "text"; "highlight"]
                      else ["in_statusbar"; "text"]) = hint_style i).
    { unfold hint_style. destruct (Nat.even i); reflexivity. }
    rewrite Estyle.
    destruct (addnstr_ok 0 (x0 + total_len (take i segs)) seg
                (W - total_len (take i segs))) eqn:Eok.
    + cbn [seq flat_map trace].
      unfold hint_write at 1. rewrite Eseg. cbn zeta.
      specialize (IH (S i) ltac:(lia)).
      rewrite (total_len_take_S _ _ _ Eseg) in IH.
      replace (Nat.even (S i)) with (negb (Nat.even i)) in IH
        by (rewrite Nat.even_succ, <- Nat.negb_even; reflexivity).
      replace (W - (total_len (take i segs) + Py.len seg))
        with (W - total_len (take i segs) - Py.len seg) in IH by lia.
      replace (x0 + (total_len (take i segs) + Py.len seg))
        with (x0 + total_len (take i segs) + Py.len seg) in IH by lia.
      rewrite IH. reflexivity.
    + cbn [seq flat_map trace].
      unfold hint_write at 1. rewrite Eseg. reflexivity.
Qed.

Lemma split_go_step c d rest cur :
  Py.split_go (String c (String d rest)) cur =
  if Ascii.eqb c "/" && Ascii.eqb d "/"
  then cur :: Py.split_go rest ""
  else Py.split_go (String d rest) (cur +:+ String c "").
Proof. reflexivity. Qed.

Lemma split_go_not_nil s cur : Py.split_go s cur <> [].
Proof.
  remember (String.length s) as n eqn:En.
  revert s cur En. induction n as [n IH] using lt_wf_ind. intros s cur En.
  destruct s as [|c [|d rest]]; try discriminate.
  rewrite split_go_step.
  destruct (Ascii.eqb c "/" && Ascii.eqb d "/"); [discriminate|].
  apply (IH (String.length (String d rest))); [subst n; cbn; lia|reflexivity].
Qed.

(** At least one write is attempted when there is a segment. *)
Lemma attempts_pos accepted i n : (1 <= n)%nat -> (1 <= attempts accepted i n)%nat.
Proof.
  destruct n as [|n]; [lia|]. intros _. cbn [attempts].
  destruct (accepted i); lia.
Qed.

(** No write is attempted behind one that is rejected. *)
Lemma attempts_upto accepted i n j :
  (i <= j)%nat -> accepted j = false -> (i + attempts accepted i n <= S j)%nat.
Proof.
  revert i. induction n as [|n IH]; intros i Hij Hj; cbn [attempts]; [lia|].
  destruct (accepted i) eqn:Ei; [|lia].
  assert (i <> j) by (intros ->; congruence).
  specialize (IH (S i) ltac:(lia) Hj). lia.
Qed.

Lemma attempts_le accepted i n : (attempts accepted i n <= n)%nat.
Proof.
  revert i. induction n as [|n IH]; intros i; simpl; [lia|].
  destruct (accepted i); [specialize (IH (S i))|]; lia.
Qed.

Lemma attempts_accepted accepted i n j :
  (i <= j)%nat -> (S j < i + attempts accepted i n)%nat -> accepted j = true.
Proof.
  revert i. induction n as [|n IH]; intros i Hij Hj; simpl in Hj; [lia|].
  destruct (accepted i) eqn:Ei; [|lia].
  destruct (decide (i = j)) as [->|Hne]; [exact Ei|].
  apply (IH (S i)); lia.
Qed.

Lemma attempts_stop accepted i n :
  (attempts accepted i n < n)%nat ->
  (1 <= attempts accepted i n)%nat
  /\ accepted (i + attempts accepted i n - 1)%nat = false.
Proof.
  revert i. induction n as [|n IH]; intros i Hlt; simpl in *; [lia|].
  destruct (accepted i) eqn:Ei.
  - destruct (IH (S i)) as [H1 H2]; [lia|]. split; [lia|].
    replace (i + S (attempts accepted (S i) n) - 1)%nat
      with (S i + attempts accepted (S i) n - 1)%nat by lia.
    exact H2.
  - split; [lia|]. replace (i + 1 - 1)%nat with i by lia. exact Ei.
Qed.

(** C4.  [_draw_hint] splits the hint on the separator and writes the
    segments from left to right, the first plain, the second
    highlighted, and so on, each at the column behind the segments
    before it and with the width that is left as its limit.  At least
    the first segment is attempted.  Drawing stops at the first write
    that the window rejects: every earlier write was accepted, no later
    segment is attempted, and the call returns normally without changing
    the widget.  On a window that rejects a write starting at or behind
    its last column, as a curses window does, a segment for which no
    width is left is rejected, so that it is not drawn and nothing is
    attempted after it.  If every write is accepted, every segment is
    written. *)
Theorem C4_hint_drawn_until_rejected s w :
  hint (sb w) = HStr s ->
  let segs := Py.split s in
  let x0 := x (sb w) in
  let W := wid (sb w) in
  let n := attempts (hint_write_accepted x0 W segs) 0 (length segs) in
  value (_draw_hint w) = Done tt
  /\ world (_draw_hint w) = w
  /\ trace (_draw_hint w) = Erase :: flat_map (hint_write x0 W segs) (seq 0 n)
  /\ (1 <= n)%nat
  /\ (forall i, (S i < n)%nat -> hint_write_accepted x0 W segs i = true)
  /\ ((n < length segs)%nat -> hint_write_accepted x0 W segs (n - 1) = false)
  /\ (forall i, (i < length segs)%nat ->
        hint_write_accepted x0 W segs i = false -> (n <= S i)%nat)
  /\ (0 <= x0 ->
      (forall y col str k, W <= col -> addnstr_ok y col str k = false) ->
      forall i, (i < length segs)%nat ->
        W - total_len (take i segs) <= 0 ->
        hint_write_accepted x0 W segs i = false /\ (n <= S i)%nat)
  /\ ((forall i, (i < length segs)%nat -> hint_write_accepted x0 W segs i = true) ->
      n = length segs).
Proof.
  intros Eh segs x0 W n.
  assert (Erun : _draw_hint w =
                 {| value := value (_draw_hint_loop segs true W x0 w);
                    world := world (_draw_hint_loop segs true W x0 w);
                    trace := Erase :: trace (_draw_hint_loop segs true W x0 w) |}).
  { unfold _draw_hint, bind, self, read, emit. cbn -[_draw_hint_loop].
    rewrite Eh. reflexivity. }
  destruct (_draw_hint_loop_returns segs true W x0 w) as [Hv Hw].
  assert (Hstop : (n < length segs)%nat ->
                  (1 <= n)%nat /\ hint_write_accepted x0 W segs (n - 1) = false).
  { intros Hlt. apply (attempts_stop _ 0 (length segs) Hlt). }
  assert (Hbehind : forall i, hint_write_accepted x0 W segs i = false -> (n <= S i)%nat).
  { intros i Hi.
    pose proof (attempts_upto (hint_write_accepted x0 W segs) 0 (length segs) i
                  ltac:(lia) Hi) as H.
    fold n in H. lia. }
  rewrite Erun. cbn [value world trace].
  split; [exact Hv|]. split; [exact Hw|].
  split.
  { f_equal.
    pose proof (_draw_hint_loop_trace x0 W segs (length segs) 0 w eq_refl) as Ht.
    rewrite drop_0 in Ht. cbn [take Nat.even] in Ht.
    unfold total_len in Ht at 1 2. cbn [map foldr] in Ht.
    rewrite Z.sub_0_r, Z.add_0_r in Ht. exact Ht. }
  split.
  { apply attempts_pos. pose proof (split_go_not_nil s "") as Hne.
    fold (Py.split s) in Hne. fold segs in Hne.
    destruct segs; [contradiction|cbn [length]; lia]. }
  split.
  { intros i Hi. apply (attempts_accepted _ 0 (length segs) i); [lia|exact Hi]. }
  split; [intros Hlt; apply (Hstop Hlt)|].
  split; [intros i _; apply Hbehind|].
  split.
  { intros Hx Hwin i Hi Hleft.
    assert (Hrej : hint_write_accepted x0 W segs i = false).
    { unfold hint_write_accepted.
      destruct (segs !! i) as [seg|]; [|reflexivity].
      cbv zeta. apply Hwin. lia. }
    split; [exact Hrej|apply Hbehind; exact Hrej]. }
  intros Hall.
  destruct (decide (n < length segs)%nat) as [Hlt|Hge].
  - destruct (Hstop Hlt) as [H1 H2]. rewrite Hall in H2; [discriminate|lia].
  - pose proof (attempts_le (hint_write_accepted x0 W segs) 0 (length segs)).
    fold n in H. lia.
Qed.

(** ** Frames: what the bookkeeping leaves alone *)

Lemma forget_hint_fields me :
  hint (forget_hint me) = hint me
  /\ msg (forget_hint me) = msg me
  /\ result (forget_hint me) = result me
  /\ old_cf (forget_hint me) = old_cf me
  /\ old_mtime (forget_hint me) = old_mtime me
  /\ old_du (forget_hint me) = old_du me
  /\ wid (forget_hint me) = wid me.
Proof.
  unfold forget_hint.
  destruct (hint_truthy (old_hint me) && negb (hint_truthy (hint me)));
    repeat split; reflexivity.
Qed.

Lemma forget_hint_done me :
  hint_truthy (old_hint (forget_hint me)) && negb (hint_truthy (hint (forget_hint me)))
  = false.
Proof.
  unfold forget_hint.
  destruct (hint_truthy (old_hint me) && negb (hint_truthy (hint me))) eqn:E;
    [reflexivity|exact E].
Qed.

Lemma forget_hint_idem me : forget_hint (forget_hint me) = forget_hint me.
Proof.
  unfold forget_hint at 1. rewrite forget_hint_done. reflexivity.
Qed.

Lemma shows_message_forget now me :
  shows_message now (forget_hint me) = shows_message now me.
Proof.
  unfold shows_message. destruct (forget_hint_fields me) as (_ & -> & _). reflexivity.
Qed.

Lemma shows_hint_same me me' : hint me' = hint me -> shows_hint me' = shows_hint me.
Proof. unfold shows_hint. intros ->. reflexivity. Qed.

Lemma remembered_fields me env :
  hint (remembered me env) = hint me
  /\ msg (remembered me env) = msg me
  /\ old_hint (remembered me env) = old_hint me
  /\ result (remembered me env) = result me
  /\ need_redraw (remembered me env) = need_redraw me
  /\ wid (remembered me env) = wid me.
Proof.
  unfold remembered.
  destruct (Py.truthy_int (old_du me) && negb (Py.truthy_int (disk_usage (cwd env))));
    destruct (cf_ne (old_cf _) (cf env));
    destruct (mtime_ne (old_mtime _) (observed_mtime env));
    repeat split; reflexivity.
Qed.

(** After the fingerprint tests the remembered modification time is the
    observed one. *)
Lemma remembered_old_mtime me env :
  old_mtime (remembered me env) = Some (observed_mtime env).
Proof.
  unfold remembered.
  destruct (Py.truthy_int (old_du me) && negb (Py.truthy_int (disk_usage (cwd env))));
    destruct (cf_ne (old_cf _) (cf env));
    destruct (mtime_ne (old_mtime _) (observed_mtime env)) eqn:Em;
    try reflexivity;
    cbn in Em |- *; unfold mtime_ne in Em;
    destruct (old_mtime me) as [o|]; try discriminate Em;
    apply negb_false_iff, Z.eqb_eq in Em; subst o; reflexivity.
Qed.

(** The remembered disk usage stays false when it was. *)
Lemma remembered_old_du me env :
  Py.truthy_int (old_du me) = false ->
  old_du (remembered me env) = old_du me.
Proof.
  intros E. unfold remembered. rewrite E. cbn [andb].
  destruct (cf_ne (old_cf me) (cf env));
    destruct (mtime_ne (old_mtime _) (observed_mtime env)); reflexivity.
Qed.

Lemma drop_message_fields me :
  hint (drop_message me) = hint me
  /\ msg (drop_message me) = None
  /\ old_hint (drop_message me) = old_hint me
  /\ result (drop_message me) = result me
  /\ old_cf (drop_message me) = old_cf me
  /\ old_mtime (drop_message me) = old_mtime me
  /\ old_du (drop_message me) = old_du me
  /\ wid (drop_message me) = wid me.
Proof.
  unfold drop_message. destruct (msg me) eqn:E; repeat split; try reflexivity; exact E.
Qed.

Lemma _draw_hint_loop_not_recomposed segs hl sl sp w :
  ~ recomposed (_draw_hint_loop segs hl sl sp w).
Proof.
  unfold recomposed. revert hl sl sp.
  induction segs as [|seg rest IH]; intros hl sl sp Hc; [destruct Hc|].
  rewrite _draw_hint_loop_step in Hc. cbn zeta in Hc.
  destruct (addnstr_ok 0 sp seg sl); cbn [trace] in Hc.
  - destruct Hc as [Hc|[Hc|Hc]]; try discriminate. eapply IH, Hc.
  - destruct Hc as [Hc|[Hc|[]]]; discriminate.
Qed.

Lemma _draw_hint_unfold s w :
  hint (sb w) = HStr s ->
  _draw_hint w =
  {| value := value (_draw_hint_loop (Py.split s) true (wid (sb w)) (x (sb w)) w);
     world := world (_draw_hint_loop (Py.split s) true (wid (sb w)) (x (sb w)) w);
     trace := Erase :: trace (_draw_hint_loop (Py.split s) true (wid (sb w)) (x (sb w)) w) |}.
Proof.
  intros Eh. unfold _draw_hint, bind, self, read, emit. cbn -[_draw_hint_loop].
  rewrite Eh. reflexivity.
Qed.

Lemma _draw_hint_run s w :
  hint (sb w) = HStr s ->
  value (_draw_hint w) = Done tt
  /\ world (_draw_hint w) = w
  /\ ~ recomposed (_draw_hint w).
Proof.
  intros Eh. rewrite (_draw_hint_unfold s w Eh). cbn [value world].
  destruct (_draw_hint_loop_returns (Py.split s) true (wid (sb w)) (x (sb w)) w) as [Hv Hw].
  repeat split; try assumption.
  unfold recomposed. cbn [trace]. intros [Hc|Hc]; [discriminate|].
  exact (_draw_hint_loop_not_recomposed _ _ _ _ _ Hc).
Qed.

(** What [_draw_hint] does, in full: it erases the line and attempts
    the writes of the segments up to the first one that is rejected, at
    least that of the first segment. *)
Lemma _draw_hint_exact s w :
  hint (sb w) = HStr s ->
  let segs := Py.split s in
  let n := attempts (hint_write_accepted (x (sb w)) (wid (sb w)) segs) 0 (length segs) in
  (1 <= n)%nat
  /\ _draw_hint w =
     {| value := Done tt; world := w;
        trace := Erase :: flat_map (hint_write (x (sb w)) (wid (sb w)) segs) (seq 0 n) |}.
Proof.
  intros Eh segs n. split.
  - apply attempts_pos. pose proof (split_go_not_nil s "") as Hne.
    fold (Py.split s) in Hne. fold segs in Hne.
    destruct segs; [contradiction|cbn [length]; lia].
  - rewrite (_draw_hint_unfold s w Eh).
    destruct (_draw_hint_loop_returns segs true (wid (sb w)) (x (sb w)) w) as [Hv Hw].
    fold segs. rewrite Hv, Hw. f_equal. f_equal.
    pose proof (_draw_hint_loop_trace (x (sb w)) (wid (sb w)) segs (length segs) 0 w eq_refl)
      as Ht.
    rewrite drop_0 in Ht. cbn [take Nat.even] in Ht.
    unfold total_len in Ht at 1 2. cbn [map foldr] in Ht.
    rewrite Z.sub_0_r, Z.add_0_r in Ht. exact Ht.
Qed.

(** ** A widget at rest *)

Lemma at_rest_skipped env now w :
  at_rest env (sb w) -> draw env now w = skipped w.
Proof.
  intros (Hh & Hf & Hm & Hn & Hs).
  rewrite draw_run, Hh.
  assert (Ef : forget_hint (sb w) = sb w) by (unfold forget_hint; rewrite Hf; reflexivity).
  rewrite Ef. unfold shows_message, drop_message. rewrite Hm.
  rewrite with_sb_same, draw_content_run, Hn, Hs. cbn [orb].
  rewrite (remembered_fresh _ _ Hs), with_sb_same. reflexivity.
Qed.

(** What the content path leaves behind, whether it repaints or not. *)
Lemma draw_content_sb env w :
  exists res,
    sb (world (draw_content env w)) =
    with_result res
      (with_need_redraw
         (need_redraw (sb w) && negb (need_redraw (sb w) || fingerprint_stale (sb w) env))
         (remembered (sb w) env))
    /\ (need_redraw (sb w) || fingerprint_stale (sb w) env = false -> res = result (sb w)).
Proof.
  rewrite draw_content_run.
  destruct (need_redraw (sb w) || fingerprint_stale (sb w) env) eqn:E.
  - destruct (repaint_sb env (with_sb (with_need_redraw false (remembered (sb w) env)) w))
      as [res Hres].
    exists res. rewrite Hres. rewrite andb_false_r. split; [reflexivity|discriminate].
  - exists (result (sb w)). split; [|reflexivity].
    apply orb_false_elim in E as [En Ef]. rewrite En.
    rewrite (remembered_fresh _ _ Ef). cbn [skipped world sb with_sb andb].
    destruct (sb w); cbn in *; subst; reflexivity.
Qed.

(** The content path repaints exactly when the flag is set or the
    fingerprint is stale. *)
Lemma draw_content_recomposed env w :
  recomposed (draw_content env w) <->
  need_redraw (sb w) || fingerprint_stale (sb w) env = true.
Proof.
  rewrite draw_content_run.
  destruct (need_redraw (sb w) || fingerprint_stale (sb w) env).
  - split; [reflexivity|]. intros _. apply repaint_recomposed.
  - split; [intros []|discriminate].
Qed.

(** After a call that went down the content path and left a non-empty
    result, the widget is at rest in the same surroundings. *)
Lemma draw_content_at_rest env w :
  shows_hint (sb w) = false ->
  hint_truthy (old_hint (sb w)) && negb (hint_truthy (hint (sb w))) = false ->
  msg (sb w) = None ->
  result_truthy (result (sb (world (draw_content env w)))) = true ->
  at_rest env (sb (world (draw_content env w))).
Proof.
  intros Hh Hf Hm Hres.
  destruct (draw_content_sb env w) as (res & E & Hkeep).
  rewrite E in Hres |- *. cbn [result with_result] in Hres.
  destruct (remembered_fields (sb w) env) as (Fh & Fm & Foh & Fr & Fn & Fw).
  unfold at_rest, shows_hint in *.
  cbn [hint old_hint msg need_redraw with_result with_need_redraw].
  rewrite Fh, Fm, Foh. repeat split; try assumption.
  - destruct (need_redraw (sb w)); [|reflexivity].
    cbn [orb negb andb]. reflexivity.
  - destruct (need_redraw (sb w) || fingerprint_stale (sb w) env) eqn:Es.
    + rewrite andb_false_r. apply remembered_is_fresh. exact Hres.
    + apply orb_false_elim in Es as [En Es]. rewrite En. cbn [andb].
      rewrite (Hkeep eq_refl), (remembered_fresh _ _ Es).
      replace (with_result (result (sb w)) (with_need_redraw false (sb w))) with (sb w)
        by (destruct (sb w); cbn in *; subst; reflexivity).
      exact Es.
Qed.

(** Below the hint, with no live message, [draw()] is the content path
    run on a widget that holds no message. *)
Lemma draw_run_content env now w :
  shows_hint (sb w) = false ->
  shows_message now (sb w) = false ->
  draw env now w =
  draw_content env (with_sb (drop_message (forget_hint (sb w))) w).
Proof.
  intros Hh Hm. rewrite draw_run, Hh, shows_message_forget, Hm. reflexivity.
Qed.

Lemma draw_run_message env now w m :
  shows_hint (sb w) = false ->
  msg (sb w) = Some m ->
  is_alive now m = true ->
  draw env now w = _draw_message (with_sb (forget_hint (sb w)) w).
Proof.
  intros Hh Em Ha. rewrite draw_run, Hh, shows_message_forget.
  unfold shows_message. rewrite Em, Ha. reflexivity.
Qed.

(** C2, as amended.  Take a widget that shows no hint.  If it holds no
    live message, and a call of [draw()] leaves a non-empty result
    behind, then a second call in the same surroundings, at any time,
    recomposes nothing, writes nothing and changes nothing.  If it holds
    a live message, the second call erases the line and writes the
    message again, as the first did. *)
Theorem C2_second_draw env now now' w :
  shows_hint (sb w) = false ->
  (shows_message now (sb w) = false ->
   result_truthy (result (sb (world (draw env now w)))) = true ->
   draw env now' (world (draw env now w)) = skipped (world (draw env now w)))
  /\ (forall m,
        msg (sb w) = Some m -> is_alive now m = true -> is_alive now' m = true ->
        trace (draw env now' (world (draw env now w))) =
        [Erase;
         Color ["in_statusbar"; "message"; if bad m then "bad" else "good"];
         AddNStr 0 0 (text m) (wid (sb w))]).
Proof.
  intros Hh. split.
  - intros Hm Hres.
    rewrite (draw_run_content env now w Hh Hm) in Hres |- *.
    apply at_rest_skipped.
    destruct (forget_hint_fields (sb w)) as (Fh & _).
    destruct (drop_message_fields (forget_hint (sb w))) as (Dh & Dm & Doh & _).
    apply draw_content_at_rest; cbn [sb with_sb]; try assumption.
    + rewrite (shows_hint_same (sb w)); [exact Hh|]. rewrite Dh, Fh. reflexivity.
    + rewrite Dh, Doh. apply forget_hint_done.
  - intros m Em Ha Ha'.
    rewrite (draw_run_message env now w m Hh Em Ha).
    destruct (forget_hint_fields (sb w)) as (Fh & Fm & _ & _ & _ & _ & Fw).
    assert (Em1 : msg (sb (with_sb (forget_hint (sb w)) w)) = Some m)
      by (cbn [sb with_sb]; rewrite Fm; exact Em).
    destruct (_draw_message_run m _ Em1) as [-> _].
    rewrite (draw_run_message env now' _ m); cbn [sb with_sb].
    + rewrite forget_hint_idem.
      change (with_sb (forget_hint (sb w)) (with_sb (forget_hint (sb w)) w))
        with (with_sb (forget_hint (sb w)) w).
      destruct (_draw_message_run m _ Em1) as [_ ->]. cbn [sb with_sb].
      rewrite Fw. reflexivity.
    + rewrite (shows_hint_same (sb w)); [exact Hh|exact Fh].
    + rewrite Fm. exact Em.
    + exact Ha'.
Qed.

(** ** The overlays *)

(** While a hint is shown, [draw()] draws the hint or does nothing. *)
Lemma draw_run_hint env now w :
  shows_hint (sb w) = true ->
  (draw env now w = skipped w
   /\ exists s, hint (sb w) = HStr s /\ old_hint (sb w) = HStr s
                /\ need_redraw (sb w) = false)
  \/ (draw env now w = _draw_hint (with_sb (with_need_redraw true (sb w)) w)
      /\ world (draw env now w) = with_sb (with_need_redraw true (sb w)) w).
Proof.
  intros Hh. rewrite draw_run, Hh.
  unfold shows_hint in Hh. apply andb_true_iff in Hh as [Ht Hs].
  destruct (hint (sb w)) as [|s|b] eqn:Eh; try discriminate Hs.
  destruct (hint_ne_str (old_hint (sb w)) s) eqn:Ene; cbn [orb].
  - right. split; [reflexivity|].
    apply (_draw_hint_run s). cbn [sb with_sb hint with_need_redraw]. exact Eh.
  - destruct (need_redraw (sb w)) eqn:En.
    + right. split; [reflexivity|].
      apply (_draw_hint_run s). cbn [sb with_sb hint with_need_redraw]. exact Eh.
    + left. split; [reflexivity|]. exists s. repeat split.
      unfold hint_ne_str in Ene. destruct (old_hint (sb w)) as [|s'|]; try discriminate Ene.
      apply negb_false_iff, String.eqb_eq in Ene. subst s'. reflexivity.
Qed.

Lemma drop_message_need_redraw me :
  need_redraw me = true -> need_redraw (drop_message me) = true.
Proof. unfold drop_message. destruct (msg me); [reflexivity|exact id]. Qed.

(** Once [draw()] has run with a hint shown, a hint that no longer
    holds leaves the flag set below the hint test. *)
Lemma cleared_hint_sets_flag env now w h :
  shows_hint (sb w) = true ->
  hint_truthy h = false ->
  let me1 := sb (set_hint h (world (draw env now w))) in
  shows_hint me1 = false
  /\ need_redraw (forget_hint me1) = true
  /\ msg me1 = msg (sb w)
  /\ wid me1 = wid (sb w).
Proof.
  intros Hh Hf me1. subst me1.
  assert (Ht : hint_truthy (hint (sb w)) = true)
    by (unfold shows_hint in Hh; apply andb_true_iff in Hh as [Ht _]; exact Ht).
  destruct (draw_run_hint env now w Hh) as [[-> (s & Es & Eo & En)]|[_ ->]];
    cbn [skipped world set_hint sb with_sb];
    unfold shows_hint, forget_hint;
    cbn [hint old_hint msg wid need_redraw with_hint with_need_redraw];
    rewrite Hf; cbn [andb negb].
  - rewrite Eo, <- Es, Ht. cbn [andb]. repeat split; reflexivity.
  - rewrite andb_true_r.
    destruct (hint_truthy (old_hint (sb w))); repeat split; reflexivity.
Qed.

(** C5.  Precedence of the overlays in [draw()].  While the hint is a
    non-empty string the call renders the hint and nothing else: it
    erases the line, writes the segments of the hint up to the first
    write that is rejected, at least attempting the first, and returns;
    it does not recompose and leaves the message, the result, the
    fingerprint and the name caches as they were, only the redraw flag
    is set.  This is what happens whenever [old_hint] differs from the
    hint, as it does for the life of a widget, where [old_hint] stays
    [None], or the flag is set; a widget whose [old_hint] had been set
    to the hint from outside, with the flag down, does nothing at all.
    Otherwise a live message is drawn and nothing else, the result
    staying as it was.  And once [draw()] has run with the hint shown,
    a hint that is then cleared (set to any false value) makes the next
    [draw()] repaint the line with what lies below the hint: the normal
    content is recomposed when no message is alive, else the message is
    written and the flag stays set for the content. *)
Theorem C5_overlay_precedence env now w :
  (shows_hint (sb w) = true ->
   exists s,
     hint (sb w) = HStr s
     /\ value (draw env now w) = Done tt
     /\ ~ recomposed (draw env now w)
     /\ (let segs := Py.split s in
         let n := attempts (hint_write_accepted (x (sb w)) (wid (sb w)) segs)
                    0 (length segs) in
         (1 <= n)%nat
         /\ (old_hint (sb w) <> HStr s \/ need_redraw (sb w) = true ->
             draw env now w =
             {| value := Done tt;
                world := with_sb (with_need_redraw true (sb w)) w;
                trace := Erase :: flat_map (hint_write (x (sb w)) (wid (sb w)) segs)
                                    (seq 0 n) |})
         /\ (old_hint (sb w) = HStr s -> need_redraw (sb w) = false ->
             draw env now w = skipped w)))
  /\ (shows_hint (sb w) = false ->
      forall m, msg (sb w) = Some m -> is_alive now m = true ->
      trace (draw env now w) = message_trace m (wid (sb w))
      /\ world (draw env now w) = with_sb (forget_hint (sb w)) w
      /\ result (sb (world (draw env now w))) = result (sb w))
  /\ (shows_hint (sb w) = true ->
      forall h env' now', hint_truthy h = false ->
      let w1 := set_hint h (world (draw env now w)) in
      (shows_message now' (sb w) = false -> recomposed (draw env' now' w1))
      /\ (forall m, msg (sb w) = Some m -> is_alive now' m = true ->
          trace (draw env' now' w1) = message_trace m (wid (sb w))
          /\ need_redraw (sb (world (draw env' now' w1))) = true)).
Proof.
  split; [|split].
  - intros Hh.
    assert (Hs : exists s, hint (sb w) = HStr s).
    { unfold shows_hint in Hh. apply andb_true_iff in Hh as [_ Hs].
      destruct (hint (sb w)) as [|s|]; try discriminate Hs. eauto. }
    destruct Hs as [s Es]. exists s. split; [exact Es|].
    assert (Es' : hint (sb (with_sb (with_need_redraw true (sb w)) w)) = HStr s)
      by exact Es.
    destruct (_draw_hint_exact s _ Es') as [Hn Hdraw].
    cbn [sb with_sb x wid with_need_redraw] in Hn, Hdraw.
    split; [|split].
    + destruct (draw_run_hint env now w Hh) as [[E _]|[E _]]; rewrite E;
        [reflexivity|apply (_draw_hint_run s _ Es')].
    + destruct (draw_run_hint env now w Hh) as [[E _]|[E _]]; rewrite E;
        [intros []|apply (_draw_hint_run s _ Es')].
    + cbv zeta. split; [exact Hn|]. split.
      * intros Hor. rewrite draw_run, Hh, Es.
        assert (Hc : hint_ne_str (old_hint (sb w)) s || need_redraw (sb w) = true).
        { destruct Hor as [Hne|Hr]; [|rewrite Hr; apply orb_true_r].
          apply orb_true_iff. left. unfold hint_ne_str.
          destruct (old_hint (sb w)) as [|s'|]; try reflexivity.
          apply negb_true_iff, String.eqb_neq. congruence. }
        rewrite Hc. exact Hdraw.
      * intros Eo Er. rewrite draw_run, Hh, Es, Eo, Er.
        unfold hint_ne_str. rewrite String.eqb_refl. reflexivity.
  - intros Hh m Em Ha.
    rewrite (draw_run_message env now w m Hh Em Ha).
    destruct (forget_hint_fields (sb w)) as (_ & Fm & Fr & _ & _ & _ & Fw).
    assert (Em1 : msg (sb (with_sb (forget_hint (sb w)) w)) = Some m)
      by (cbn [sb with_sb]; rewrite Fm; exact Em).
    destruct (_draw_message_run m _ Em1) as [-> ->]. cbn [sb with_sb].
    rewrite Fw, Fr. repeat split; reflexivity.
  - intros Hh h env' now' Hf w1.
    destruct (cleared_hint_sets_flag env now w h Hh Hf) as (H1 & H2 & H3 & H4).
    fold w1 in H1, H2, H3, H4. split.
    + intros Hm.
      rewrite (draw_run_content env' now' w1 H1).
      * apply draw_content_recomposed. cbn [sb with_sb].
        rewrite (drop_message_need_redraw _ H2). reflexivity.
      * unfold shows_message in *. rewrite H3. exact Hm.
    + intros m Em Ha.
      rewrite (draw_run_message env' now' w1 m H1); [|rewrite H3; exact Em|exact Ha].
      destruct (forget_hint_fields (sb w1)) as (_ & Fm & _ & _ & _ & _ & Fw).
      assert (Em1 : msg (sb (with_sb (forget_hint (sb w1)) w1)) = Some m)
        by (cbn [sb with_sb]; rewrite Fm, H3; exact Em).
      destruct (_draw_message_run m _ Em1) as [-> ->]. cbn [sb with_sb].
      rewrite Fw, H4. split; [reflexivity|exact H2].
Qed.

(** ** The message *)

(** C6, as amended.  A message created by [notify(text, duration, bad)]
    when the clock shows [T] is alive at every time [t] with
    [T <= t <= T + duration] and dead at every [t > T + duration].  A
    dead message is dropped by the next [draw()] that is called while no
    hint is shown, and that call recomposes the bar.  [notify()] replaces
    the message held, whatever it is, and does nothing else. *)
Theorem C6_message_lifecycle :
  (forall T txt d b t,
      T <= t <= T + d -> is_alive t (Message_init T txt d b) = true)
  /\ (forall T txt d b t,
        T + d < t -> is_alive t (Message_init T txt d b) = false)
  /\ (forall env now w m,
        shows_hint (sb w) = false ->
        msg (sb w) = Some m -> is_alive now m = false ->
        msg (sb (world (draw env now w))) = None
        /\ recomposed (draw env now w))
  /\ (forall now txt d b w,
        notify now txt d b w =
        {| value := Done tt;
           world := with_sb (with_msg (Some (Message_init now txt d b)) (sb w)) w;
           trace := [] |}).
Proof.
  split; [|split; [|split]].
  - intros T txt d b t Ht. unfold is_alive, Message_init. cbn [elapse].
    apply Z.leb_le. lia.
  - intros T txt d b t Ht. unfold is_alive, Message_init. cbn [elapse].
    apply Z.leb_gt. lia.
  - intros env now w m Hh Em Hd.
    assert (Hm : shows_message now (sb w) = false)
      by (unfold shows_message; rewrite Em; exact Hd).
    rewrite (draw_run_content env now w Hh Hm).
    destruct (forget_hint_fields (sb w)) as (_ & Fm & _).
    assert (Hn : need_redraw (drop_message (forget_hint (sb w))) = true)
      by (unfold drop_message; rewrite Fm, Em; reflexivity).
    split.
    + destruct (draw_content_sb env (with_sb (drop_message (forget_hint (sb w))) w))
        as (res & -> & _).
      cbn [msg with_result with_need_redraw sb with_sb].
      destruct (remembered_fields (drop_message (forget_hint (sb w))) env) as (_ & -> & _).
      apply drop_message_fields.
    + apply draw_content_recomposed. cbn [sb with_sb]. rewrite Hn. reflexivity.
  - reflexivity.
Qed.

(** ** The modification time *)

Lemma stat_unavailable_minus_one env :
  stat_unavailable env -> observed_mtime env = -1.
Proof.
  unfold stat_unavailable, observed_mtime.
  destruct (cf env) as [f|]; [intros ->|]; reflexivity.
Qed.

Lemma draw_content_old_mtime env w :
  old_mtime (sb (world (draw_content env w))) = Some (observed_mtime env).
Proof.
  destruct (draw_content_sb env w) as (res & -> & _).
  cbn [old_mtime with_result with_need_redraw]. apply remembered_old_mtime.
Qed.

Lemma mtime_change_is_stale me env m :
  old_mtime me = Some m -> m <> observed_mtime env ->
  fingerprint_stale me env = true.
Proof.
  intros E Hne. unfold fingerprint_stale, mtime_ne. rewrite E.
  apply orb_true_iff. right. apply negb_true_iff, Z.eqb_neq. exact Hne.
Qed.

Lemma minus_one_for_failure_same_fingerprint me env env' :
  minus_one_for_failure env env' ->
  observed_mtime env = -1 /\ observed_mtime env' = -1
  /\ fingerprint_stale me env' = fingerprint_stale me env.
Proof.
  intros (f & f' & st & Ec & Es & Ec' & Ei & Es' & Em & Ed).
  assert (E1 : observed_mtime env = -1)
    by (unfold observed_mtime; rewrite Ec, Es; reflexivity).
  assert (E2 : observed_mtime env' = -1)
    by (unfold observed_mtime; rewrite Ec', Es'; exact Em).
  repeat split; try assumption.
  unfold fingerprint_stale. rewrite E1, E2, Ed, Ec, Ec'.
  unfold cf_ne. rewrite Ei. reflexivity.
Qed.

(** C10.  Where [draw()] compares the fingerprint (no hint is shown and
    no message is alive): when the modification time of the current
    file cannot be read, [-1] is compared and remembered in its place.
    So a change from a readable time other than [-1] to an unreadable
    one recomposes the bar, and so does a change from an unreadable time
    to a readable one other than [-1]; and a file whose modification
    time is [-1] makes [draw()] take the same decision, and remember the
    same time, as the same file with an unreadable one. *)
Theorem C10_mtime_sentinel env now w :
  shows_hint (sb w) = false ->
  shows_message now (sb w) = false ->
  (stat_unavailable env ->
   observed_mtime env = -1
   /\ old_mtime (sb (world (draw env now w))) = Some (-1))
  /\ (stat_unavailable env ->
      forall m, old_mtime (sb w) = Some m -> m <> -1 ->
      recomposed (draw env now w))
  /\ (forall f st,
        cf env = Some f -> stat f = Some st -> st_mtime st <> -1 ->
        old_mtime (sb w) = Some (-1) ->
        recomposed (draw env now w))
  /\ (forall env',
        minus_one_for_failure env env' ->
        (recomposed (draw env now w) <-> recomposed (draw env' now w))
        /\ old_mtime (sb (world (draw env' now w)))
           = old_mtime (sb (world (draw env now w)))).
Proof.
  intros Hh Hm.
  destruct (forget_hint_fields (sb w)) as (_ & _ & _ & _ & Fm & _).
  destruct (drop_message_fields (forget_hint (sb w))) as (_ & _ & _ & _ & _ & Dm & _).
  assert (Eold : old_mtime (drop_message (forget_hint (sb w))) = old_mtime (sb w))
    by (rewrite Dm, Fm; reflexivity).
  split; [|split; [|split]].
  - intros Hu. pose proof (stat_unavailable_minus_one env Hu) as E.
    split; [exact E|].
    rewrite (draw_run_content env now w Hh Hm), draw_content_old_mtime, E. reflexivity.
  - intros Hu m Eo Hne. pose proof (stat_unavailable_minus_one env Hu) as E.
    rewrite (draw_run_content env now w Hh Hm).
    apply draw_content_recomposed. cbn [sb with_sb].
    rewrite (mtime_change_is_stale _ env m); [apply orb_true_r| |].
    + rewrite Eold. exact Eo.
    + rewrite E. exact Hne.
  - intros f st Ec Es Hne Eo.
    rewrite (draw_run_content env now w Hh Hm).
    apply draw_content_recomposed. cbn [sb with_sb].
    rewrite (mtime_change_is_stale _ env (-1)); [apply orb_true_r| |].
    + rewrite Eold. exact Eo.
    + unfold observed_mtime. rewrite Ec, Es. intros E. apply Hne. symmetry. exact E.
  - intros env' Hsame.
    rewrite (draw_run_content env now w Hh Hm), (draw_run_content env' now w Hh Hm).
    destruct (minus_one_for_failure_same_fingerprint
                (drop_message (forget_hint (sb w))) env env' Hsame) as (E1 & E2 & Ef).
    split.
    + rewrite !draw_content_recomposed. cbn [sb with_sb]. rewrite Ef. reflexivity.
    + rewrite !draw_content_old_mtime, E1, E2. reflexivity.
Qed.

(** ** The disk usage *)

(** A widget at rest stays at rest when the disk usage of the directory
    becomes available and nothing else changes: the call is skipped. *)
Lemma disk_usage_available_goes_unnoticed env env' now w :
  at_rest env (sb w) ->
  cf env' = cf env ->
  observed_mtime env' = observed_mtime env ->
  Py.truthy_int (disk_usage (cwd env')) = true ->
  draw env' now w = skipped w.
Proof.
  intros (Hh & Hf & Hm & Hn & Hs) Ec Em Hd.
  apply at_rest_skipped. repeat split; try assumption.
  unfold fingerprint_stale in *. rewrite Ec, Em, Hd.
  apply orb_false_elim in Hs as [Hs Hmt].
  apply orb_false_elim in Hs as [Hs Hcf].
  apply orb_false_elim in Hs as [Hr _].
  rewrite Hr, Hcf, Hmt. cbn [negb]. rewrite andb_false_r. reflexivity.
Qed.

(** No call assigns a true value to [old_du], nor anything but [None]
    to [old_hint]. *)
Lemma perform_keeps_old w c :
  Py.truthy_int (old_du (sb w)) = false ->
  old_hint (sb w) = HNone ->
  old_du (sb (perform w c)) = old_du (sb w)
  /\ old_hint (sb (perform w c)) = HNone.
Proof.
  intros Hd Ho. destruct c as [env now| | |h]; try (split; [reflexivity|exact Ho]).
  cbn [perform]. rewrite draw_run.
  destruct (shows_hint (sb w)) eqn:Hh.
  - destruct (hint (sb w)) as [|s|] eqn:Eh; try (split; [reflexivity|exact Ho]).
    destruct (hint_ne_str (old_hint (sb w)) s || need_redraw (sb w));
      [|split; [reflexivity|exact Ho]].
    assert (Es : hint (sb (with_sb (with_need_redraw true (sb w)) w)) = HStr s) by exact Eh.
    destruct (_draw_hint_run s _ Es) as (_ & -> & _).
    split; [reflexivity|exact Ho].
  - assert (Ef : forget_hint (sb w) = sb w)
      by (unfold forget_hint; rewrite Ho; reflexivity).
    rewrite Ef.
    destruct (shows_message now (sb w)) eqn:Hm.
    + unfold shows_message in Hm. destruct (msg (sb w)) as [m|] eqn:Em; [|discriminate].
      rewrite with_sb_same. destruct (_draw_message_run m w Em) as [-> _].
      split; [reflexivity|exact Ho].
    + destruct (draw_content_sb env (with_sb (drop_message (sb w)) w)) as (res & -> & _).
      cbn [old_du old_hint with_result with_need_redraw sb with_sb].
      destruct (remembered_fields (drop_message (sb w)) env) as (_ & _ & -> & _).
      destruct (drop_message_fields (sb w)) as (_ & _ & Doh & _ & _ & _ & Ddu & _).
      rewrite remembered_old_du, Ddu, Doh; [split; [reflexivity|exact Ho]|].
      rewrite Ddu. exact Hd.
Qed.

(** In particular they stay [None] for the life of a widget. *)
Lemma session_keeps_old calls w :
  old_du (sb w) = None ->
  old_hint (sb w) = HNone ->
  old_du (sb (session calls w)) = None
  /\ old_hint (sb (session calls w)) = HNone.
Proof.
  unfold session. revert w. induction calls as [|c calls IH]; intros w Hd Ho.
  - split; assumption.
  - cbn [foldl].
    destruct (perform_keeps_old w c) as [Ed Eo]; [rewrite Hd; reflexivity|exact Ho|].
    apply IH; [rewrite Ed; exact Hd|exact Eo].
Qed.

(** ** The name caches *)

Lemma _get_owner_run target st w :
  stat target = Some st ->
  _get_owner target w =
  match owners w !! st_uid st with
  | Some name => {| value := Done name; world := w; trace := [] |}
  | None =>
      match getpwuid (st_uid st) with
      | Some name =>
          {| value := Done name;
             world := with_owners (<[st_uid st := name]> (owners w)) w;
             trace := [GetPwUid (st_uid st)] |}
      | None =>
          {| value := Done (Py.str (st_uid st)); world := w;
             trace := [GetPwUid (st_uid st)] |}
      end
  end.
Proof.
  intros E. unfold _get_owner. rewrite E. run_step.
  destruct (owners w !! st_uid st); [reflexivity|].
  rewrite bind_emit.
  destruct (getpwuid (st_uid st)); [run_step|]; reflexivity.
Qed.

Lemma _get_group_run target st w :
  stat target = Some st ->
  _get_group target w =
  match groups w !! st_gid st with
  | Some name => {| value := Done name; world := w; trace := [] |}
  | None =>
      match getgrgid (st_gid st) with
      | Some name =>
          {| value := Done name;
             world := with_groups (<[st_gid st := name]> (groups w)) w;
             trace := [GetGrGid (st_gid st)] |}
      | None =>
          {| value := Done (Py.str (st_gid st)); world := w;
             trace := [GetGrGid (st_gid st)] |}
      end
  end.
Proof.
  intros E. unfold _get_group. rewrite E. run_step.
  destruct (groups w !! st_gid st); [reflexivity|].
  rewrite bind_emit.
  destruct (getgrgid (st_gid st)); [run_step|]; reflexivity.
Qed.

(** C3, as amended.  When the resolution of an owner or group id that
    is not in the cache fails, the look-up returns the id as a decimal
    string and leaves the cache as it was: the fall-back is not stored,
    so the same look-up made again asks the user database again.  Only
    a name that was resolved is stored, and only then does the look-up
    made again return it without asking. *)
Theorem C3_fallback_is_not_cached target st w :
  stat target = Some st ->
  (owners w !! st_uid st = None -> getpwuid (st_uid st) = None ->
   _get_owner target w =
   {| value := Done (Py.str (st_uid st)); world := w;
      trace := [GetPwUid (st_uid st)] |})
  /\ (groups w !! st_gid st = None -> getgrgid (st_gid st) = None ->
      _get_group target w =
      {| value := Done (Py.str (st_gid st)); world := w;
         trace := [GetGrGid (st_gid st)] |})
  /\ (forall name,
        owners w !! st_uid st = None -> getpwuid (st_uid st) = Some name ->
        value (_get_owner target w) = Done name
        /\ trace (_get_owner target w) = [GetPwUid (st_uid st)]
        /\ owners (world (_get_owner target w)) !! st_uid st = Some name
        /\ _get_owner target (world (_get_owner target w)) =
           {| value := Done name; world := world (_get_owner target w); trace := [] |})
  /\ (forall name,
        groups w !! st_gid st = None -> getgrgid (st_gid st) = Some name ->
        value (_get_group target w) = Done name
        /\ trace (_get_group target w) = [GetGrGid (st_gid st)]
        /\ groups (world (_get_group target w)) !! st_gid st = Some name
        /\ _get_group target (world (_get_group target w)) =
           {| value := Done name; world := world (_get_group target w); trace := [] |}).
Proof.
  intros E. split; [|split; [|split]].
  - intros Hc Hf. rewrite (_get_owner_run _ _ _ E), Hc, Hf. reflexivity.
  - intros Hc Hf. rewrite (_get_group_run _ _ _ E), Hc, Hf. reflexivity.
  - intros name Hc Hf. rewrite (_get_owner_run _ _ w E), Hc, Hf.
    cbn [value world trace owners with_owners].
    rewrite (_get_owner_run _ _ _ E). cbn [owners with_owners].
    rewrite lookup_insert_eq. repeat split; reflexivity.
  - intros name Hc Hf. rewrite (_get_group_run _ _ w E), Hc, Hf.
    cbn [value world trace groups with_groups].
    rewrite (_get_group_run _ _ _ E). cbn [groups with_groups].
    rewrite lookup_insert_eq. repeat split; reflexivity.
Qed.

(** ** The left part *)

Lemma _get_owner_value target st w :
  stat target = Some st ->
  value (_get_owner target w) = Done (owner_name (owners w) (st_uid st))
  /\ groups (world (_get_owner target w)) = groups w.
Proof.
  intros E. rewrite (_get_owner_run _ _ _ E). unfold owner_name.
  destruct (owners w !! st_uid st); [split; reflexivity|].
  destruct (getpwuid (st_uid st)); split; reflexivity.
Qed.

Lemma _get_group_value target st w :
  stat target = Some st ->
  value (_get_group target w) = Done (group_name (groups w) (st_gid st)).
Proof.
  intros E. rewrite (_get_group_run _ _ _ E). unfold group_name.
  destruct (groups w !! st_gid st); [reflexivity|].
  destruct (getgrgid (st_gid st)); reflexivity.
Qed.

(** C7, as amended.  For a target whose [stat] can be read, the left
    sequence is, in order: the permission string, styled "good" if and
    only if the real user id of the process, the value of
    [os.getuid()], is the owner of the file, else "bad"; a space; the
    hard-link count; a space; the resolved owner name; a space; the
    resolved group name; then for a symbolic link " -> " and the link
    target, styled "good" if and only if the link resolves, and nothing
    more; otherwise the info string, when the option is enabled and the
    string is not empty, a space, and the modification time in the
    format [%Y-%m-%d %H:%M]. *)
Theorem C7_left_part env w target st :
  left_target env = Some target ->
  stat target = Some st ->
  exists bar,
    value (_get_left_part env (Bar_new "in_statusbar") w) = Done bar
    /\ right bar = []
    /\ left bar =
       left_fragments (real_uid process) target st
         (owner_name (owners w) (st_uid st))
         (group_name (groups w) (st_gid st))
         (display_size_in_status_bar env).
Proof.
  intros Et Es. unfold _get_left_part. rewrite Et, Es.
  destruct (_get_owner_value target st w Es) as [Ho Hg].
  rewrite (bind_done _ _ _ _ Ho). cbn [value].
  pose proof (_get_group_value target st (world (_get_owner target w)) Es) as Hgr.
  rewrite Hg in Hgr.
  rewrite (bind_done _ _ _ _ Hgr). cbn [value].
  unfold left_fragments, getuid, timeformat.
  destruct (is_link target).
  - eexists. split; [reflexivity|]. split; reflexivity.
  - destruct (infostring target) as [info|]; cbn [Py.truthy_str default].
    + destruct (display_size_in_status_bar env && negb (String.eqb info ""));
        eexists; (split; [reflexivity|]); split; reflexivity.
    + rewrite andb_false_r. eexists. split; [reflexivity|]. split; reflexivity.
Qed.

(** ** The right part *)

(** The right part for a column whose target is accessible and has a
    listing: the summary, two spaces, the indicator. *)
Lemma _get_right_part_run env bar w col t listing :
  column env = Some col ->
  target col = Some t ->
  accessible t = true ->
  files t = Some listing ->
  _get_right_part env bar w =
  let marked := marked_items t in
  let max_pos := Z.of_nat (length listing) - hei col in
  let bar1 :=
    if bool_decide (marked <> []) then
      add_right (" / " +:+ Py.str (Z.of_nat (length marked))) []
        (add_right
           (human_readable
              (if Nat.eqb (length marked) (length listing)
               then disk_usage t else Some (marked_file_size marked))) [] bar)
    else
      add_right (human_readable (Some (get_free_space env (mount_path t)))) []
        (add_right ", " ["space"]
           (add_right (human_readable (disk_usage t)) [] bar)) in
  let bar2 := add_right "  " ["space"] bar1 in
  ret (add_right
         (indicator (bool_decide (marked <> [])) (Z.of_nat (length listing))
            (hei col) (scroll_begin t))
         ("scroll" ::
          [if bool_decide (marked <> []) then "marked"
           else if 0 <? max_pos then
             if scroll_begin t =? 0 then "top"
             else if max_pos <=? scroll_begin t then "bot" else "percentage"
           else "all"])
         bar2) w.
Proof.
  intros Ec Et Ea Ef. unfold _get_right_part, indicator.
  rewrite Ec, Et, Ea, Ef. cbn [negb orb].
  rewrite bool_decide_eq_false_2 by discriminate. rewrite andb_false_r.
  cbn zeta.
  destruct (bool_decide (marked_items t <> [])).
  - destruct (Nat.eqb (length (marked_items t)) (length listing)); reflexivity.
  - rewrite (Z.leb_antisym 0).
    destruct (0 <? Z.of_nat (length listing) - hei col); cbn [negb]; [|reflexivity].
    destruct (scroll_begin t =? 0); [reflexivity|].
    destruct (Z.of_nat (length listing) - hei col <=? scroll_begin t); reflexivity.
Qed.

Lemma right_add_right s tags bar :
  right (add_right s tags bar) = right bar ++ [mk_fragment (base_color_tag bar) s tags].
Proof. reflexivity. Qed.


(** ** The binary64 computation of the percentage *)

Lemma digits2_pos_size p : digits2_pos p = Pos.size p.
Proof. induction p as [p IH|p IH|]; cbn [digits2_pos Pos.size]; congruence. Qed.

Lemma Zdigits2_log2 n : 0 < n -> Zdigits2 n = Z.log2 n + 1.
Proof.
  destruct n as [|p|p]; try lia. intros _. cbn [Zdigits2].
  rewrite digits2_pos_size. destruct p; cbn [Z.log2 Pos.size]; lia.
Qed.

(** The number of binary digits of a number between two powers of 2. *)
Lemma Zdigits2_bounds n d : 0 <= d -> 2 ^ d <= n < 2 ^ (d + 1) -> Zdigits2 n = d + 1.
Proof.
  intros Hd H. pose proof (Z.pow_pos_nonneg 2 d).
  rewrite Zdigits2_log2 by lia. f_equal. apply Z.log2_unique; [lia|].
  replace (Z.succ d) with (d + 1) by lia. exact H.
Qed.

Lemma shr_1_nonneg m r s :
  0 <= m ->
  shr_1 {| shr_m := m; shr_r := r; shr_s := s |} =
  {| shr_m := m / 2; shr_r := Z.odd m; shr_s := r || s |}.
Proof.
  intros H. rewrite <- Z.div2_div.
  destruct m as [|[p|p|]|]; try lia; reflexivity.
Qed.

Lemma iter_pos_nat {A} (f : A -> A) p x :
  SpecFloat.iter_pos f p x = Nat.iter (Pos.to_nat p) f x.
Proof.
  revert x. induction p as [p IH|p IH|]; intros x; cbn [SpecFloat.iter_pos].
  - rewrite !IH, <- Nat.iter_add, <- Nat.iter_succ_r. f_equal. lia.
  - rewrite !IH, <- Nat.iter_add. f_equal. lia.
  - reflexivity.
Qed.

(** Shifting out zeros is exact. *)
Lemma shr_1_exact_iter k a :
  0 <= a ->
  Nat.iter k shr_1 {| shr_m := a * 2 ^ Z.of_nat k; shr_r := false; shr_s := false |} =
  {| shr_m := a; shr_r := false; shr_s := false |}.
Proof.
  intros Ha. induction k as [|k IH].
  - cbn [Nat.iter]. rewrite Z.mul_1_r. reflexivity.
  - rewrite Nat.iter_succ_r, shr_1_nonneg by (pose proof (Z.pow_pos_nonneg 2 (Z.of_nat (S k))); nia).
    rewrite Nat2Z.inj_succ, Z.pow_succ_r by lia.
    replace (a * (2 * 2 ^ Z.of_nat k)) with (a * 2 ^ Z.of_nat k * 2) by lia.
    rewrite Z.div_mul by lia. rewrite Z.odd_mul. cbn [Z.odd andb orb].
    rewrite andb_false_r. exact IH.
Qed.

Lemma shr_exact a e n :
  0 <= a -> 0 <= n ->
  shr {| shr_m := a * 2 ^ n; shr_r := false; shr_s := false |} e n =
  ({| shr_m := a; shr_r := false; shr_s := false |}, e + n).
Proof.
  intros Ha Hn. destruct n as [|p|p]; try lia.
  - cbn [shr]. rewrite Z.mul_1_r, Z.add_0_r. reflexivity.
  - cbn [shr]. rewrite iter_pos_nat.
    rewrite <- (positive_nat_Z p) at 1. rewrite shr_1_exact_iter by exact Ha.
    reflexivity.
Qed.

(** Rounding a mantissa of 53 digits followed by zeros changes nothing
    but the exponent. *)
Lemma binary_round_aux_exact s a e n :
  2 ^ 52 <= a < 2 ^ 53 -> 0 <= n -> -1074 <= e + n <= 971 ->
  binary_round_aux Py.prec Py.emax s (a * 2 ^ n) e loc_Exact =
  S754_finite s (Z.to_pos a) (e + n).
Proof.
  intros Ha Hn He. unfold binary_round_aux, shr_fexp.
  assert (Hd : Zdigits2 (a * 2 ^ n) = 53 + n).
  { replace (53 + n) with (52 + n + 1) by lia. apply Zdigits2_bounds; [lia|].
    rewrite !Z.pow_add_r by lia. pose proof (Z.pow_pos_nonneg 2 n). nia. }
  rewrite Hd. unfold fexp, emin, Py.prec, Py.emax. cbn [shr_record_of_loc].
  replace (Z.max (53 + n + e - 53) (3 - 1024 - 53) - e) with n by lia.
  rewrite shr_exact by lia. cbn [shr_m loc_of_shr_record round_nearest_even].
  rewrite (Zdigits2_bounds a 52) by lia.
  replace (Z.max (52 + 1 + (e + n) - 53) (3 - 1024 - 53) - (e + n)) with 0 by lia.
  cbn [shr shr_m]. destruct a as [|p|p]; try lia.
  cbn [Z.to_pos]. rewrite (proj2 (Z.leb_le _ _)) by lia. reflexivity.
Qed.

Lemma binary_round_aux_normal s a e :
  2 ^ 52 <= a < 2 ^ 53 -> -1074 <= e <= 971 ->
  binary_round_aux Py.prec Py.emax s a e loc_Exact = S754_finite s (Z.to_pos a) e.
Proof.
  intros Ha He.
  pose proof (binary_round_aux_exact s a e 0 Ha ltac:(lia) ltac:(lia)) as H.
  change (2 ^ 0) with 1 in H. rewrite Z.mul_1_r, Z.add_0_r in H. exact H.
Qed.

(** A positive integer below [2^53], shifted to 53 digits. *)
Lemma normal_mantissa n :
  0 < n < 2 ^ 53 ->
  0 <= Z.log2 n <= 52
  /\ 2 ^ 52 <= n * 2 ^ (52 - Z.log2 n) < 2 ^ 53.
Proof.
  intros Hn.
  destruct (Z.log2_spec n) as [Hlo Hhi]; [lia|].
  pose proof (Z.log2_nonneg n) as H0.
  assert (Hl : Z.log2 n < 53) by (apply Z.log2_lt_pow2; lia).
  split; [lia|].
  set (l := Z.log2 n) in *.
  assert (E52 : 2 ^ 52 = 2 ^ l * 2 ^ (52 - l))
    by (rewrite <- Z.pow_add_r by lia; f_equal; lia).
  assert (E53 : 2 ^ 53 = 2 ^ Z.succ l * 2 ^ (52 - l))
    by (rewrite <- Z.pow_add_r by lia; f_equal; lia).
  pose proof (Z.pow_pos_nonneg 2 (52 - l)).
  nia.
Qed.

(** [float(n)] is exact for a positive integer below [2^53]. *)
Lemma float_exact n : 0 < n < 2 ^ 53 -> float_is (Py.float n) n.
Proof.
  intros Hn. destruct (normal_mantissa n Hn) as [Hl Hm].
  destruct n as [|p|p]; try lia.
  unfold Py.float, binary_normalize, binary_round.
  change (Z.pos (digits2_pos p)) with (Zdigits2 (Z.pos p)).
  rewrite Zdigits2_log2 by lia.
  set (l := Z.log2 (Z.pos p)) in *.
  unfold fexp, emin, Py.prec, Py.emax.
  replace (Z.max (l + 1 + 0 - 53) (3 - 1024 - 53)) with (l - 52) by lia.
  unfold shl_align.
  destruct (l - 52 - 0) as [|k|k] eqn:Ek; try lia.
  - assert (El : l = 52) by lia. rewrite El in Hm.
    change (2 ^ (52 - 52)) with 1 in Hm. rewrite Z.mul_1_r in Hm.
    rewrite binary_round_aux_normal by lia.
    exists p, 0. repeat split; try lia.
  - assert (Es : Z.pos (Pos.iter xO p k) = Z.pos p * 2 ^ (52 - l)).
    { change (Pos.iter xO p k) with (shift_pos k p).
      rewrite shift_pos_correct. change (Z.pow_pos 2 k) with (2 ^ Z.pos k).
      replace (52 - l) with (Z.pos k) by lia. lia. }
    rewrite binary_round_aux_normal by lia.
    cbn [Z.to_pos].
    exists (Pos.iter xO p k), (l - 52). repeat split; try lia.
    rewrite Es. f_equal. f_equal. lia.
Qed.

(** The product of two such floats is exact when it is below [2^53]. *)
Lemma fmul_exact x y a b :
  float_is x a -> float_is y b -> 0 < a -> 0 < b -> a * b < 2 ^ 53 ->
  float_is (Py.fmul x y) (a * b).
Proof.
  intros (mx & ex & -> & Hmx & Hex & Ex) (my & ey & -> & Hmy & Hey & Ey) Ha Hb Hab.
  destruct (normal_mantissa (a * b)) as [Hl Hm]; [nia|].
  set (l := Z.log2 (a * b)) in *.
  unfold Py.fmul, SFmul. cbn [xorb].
  rewrite Pos2Z.inj_mul.
  pose proof (Z.pow_pos_nonneg 2 (- ex) ltac:(lia) ltac:(lia)) as Px.
  pose proof (Z.pow_pos_nonneg 2 (- ey) ltac:(lia) ltac:(lia)) as Py.
  (* the exponent of the product leaves room for the shift *)
  assert (Hn : 52 - l <= - ex - ey).
  { destruct (Z_lt_le_dec (- ex - ey) (52 - l)) as [Hlt|]; [|lia]. exfalso.
    assert (Hp : 2 ^ (- ex + - ey) <= 2 ^ (51 - l)) by (apply Z.pow_le_mono_r; lia).
    assert (Hq : 2 ^ (52 - l) = 2 * 2 ^ (51 - l))
      by (rewrite <- Z.pow_succ_r by lia; f_equal; lia).
    rewrite Z.pow_add_r in Hp by lia.
    assert (Hprod : 2 ^ 104 <= a * b * (2 ^ (- ex) * 2 ^ (- ey))) by nia.
    nia. }
  set (n := - ex - ey - (52 - l)).
  assert (Ep : Z.pos mx * Z.pos my = a * b * 2 ^ (52 - l) * 2 ^ n).
  { assert (E1 : 2 ^ (52 - l) * 2 ^ n = 2 ^ (- ex) * 2 ^ (- ey)).
    { rewrite <- !Z.pow_add_r by (unfold n; lia). f_equal. unfold n. lia. }
    rewrite Ex, Ey, <- (Z.mul_assoc (a * b)), E1. ring. }
  rewrite Ep, binary_round_aux_exact by (unfold n; lia).
  exists (Z.to_pos (a * b * 2 ^ (52 - l))), (ex + ey + n).
  split; [reflexivity|]. rewrite Z2Pos.id by lia.
  split; [lia|]. split; [unfold n; lia|].
  f_equal. f_equal. unfold n. lia.
Qed.

(** The location that the division computes, read as a comparison of
    twice the remainder with the divisor. *)
Lemma new_location_spec d r :
  0 <= r < d ->
  new_location d r = if r =? 0 then loc_Exact else loc_Inexact (2 * r ?= d).
Proof.
  intros Hr. unfold new_location, new_location_even, new_location_odd.
  destruct (Z.even d) eqn:Ed; [reflexivity|].
  destruct (r =? 0); [reflexivity|]. f_equal.
  assert (Hne : 2 * r <> d).
  { intros E. rewrite <- E, Z.even_mul in Ed. discriminate Ed. }
  destruct (Z.compare_spec (2 * r + 1) d) as [H|H|H];
    symmetry; apply Z.compare_lt_iff || apply Z.compare_gt_iff; lia.
Qed.

Lemma shr_record_of_loc_m m l : shr_m (shr_record_of_loc m l) = m.
Proof. destruct l as [|[| |]]; reflexivity. Qed.

Lemma loc_of_shr_record_of_loc m l : loc_of_shr_record (shr_record_of_loc m l) = l.
Proof. destruct l as [|[| |]]; reflexivity. Qed.

(** The end of [binary_round_aux]: a rounded mantissa of 53 digits is
    kept, and [2^53] is renormalised. *)
Lemma round_tail s m2 e :
  2 ^ 52 <= m2 <= 2 ^ 53 -> -1074 <= e <= 970 ->
  exists mf sigma,
    (let '(mrs, e'') := shr_fexp Py.prec Py.emax m2 e loc_Exact in
     match shr_m mrs with
     | Z0 => S754_zero s
     | Z.pos m => if e'' <=? Py.emax - Py.prec then S754_finite s m e''
                  else S754_infinity s
     | Z.neg _ => S754_nan
     end) = S754_finite s mf (e + sigma)
    /\ 0 <= sigma <= 1
    /\ 2 ^ 52 <= Z.pos mf < 2 ^ 53
    /\ Z.pos mf * 2 ^ sigma = m2.
Proof.
  intros Hm He. unfold shr_fexp, fexp, emin, Py.prec, Py.emax.
  cbn [shr_record_of_loc].
  destruct (Z_lt_le_dec m2 (2 ^ 53)) as [Hlt|Hge].
  - rewrite (Zdigits2_bounds m2 52) by lia.
    replace (Z.max (52 + 1 + e - 53) (3 - 1024 - 53) - e) with 0 by lia.
    cbn [shr shr_m]. destruct m2 as [|p|p]; try lia.
    rewrite (proj2 (Z.leb_le _ _)) by lia.
    exists p, 0. rewrite Z.add_0_r. repeat split; lia.
  - assert (E : m2 = 2 ^ 52 * 2 ^ 1) by lia. rewrite E.
    rewrite (Zdigits2_bounds (2 ^ 52 * 2 ^ 1) 53) by lia.
    replace (Z.max (53 + 1 + e - 53) (3 - 1024 - 53) - e) with 1 by lia.
    rewrite shr_exact by lia. cbn [shr_m].
    change (2 ^ 52) with (Z.pos (Z.to_pos (2 ^ 52))).
    cbv iota beta.
    rewrite (proj2 (Z.leb_le _ _)) by lia.
    exists (Z.to_pos (2 ^ 52)), 1. repeat split; lia.
Qed.

(** Rounding to nearest, ties to even, at the given location. *)
Lemma round_nearest_even_spec q r d :
  0 <= r < d ->
  let m := round_nearest_even q (if r =? 0 then loc_Exact else loc_Inexact (2 * r ?= d)) in
  (m = q \/ m = q + 1) /\ 2 * Z.abs (m * d - (q * d + r)) <= d.
Proof.
  intros Hr. cbv zeta. destruct (Z.eqb_spec r 0) as [->|Hne].
  - cbn [round_nearest_even]. split; [left; reflexivity|lia].
  - destruct (Z.compare_spec (2 * r) d) as [H|H|H]; cbn [round_nearest_even].
    + destruct (Z.even q); (split; [auto|nia]).
    + split; [auto|nia].
    + split; [auto|nia].
Qed.

(** The same one binary digit further to the right: the digit shifted
    out and whether anything follows it give the location. *)
Lemma round_nearest_even_shifted q r d :
  0 <= q -> 0 <= r < d ->
  let m := round_nearest_even (q / 2)
             (loc_of_shr_record
                {| shr_m := q / 2; shr_r := Z.odd q; shr_s := negb (r =? 0) |}) in
  (m = q / 2 \/ m = q / 2 + 1) /\ 2 * Z.abs (m * 2 * d - (q * d + r)) <= 2 * d.
Proof.
  intros Hq Hr. cbv zeta.
  pose proof (Z.div_mod q 2 ltac:(lia)) as Hdm.
  pose proof (Zmod_odd q) as Ho.
  destruct (Z.odd q); destruct (Z.eqb_spec r 0) as [->|Hne];
    cbn [negb loc_of_shr_record round_nearest_even].
  - destruct (Z.even (q / 2)); (split; [auto|nia]).
  - split; [auto|nia].
  - split; [auto|nia].
  - split; [auto|nia].
Qed.

(** Rounding the quotient of two mantissas of 53 digits: the result has
    53 digits and lies within half a unit of its last digit of the
    exact quotient [q + r / d]. *)
Lemma binary_round_aux_quotient q r d e :
  2 ^ 52 <= q < 2 ^ 54 -> 0 <= r < d -> -1074 <= e <= 900 ->
  exists mf sigma,
    binary_round_aux Py.prec Py.emax false q e
      (if r =? 0 then loc_Exact else loc_Inexact (2 * r ?= d))
    = S754_finite false mf (e + sigma)
    /\ 0 <= sigma <= 2
    /\ 2 ^ 52 <= Z.pos mf < 2 ^ 53
    /\ 2 * Z.abs (Z.pos mf * 2 ^ sigma * d - (q * d + r)) <= 2 ^ sigma * d.
Proof.
  intros Hq Hr He. unfold binary_round_aux.
  set (l := if r =? 0 then loc_Exact else loc_Inexact (2 * r ?= d)).
  destruct (Z_lt_le_dec q (2 ^ 53)) as [Hlt|Hge].
  - (* 53 digits: nothing is shifted out *)
    assert (E1 : shr_fexp Py.prec Py.emax q e l = (shr_record_of_loc q l, e)).
    { unfold shr_fexp, fexp, emin, Py.prec, Py.emax.
      rewrite (Zdigits2_bounds q 52) by lia.
      replace (Z.max (52 + 1 + e - 53) (3 - 1024 - 53) - e) with 0 by lia.
      reflexivity. }
    rewrite E1, shr_record_of_loc_m, loc_of_shr_record_of_loc.
    destruct (round_nearest_even_spec q r d Hr) as [Hm Herr]. fold l in Hm, Herr.
    destruct (round_tail false (round_nearest_even q l) e) as (mf & sigma & -> & Hs & Hmf & Emf);
      [lia|lia|].
    exists mf, sigma. split; [reflexivity|]. split; [lia|]. split; [exact Hmf|].
    rewrite Emf. assert (d <= 2 ^ sigma * d); [|lia].
    assert (1 <= 2 ^ sigma) by (pose proof (Z.pow_pos_nonneg 2 sigma); lia). nia.
  - (* 54 digits: one is shifted out *)
    assert (E1 : shr_fexp Py.prec Py.emax q e l =
                 ({| shr_m := q / 2; shr_r := Z.odd q; shr_s := negb (r =? 0) |}, e + 1)).
    { unfold shr_fexp, fexp, emin, Py.prec, Py.emax.
      rewrite (Zdigits2_bounds q 53) by lia.
      replace (Z.max (53 + 1 + e - 53) (3 - 1024 - 53) - e) with 1 by lia.
      cbn [shr SpecFloat.iter_pos]. f_equal.
      unfold l. destruct (r =? 0); [|destruct (2 * r ?= d)];
        cbn [shr_record_of_loc]; rewrite shr_1_nonneg by lia; reflexivity. }
    rewrite E1. cbn [shr_m].
    destruct (round_nearest_even_shifted q r d ltac:(lia) Hr) as [Hm Herr].
    set (m2 := round_nearest_even (q / 2) _) in *.
    assert (Hq2 : 2 ^ 52 <= q / 2 < 2 ^ 53).
    { pose proof (Z.div_mod q 2 ltac:(lia)). pose proof (Z.mod_pos_bound q 2 ltac:(lia)). lia. }
    destruct (round_tail false m2 (e + 1)) as (mf & sigma & -> & Hs & Hmf & Emf);
      [lia|lia|].
    exists mf, (1 + sigma). split; [f_equal; lia|]. split; [lia|]. split; [exact Hmf|].
    rewrite Z.pow_add_r by lia. change (2 ^ 1) with 2.
    replace (Z.pos mf * (2 * 2 ^ sigma) * d) with (Z.pos mf * 2 ^ sigma * 2 * d) by ring.
    rewrite Emf. assert (2 * d <= 2 * 2 ^ sigma * d); [|lia].
    assert (1 <= 2 ^ sigma) by (pose proof (Z.pow_pos_nonneg 2 sigma); lia). nia.
Qed.

Lemma SFdiv_core_binary_normal mx ex my ey :
  2 ^ 52 <= Z.pos mx < 2 ^ 53 -> 2 ^ 52 <= Z.pos my < 2 ^ 53 ->
  -52 <= ex <= 0 -> -52 <= ey <= 0 ->
  SFdiv_core_binary Py.prec Py.emax (Z.pos mx) ex (Z.pos my) ey =
  (Z.pos mx * 2 ^ 53 / Z.pos my, ex - ey - 53,
   new_location (Z.pos my) ((Z.pos mx * 2 ^ 53) mod Z.pos my)).
Proof.
  intros Hx Hy Hex Hey. unfold SFdiv_core_binary.
  rewrite (Zdigits2_bounds (Z.pos mx) 52), (Zdigits2_bounds (Z.pos my) 52) by lia.
  unfold fexp, emin, Py.prec, Py.emax.
  replace (Z.min (Z.max (52 + 1 + ex - (52 + 1 + ey) - 53) (3 - 1024 - 53)) (ex - ey))
    with (ex - ey - 53) by lia.
  replace (ex - ey - (ex - ey - 53)) with 53 by lia.
  cbv iota beta zeta. rewrite Z.shiftl_mul_pow2 by lia.
  unfold Z.div, Z.modulo.
  destruct (Z.div_eucl (Z.pos mx * 2 ^ 53) (Z.pos my)) as [q r]. reflexivity.
Qed.

(** The quotient of two such floats is the float nearest to the exact
    quotient: it lies within half a unit of its last digit. *)
Lemma fdiv_nearest x y a b :
  float_is x a -> float_is y b -> 0 < a < 2 ^ 7 * b ->
  exists mf G,
    Py.fdiv x y = S754_finite false mf (- G)
    /\ 0 < G
    /\ 2 ^ 52 <= Z.pos mf < 2 ^ 53
    /\ 2 * Z.abs (Z.pos mf * b - a * 2 ^ G) <= b.
Proof.
  intros (mx & ex & -> & Hmx & Hex & Ex) (my & ey & -> & Hmy & Hey & Ey) Hab.
  pose proof (Z.pow_pos_nonneg 2 (- ex) ltac:(lia) ltac:(lia)) as Px.
  pose proof (Z.pow_pos_nonneg 2 (- ey) ltac:(lia) ltac:(lia)) as Py.
  assert (Hex' : -52 <= ex).
  { destruct (Z_lt_le_dec ex (-52)) as [Hlt|]; [|lia]. exfalso.
    assert (2 ^ 53 <= 2 ^ (- ex)) by (apply Z.pow_le_mono_r; lia). nia. }
  assert (Hey' : -52 <= ey).
  { destruct (Z_lt_le_dec ey (-52)) as [Hlt|]; [|lia]. exfalso.
    assert (2 ^ 53 <= 2 ^ (- ey)) by (apply Z.pow_le_mono_r; lia). nia. }
  (* the exponents are at most seven apart *)
  assert (Hd : ex - ey <= 7).
  { destruct (Z_lt_le_dec 7 (ex - ey)) as [Hlt|]; [|lia]. exfalso.
    assert (Hp : 2 ^ (- ey) = 2 ^ (- ex) * 2 ^ (ex - ey))
      by (rewrite <- Z.pow_add_r by lia; f_equal; lia).
    assert (2 ^ 8 <= 2 ^ (ex - ey)) by (apply Z.pow_le_mono_r; lia).
    assert (b * 2 ^ (- ex) * 2 ^ 8 < 2 ^ 53) by nia.
    nia. }
  unfold Py.fdiv, SFdiv. rewrite SFdiv_core_binary_normal by lia.
  cbn [xorb].
  set (q := Z.pos mx * 2 ^ 53 / Z.pos my).
  set (r := (Z.pos mx * 2 ^ 53) mod Z.pos my).
  pose proof (Z.div_mod (Z.pos mx * 2 ^ 53) (Z.pos my) ltac:(lia)) as Hdm.
  pose proof (Z.mod_pos_bound (Z.pos mx * 2 ^ 53) (Z.pos my) ltac:(lia)) as Hr.
  fold q r in Hdm, Hr.
  assert (Hq : 2 ^ 52 <= q < 2 ^ 54) by nia.
  rewrite new_location_spec by exact Hr.
  destruct (binary_round_aux_quotient q r (Z.pos my) (ex - ey - 53) Hq Hr ltac:(lia))
    as (mf & sigma & -> & Hs & Hmf & Herr).
  set (G := 53 - ex + ey - sigma).
  exists mf, G. split; [f_equal; unfold G; lia|]. split; [unfold G; lia|].
  split; [exact Hmf|].
  (* both sides of the bound carry the factor [2^sigma * 2^(-ey)] *)
  pose proof (Z.pow_pos_nonneg 2 sigma ltac:(lia) ltac:(lia)) as Ps.
  set (K := 2 ^ sigma * 2 ^ (- ey)) in *.
  assert (HK : 0 < K) by (unfold K; nia).
  assert (E1 : 2 ^ sigma * Z.pos my = b * K) by (unfold K; rewrite Ey; ring).
  assert (E2 : q * Z.pos my + r = a * 2 ^ G * K).
  { replace (q * Z.pos my + r) with (Z.pos mx * 2 ^ 53) by lia.
    rewrite Ex. unfold K, G.
    rewrite <- !Z.mul_assoc, <- !Z.pow_add_r by lia. f_equal. f_equal. lia. }
  assert (E3 : Z.pos mf * 2 ^ sigma * Z.pos my - (q * Z.pos my + r)
               = (Z.pos mf * b - a * 2 ^ G) * K).
  { rewrite E2, <- (Z.mul_assoc (Z.pos mf)), E1. ring. }
  rewrite E3, E1 in Herr.
  rewrite Z.abs_mul, (Z.abs_eq K) in Herr by lia.
  apply (Z.mul_le_mono_pos_r _ _ K HK). lia.
Qed.

(** Rounding to the nearest integer, for a value strictly between two
    neighbouring half-integers, and for a value that is a half-integer. *)
Lemma nearest_between W m k :
  0 < W -> (2 * k - 1) * W < 2 * m < (2 * k + 1) * W ->
  match 2 * (m mod W) ?= W with
  | Lt => m / W
  | Gt => m / W + 1
  | Eq => if Z.even (m / W) then m / W else m / W + 1
  end = k.
Proof.
  intros HW Hm.
  pose proof (Z.div_mod m W ltac:(lia)) as Hdm.
  pose proof (Z.mod_pos_bound m W HW) as Hr.
  set (q := m / W) in *. set (r := m mod W) in *.
  assert (Hq : q = k \/ q = k - 1) by nia.
  destruct Hq as [-> | ->]; destruct (Z.compare_spec (2 * r) W) as [H|H|H]; nia.
Qed.

Lemma nearest_tie W m k :
  0 < W -> 2 * m = (2 * k + 1) * W -> m / W = k /\ 2 * (m mod W) = W.
Proof.
  intros HW Hm.
  pose proof (Z.div_mod m W ltac:(lia)) as Hdm.
  pose proof (Z.mod_pos_bound m W HW) as Hr.
  set (q := m / W) in *. set (r := m mod W) in *.
  assert (Hq : q = k) by nia. subst q. split; [exact Hq|]. nia.
Qed.

(** A float within half a unit of its last digit of [n / d], with a
    unit smaller than [1 / d], rounds to the same integer as [n / d]. *)
Lemma round_half_even_nearest n d mf G :
  0 < d -> 0 <= n -> 0 < G -> d < 2 ^ G ->
  2 * Z.abs (Z.pos mf * d - n * 2 ^ G) <= d ->
  Py.round_half_even mf (- G) =
  match 2 * (n mod d) ?= d with
  | Lt => n / d
  | Gt => n / d + 1
  | Eq => if Z.even (n / d) then n / d else n / d + 1
  end.
Proof.
  intros Hd Hn HG HW Herr. unfold Py.round_half_even.
  rewrite (proj2 (Z.leb_gt 0 (- G))) by lia. cbv zeta.
  rewrite Z.opp_involutive.
  set (W := 2 ^ G) in *.
  assert (HW2 : exists W', W = 2 * W').
  { exists (2 ^ (G - 1)). unfold W. rewrite <- Z.pow_succ_r by lia. f_equal. lia. }
  pose proof (Z.div_mod n d ltac:(lia)) as Hdm.
  pose proof (Z.mod_pos_bound n d Hd) as Hr.
  set (k := n / d) in *. set (r := n mod d) in *.
  set (m := Z.pos mf) in *.
  destruct (Z.compare_spec (2 * r) d) as [H|H|H].
  - (* a tie: the float is the half-integer itself *)
    destruct HW2 as [W' EW].
    assert (Em : 2 * m = (2 * k + 1) * W).
    { assert (E : 2 * n = (2 * k + 1) * d) by lia.
      assert (Hb : 2 * Z.abs ((m - (2 * k + 1) * W') * d) <= d).
      { replace ((m - (2 * k + 1) * W') * d) with (m * d - n * W); [exact Herr|].
        rewrite EW. nia. }
      rewrite Z.abs_mul, (Z.abs_eq d) in Hb by lia.
      assert (Z.abs (m - (2 * k + 1) * W') = 0) by nia. lia. }
    destruct (nearest_tie W m k ltac:(lia) Em) as [-> ->].
    rewrite Z.compare_refl. reflexivity.
  - apply nearest_between; [lia|].
    assert (Hlo : 2 * n * W - d <= 2 * m * d) by lia.
    assert (Hhi : 2 * m * d <= 2 * n * W + d) by lia.
    split; apply (Z.mul_lt_mono_pos_r d); try lia; nia.
  - replace (k + 1) with (k + 1) by reflexivity.
    apply nearest_between; [lia|].
    assert (Hlo : 2 * n * W - d <= 2 * m * d) by lia.
    assert (Hhi : 2 * m * d <= 2 * n * W + d) by lia.
    split; apply (Z.mul_lt_mono_pos_r d); try lia; nia.
Qed.

(** The float computation of the percentage is the exact rounding to
    the nearest integer, ties to even, for every scroll range below
    [2^46]. *)
Lemma percentage_exact offset maxScroll :
  0 < offset < maxScroll -> maxScroll < 2 ^ 46 ->
  percentage offset maxScroll = Py.str (rounded_percentage offset maxScroll) +:+ "%".
Proof.
  intros Ho Hm. unfold percentage.
  assert (Hx : float_is (Py.fmul (Py.float 100) (Py.float offset)) (100 * offset)).
  { apply fmul_exact; try lia; apply float_exact; lia. }
  assert (Hy : float_is (Py.float maxScroll) maxScroll) by (apply float_exact; lia).
  destruct (fdiv_nearest _ _ _ _ Hx Hy ltac:(lia)) as (mf & G & -> & HG & Hmf & Herr).
  (* the unit of the last digit is at most [2^-46] *)
  assert (HG46 : 46 <= G).
  { destruct (Z_lt_le_dec G 46) as [Hlt|]; [|lia]. exfalso.
    assert (2 ^ G <= 2 ^ 45) by (apply Z.pow_le_mono_r; lia). nia. }
  assert (HW : maxScroll < 2 ^ G).
  { assert (2 ^ 46 <= 2 ^ G) by (apply Z.pow_le_mono_r; lia). lia. }
  unfold Py.format_0f.
  rewrite (round_half_even_nearest (100 * offset) maxScroll mf G) by lia.
  reflexivity.
Qed.

(** C8.  When the right part is composed, its last fragment is the
    selection and scroll indicator, and its text is given by this
    cascade: "Mrk" if any item is marked; else "All" if the number of
    items minus the height of the column is at most 0; else "Top" if
    the scroll offset is 0; else "Bot" if the offset is at least that
    difference; else the percentage [100 * offset / maxScroll], rounded
    to the nearest integer, ties to the even one, and followed by "%".
    The source computes the percentage in binary64; the result is the
    exact rounding for every scroll range below [2^46], which no
    listing reaches.  The four cases named by the specification come
    out as "All", "Top", "Bot" and "50%". *)
Theorem C8_scroll_indicator env bar w col t listing :
  column env = Some col ->
  target col = Some t ->
  accessible t = true ->
  files t = Some listing ->
  (exists bar' frag,
      value (_get_right_part env bar w) = Done bar'
      /\ last (right bar') = Some frag
      /\ cs_string frag =
         indicator (bool_decide (marked_items t <> []))
           (Z.of_nat (length listing)) (hei col) (scroll_begin t))
  /\ (forall itemCount columnHeight offset,
        indicator true itemCount columnHeight offset = "Mrk"
        /\ (itemCount - columnHeight <= 0 ->
            indicator false itemCount columnHeight offset = "All")
        /\ (0 < itemCount - columnHeight -> offset = 0 ->
            indicator false itemCount columnHeight offset = "Top")
        /\ (0 < itemCount - columnHeight -> offset <> 0 ->
            itemCount - columnHeight <= offset ->
            indicator false itemCount columnHeight offset = "Bot")
        /\ (0 < offset -> offset < itemCount - columnHeight ->
            itemCount - columnHeight < 2 ^ 46 ->
            indicator false itemCount columnHeight offset =
            Py.str (rounded_percentage offset (itemCount - columnHeight)) +:+ "%"))
  /\ (indicator false 50 50 0 = "All"
      /\ indicator false 20 10 0 = "Top"
      /\ indicator false 20 10 10 = "Bot"
      /\ indicator false 20 10 5 = "50%").
Proof.
  intros Ec Et Ea Ef. split; [|split].
  - rewrite (_get_right_part_run env bar w col t listing Ec Et Ea Ef). cbn zeta.
    eexists. eexists. split; [reflexivity|].
    rewrite right_add_right, last_snoc. split; reflexivity.
  - intros itemCount columnHeight offset. unfold indicator.
    split; [reflexivity|]. split; [|split; [|split]].
    + intros H. rewrite (proj2 (Z.leb_le _ _) H). reflexivity.
    + intros H ->. rewrite (proj2 (Z.leb_gt _ _) H). reflexivity.
    + intros H Hne Hge. rewrite (proj2 (Z.leb_gt _ _) H).
      rewrite (proj2 (Z.eqb_neq _ _) Hne), (proj2 (Z.leb_le _ _) Hge). reflexivity.
    + intros Ho Hlt Hb.
      rewrite (proj2 (Z.leb_gt (itemCount - columnHeight) 0)) by lia.
      rewrite (proj2 (Z.eqb_neq offset 0)) by lia.
      rewrite (proj2 (Z.leb_gt _ _) Hlt).
      apply percentage_exact; lia.
  - repeat split; vm_compute; reflexivity.
Qed.



(** While [old_hint] is [None], as it is for the life of a widget, a
    hint that is shown is drawn by every call of [draw()]. *)
Lemma hint_drawn_by_every_call env now w :
  old_hint (sb w) = HNone ->
  shows_hint (sb w) = true ->
  draw env now w = _draw_hint (with_sb (with_need_redraw true (sb w)) w).
Proof.
  intros Ho Hh. rewrite draw_run, Hh, Ho.
  unfold shows_hint in Hh. apply andb_true_iff in Hh as [_ Hs].
  destruct (hint (sb w)) as [|s|]; try discriminate Hs. reflexivity.
Qed.

End Properties.

(** * The properties at the sample data *)

Ltac not_in_trace :=
  let H := fresh "H" in
  unfold recomposed; vm_compute; intros H;
  repeat (destruct H as [H|H]; [discriminate H|]); exact H.

(** C1.  The claim fails at this input.  A fresh widget is drawn while
    the disk usage of the directory is not known: the bar is composed.
    Then the disk usage becomes available and nothing else changes: the
    next [draw()] does not recompose, writes nothing and leaves the
    widget as it was, [old_du] still being [None]. *)
Lemma C1_disk_usage_becomes_available :
  let r1 := draw (P := Sample.platform) Sample.env 0 (Sample.fresh 80) in
  let r2 := draw (P := Sample.platform) Sample.env_with_du 1 (world r1) in
  recomposed r1
  /\ disk_usage (cwd Sample.env) = None
  /\ disk_usage (cwd Sample.env_with_du) = Some 4096
  /\ r2 = skipped (world r1)
  /\ old_du (sb (world r2)) = None.
Proof.
  cbv zeta. split; [|split; [|split; [|split]]].
  - unfold recomposed. vm_compute. left. reflexivity.
  - reflexivity.
  - reflexivity.
  - vm_compute. reflexivity.
  - vm_compute. reflexivity.
Qed.

(** C2 fails while a message is alive: the bar has been composed, a
    message is set, and of two calls of [draw()] at the same time, with
    nothing changed between them, the second writes the message to the
    window again. *)
Lemma C2_counterexample :
  let w0 := world (draw (P := Sample.platform) Sample.env 0 (Sample.fresh 80)) in
  let w := world (notify 0 "saved" 4 false w0) in
  let r1 := draw (P := Sample.platform) Sample.env 1 w in
  let r2 := draw (P := Sample.platform) Sample.env 1 (world r1) in
  result_truthy (result (sb (world r1))) = true
  /\ trace r2 = message_trace Sample.saved 80
  /\ r2 <> skipped (world r1).
Proof.
  cbv zeta. split; [|split].
  - vm_compute. reflexivity.
  - vm_compute. reflexivity.
  - intros E. apply (f_equal trace) in E. vm_compute in E. discriminate E.
Qed.

(** C2 at the sample data: a fresh widget drawn twice, and a widget that
    holds a live message drawn twice. *)
Lemma C2_second_draw_witness :
  let w := Sample.fresh 80 in
  let r := draw (P := Sample.platform) Sample.env 0 w in
  shows_hint (sb w) = false
  /\ shows_message 0 (sb w) = false
  /\ result_truthy (result (sb (world r))) = true
  /\ draw (P := Sample.platform) Sample.env 5 (world r) = skipped (world r)
  /\ trace (draw (P := Sample.platform) Sample.env 2
              (world (draw (P := Sample.platform) Sample.env 1
                        (world (notify 0 "saved" 4 false w)))))
     = message_trace Sample.saved 80.
Proof.
  cbv zeta.
  destruct (C2_second_draw (P := Sample.platform) Sample.env 0 5 (Sample.fresh 80) eq_refl)
    as [Hskip _].
  destruct (C2_second_draw (P := Sample.platform) Sample.env 1 2
              (world (notify 0 "saved" 4 false (Sample.fresh 80))) eq_refl)
    as [_ Hmsg].
  split; [reflexivity|]. split; [reflexivity|].
  split; [vm_compute; reflexivity|].
  split.
  - apply Hskip; [reflexivity|vm_compute; reflexivity].
  - apply (Hmsg Sample.saved); reflexivity.
Defined.

(** C3 fails for an id that the user database does not know: the
    look-up returns the decimal id, the cache has no entry for it
    afterwards, and the same look-up made again asks the user database
    again. *)
Lemma C3_counterexample :
  let w := Sample.fresh 80 in
  let r := _get_owner (P := Sample.platform) Sample.strangers_file w in
  Sample.passwd 1234 = None
  /\ value r = Done "1234"
  /\ owners (world r) !! 1234 = None
  /\ trace (_get_owner (P := Sample.platform) Sample.strangers_file (world r))
     = [GetPwUid 1234].
Proof. cbv zeta. repeat split; vm_compute; reflexivity. Qed.

(** C3 at the sample data: a file of unknown owner and group, and a file
    of a known owner and group looked up twice. *)
Lemma C3_fallback_is_not_cached_witness :
  let w := Sample.fresh 80 in
  _get_owner (P := Sample.platform) Sample.strangers_file w
  = {| value := Done "1234"; world := w; trace := [GetPwUid 1234] |}
  /\ _get_group (P := Sample.platform) Sample.strangers_file w
     = {| value := Done "4321"; world := w; trace := [GetGrGid 4321] |}
  /\ _get_owner (P := Sample.platform) Sample.f1
       (world (_get_owner (P := Sample.platform) Sample.f1 w))
     = {| value := Done "alice";
          world := world (_get_owner (P := Sample.platform) Sample.f1 w);
          trace := [] |}
  /\ _get_group (P := Sample.platform) Sample.f1
       (world (_get_group (P := Sample.platform) Sample.f1 w))
     = {| value := Done "users";
          world := world (_get_group (P := Sample.platform) Sample.f1 w);
          trace := [] |}.
Proof.
  cbv zeta.
  destruct (C3_fallback_is_not_cached (P := Sample.platform) Sample.strangers_file
              {| st_uid := 1234; st_gid := 4321; st_nlink := 1; st_mtime := 1262304000 |}
              (Sample.fresh 80) eq_refl) as (Ho & Hg & _ & _).
  destruct (C3_fallback_is_not_cached (P := Sample.platform) Sample.f1
              {| st_uid := 1000; st_gid := 100; st_nlink := 1; st_mtime := 1262304000 |}
              (Sample.fresh 80) eq_refl) as (_ & _ & Hos & Hgs).
  split; [apply Ho; reflexivity|].
  split; [apply Hg; reflexivity|].
  split.
  - apply (Hos "alice"); reflexivity.
  - apply (Hgs "users"); reflexivity.
Defined.

(** C4 at the sample data: four segments in a window of three columns
    that rejects a write that does not start inside it.  The third
    segment has no width left: its write is rejected and the fourth is
    not attempted. *)
Lemma C4_hint_drawn_until_rejected_witness :
  let w := set_hint (HStr "ab//cd//e//f") (Sample.fresh 3) in
  hint (sb w) = HStr "ab//cd//e//f"
  /\ value (_draw_hint (P := Sample.narrow_platform) w) = Done tt
  /\ trace (_draw_hint (P := Sample.narrow_platform) w) =
     [Erase;
      Color ["in_statusbar"; "text"]; AddNStr 0 0 "ab" 3;
      Color ["in_statusbar"; "text"; "highlight"]; AddNStr 0 2 "cd" 1;
      Color ["in_statusbar"; "text"]; AddNStr 0 4 "e" (-1)]
  /\ hint_write_accepted (P := Sample.narrow_platform) 0 3
       (Py.split "ab//cd//e//f") 2 = false.
Proof.
  cbv zeta.
  destruct (C4_hint_drawn_until_rejected (P := Sample.narrow_platform) "ab//cd//e//f"
              (set_hint (HStr "ab//cd//e//f") (Sample.fresh 3)) eq_refl)
    as (Hv & _ & Ht & _ & _ & _ & _ & Hwidth & _).
  split; [reflexivity|]. split; [exact Hv|].
  split; [rewrite Ht; vm_compute; reflexivity|].
  refine (proj1 (Hwidth _ _ 2%nat _ _)).
  - cbn. lia.
  - intros y col str k Hcol. cbn in Hcol |- *.
    apply andb_false_iff. right. apply Z.ltb_ge. exact Hcol.
  - vm_compute. lia.
  - vm_compute. discriminate.
Defined.

(** C5 at the sample data: a hint over a composed bar, a live message
    over a composed bar, and the hint cleared after it was drawn. *)
Lemma C5_overlay_precedence_witness :
  let w0 := world (draw (P := Sample.platform) Sample.env 0 (Sample.fresh 80)) in
  let w := set_hint (HStr "a//b") w0 in
  let wm := world (notify 0 "saved" 4 false w0) in
  shows_hint (sb w) = true
  /\ draw (P := Sample.platform) Sample.env 1 w =
     {| value := Done tt;
        world := with_sb (with_need_redraw true (sb w)) w;
        trace := [Erase;
                  Color ["in_statusbar"; "text"]; AddNStr 0 0 "a" 80;
                  Color ["in_statusbar"; "text"; "highlight"]; AddNStr 0 1 "b" 79] |}
  /\ ~ recomposed (draw (P := Sample.platform) Sample.env 1 w)
  /\ shows_hint (sb wm) = false
  /\ trace (draw (P := Sample.platform) Sample.env 1 wm) = message_trace Sample.saved 80
  /\ recomposed
       (draw (P := Sample.platform) Sample.env 2
          (set_hint HNone (world (draw (P := Sample.platform) Sample.env 1 w)))).
Proof.
  cbv zeta.
  set (w0 := world (draw (P := Sample.platform) Sample.env 0 (Sample.fresh 80))).
  destruct (C5_overlay_precedence (P := Sample.platform) Sample.env 1
              (set_hint (HStr "a//b") w0)) as (Hhint & _ & Hclear).
  destruct (C5_overlay_precedence (P := Sample.platform) Sample.env 1
              (world (notify 0 "saved" 4 false w0))) as (_ & Hmsg & _).
  destruct (Hhint eq_refl) as (s & Es & Hv & Hn & Hdrawn).
  pose proof (Es : HStr "a//b" = HStr s) as Es'. injection Es' as <-.
  cbv zeta in Hdrawn. destruct Hdrawn as (_ & Hdraw & _).
  destruct (Hmsg eq_refl Sample.saved eq_refl eq_refl) as (Ht & _).
  destruct (Hclear eq_refl HNone Sample.env 2 eq_refl) as (Hr & _).
  split; [reflexivity|].
  split; [rewrite Hdraw by (left; vm_compute; discriminate); vm_compute; reflexivity|].
  split; [exact Hn|].
  split; [reflexivity|]. split; [exact Ht|].
  apply Hr. reflexivity.
Defined.

(** C6 fails while a hint is shown: the message is dead when [draw()] is
    called, and the call neither drops it nor recomposes the bar. *)
Lemma C6_counterexample :
  let w := set_hint (HStr "keys") (world (notify 0 "saved" 4 false (Sample.fresh 80))) in
  let r := draw (P := Sample.platform) Sample.env 10 w in
  is_alive 10 Sample.saved = false
  /\ msg (sb w) = Some Sample.saved
  /\ msg (sb (world r)) = Some Sample.saved
  /\ ~ recomposed r.
Proof.
  cbv zeta. split; [reflexivity|]. split; [reflexivity|].
  split; [vm_compute; reflexivity|]. not_in_trace.
Qed.

(** C6 at the sample data: a message of four seconds set at time 0,
    dropped by a call at time 5, or replaced at time 3. *)
Lemma C6_message_lifecycle_witness :
  let w := world (notify 0 "saved" 4 false (Sample.fresh 80)) in
  is_alive 0 Sample.saved = true
  /\ is_alive 4 Sample.saved = true
  /\ is_alive 5 Sample.saved = false
  /\ shows_hint (sb w) = false
  /\ msg (sb w) = Some Sample.saved
  /\ msg (sb (world (draw (P := Sample.platform) Sample.env 5 w))) = None
  /\ recomposed (draw (P := Sample.platform) Sample.env 5 w)
  /\ msg (sb (world (notify 3 "again" 1 true w))) = Some (Message_init 3 "again" 1 true).
Proof.
  cbv zeta.
  destruct (C6_message_lifecycle (P := Sample.platform)) as (Halive & Hdead & Hdrop & Hnew).
  destruct (Hdrop Sample.env 5 (world (notify 0 "saved" 4 false (Sample.fresh 80)))
              Sample.saved eq_refl eq_refl eq_refl) as [Hnone Hre].
  split; [apply (Halive 0 "saved" 4 false 0); lia|].
  split; [apply (Halive 0 "saved" 4 false 4); lia|].
  split; [apply (Hdead 0 "saved" 4 false 5); lia|].
  split; [reflexivity|]. split; [reflexivity|].
  split; [exact Hnone|]. split; [exact Hre|].
  rewrite Hnew. reflexivity.
Defined.

(** C7 fails for a process whose real and effective user ids differ: the
    effective user owns the file, the real user does not, and the
    permission string is styled "bad". *)
Lemma C7_counterexample :
  let r := _get_left_part (P := Sample.setuid_platform) (Sample.env_at Sample.roots_file)
             (Bar_new "in_statusbar") (Sample.fresh 80) in
  effective_uid (process (Platform := Sample.setuid_platform)) = 0
  /\ real_uid (process (Platform := Sample.setuid_platform)) = 1000
  /\ (st_uid <$> stat Sample.roots_file) = Some 0
  /\ exists bar,
       value r = Done bar
       /\ head (left bar)
          = Some {| cs_string := "-rw-r--r--";
                    lst := ["in_statusbar"; "permissions"; "bad"] |}.
Proof.
  cbv zeta. repeat split. eexists. split; vm_compute; reflexivity.
Qed.

(** C7 at the sample data: a dangling symbolic link of the user. *)
Lemma C7_left_part_witness :
  let env := Sample.env_at Sample.a_link in
  left_target env = Some Sample.a_link
  /\ exists bar,
       value (_get_left_part (P := Sample.platform) env (Bar_new "in_statusbar")
                (Sample.fresh 80)) = Done bar
       /\ map cs_string (left bar)
          = ["lrwxrwxrwx"; " "; "1"; " "; "alice"; " "; "users"; " -> gone"]
       /\ (lst <$> last (left bar)) = Some ["in_statusbar"; "link"; "bad"].
Proof.
  cbv zeta. split; [reflexivity|].
  destruct (C7_left_part (P := Sample.platform) (Sample.env_at Sample.a_link)
              (Sample.fresh 80) Sample.a_link
              {| st_uid := 1000; st_gid := 100; st_nlink := 1; st_mtime := 1262304000 |}
              eq_refl eq_refl) as (bar & Hv & _ & Hl).
  exists bar. split; [exact Hv|]. rewrite Hl. split; vm_compute; reflexivity.
Defined.

(** C8 at the sample data: five files in a column of height two,
    scrolled by one; and a listing of a million and eleven files in a
    column of height eleven, scrolled by 123456. *)
Lemma C8_scroll_indicator_witness :
  let d := Sample.dir [] 1 None in
  let env := Sample.env_of d 2 in
  column env = Some {| target := Some d; hei := 2 |}
  /\ accessible d = true
  /\ files d = Some [Sample.f1; Sample.f2; Sample.f3; Sample.f4; Sample.f5]
  /\ (exists bar' frag,
        value (_get_right_part (P := Sample.platform) env (Bar_new "in_statusbar")
                 (Sample.fresh 80)) = Done bar'
        /\ last (right bar') = Some frag
        /\ cs_string frag = "33%")
  /\ indicator false 1000011 11 123456 = "12%".
Proof.
  cbv zeta.
  destruct (C8_scroll_indicator (P := Sample.platform)
              (Sample.env_of (Sample.dir [] 1 None) 2) (Bar_new "in_statusbar")
              (Sample.fresh 80) {| target := Some (Sample.dir [] 1 None); hei := 2 |}
              (Sample.dir [] 1 None)
              [Sample.f1; Sample.f2; Sample.f3; Sample.f4; Sample.f5]
              eq_refl eq_refl eq_refl eq_refl)
    as ((bar' & frag & Hv & Hl & Hs) & Hcascade & _).
  destruct (Hcascade 5 2 1) as (_ & _ & _ & _ & Hsmall).
  destruct (Hcascade 1000011 11 123456) as (_ & _ & _ & _ & Hlarge).
  split; [reflexivity|]. split; [reflexivity|]. split; [reflexivity|].
  split.
  - exists bar', frag. split; [exact Hv|]. split; [exact Hl|].
    rewrite Hs. apply Hsmall; lia.
  - apply Hlarge; lia.
Defined.


(** C10 at the sample data: the current file changes from one with a
    readable modification time to one without. *)
Lemma C10_mtime_sentinel_witness :
  let w := world (draw (P := Sample.platform) (Sample.env_at Sample.f1) 0 (Sample.fresh 80)) in
  let failure := Sample.env_at Sample.file_without_stat in
  let minus_one := Sample.env_at Sample.file_with_mtime_minus_one in
  shows_hint (sb w) = false
  /\ shows_message 1 (sb w) = false
  /\ stat_unavailable failure
  /\ old_mtime (sb w) = Some 1262304000
  /\ recomposed (draw (P := Sample.platform) failure 1 w)
  /\ old_mtime (sb (world (draw (P := Sample.platform) failure 1 w))) = Some (-1)
  /\ minus_one_for_failure failure minus_one
  /\ old_mtime (sb (world (draw (P := Sample.platform) minus_one 1 w))) = Some (-1).
Proof.
  cbv zeta.
  set (w := world (draw (P := Sample.platform) (Sample.env_at Sample.f1) 0 (Sample.fresh 80))).
  assert (Hh : shows_hint (sb w) = false) by reflexivity.
  assert (Hm : shows_message 1 (sb w) = false) by reflexivity.
  assert (Hu : stat_unavailable (Sample.env_at Sample.file_without_stat)) by reflexivity.
  assert (Hsame : minus_one_for_failure (Sample.env_at Sample.file_without_stat)
                    (Sample.env_at Sample.file_with_mtime_minus_one)).
  { exists Sample.file_without_stat, Sample.file_with_mtime_minus_one,
      {| st_uid := 1000; st_gid := 100; st_nlink := 1; st_mtime := -1 |}.
    repeat split. }
  destruct (C10_mtime_sentinel (P := Sample.platform)
              (Sample.env_at Sample.file_without_stat) 1 w Hh Hm)
    as (Hsub & Hgone & _ & Hind).
  destruct (Hsub Hu) as [_ Hold].
  destruct (Hind _ Hsame) as [_ Heq].
  split; [exact Hh|]. split; [exact Hm|]. split; [exact Hu|].
  split; [vm_compute; reflexivity|].
  split; [apply (Hgone Hu 1262304000); [vm_compute; reflexivity|discriminate]|].
  split; [exact Hold|]. split; [exact Hsame|].
  rewrite Heq. exact Hold.
Defined.


(** * Further properties *)

Section Further.

Context {P : Platform}.

(** ** When [draw()] recomposes *)

Lemma draw_hint_not_recomposed env now w :
  shows_hint (sb w) = true -> ~ recomposed (draw env now w).
Proof.
  intros Hh. destruct (draw_run_hint env now w Hh) as [[-> _]|[-> _]].
  - intros [].
  - unfold shows_hint in Hh. apply andb_true_iff in Hh as [_ Hs].
    destruct (hint (sb w)) as [|s|] eqn:Es; try discriminate Hs.
    apply (_draw_hint_run s). exact Es.
Qed.

Lemma draw_message_not_recomposed env now w :
  shows_hint (sb w) = false -> shows_message now (sb w) = true ->
  ~ recomposed (draw env now w).
Proof.
  intros Hh Hm. unfold shows_message in Hm.
  destruct (msg (sb w)) as [m|] eqn:Em; [|discriminate Hm].
  rewrite (draw_run_message env now w m Hh Em Hm).
  destruct (forget_hint_fields (sb w)) as (_ & Fm & _).
  assert (Em1 : msg (sb (with_sb (forget_hint (sb w)) w)) = Some m)
    by (cbn [sb with_sb]; rewrite Fm; exact Em).
  unfold recomposed. destruct (_draw_message_run m _ Em1) as [_ ->].
  intros [H|[H|[H|[]]]]; discriminate H.
Qed.

(** X1.  [draw()] recomposes the bar exactly when no hint is shown, no
    message is alive, and one of these holds: the redraw flag is set, an
    old hint is to be forgotten, a (dead) message is held, the cached
    result is missing or empty, the remembered disk usage is true while
    the current one is not, the current file is another object, or its
    modification time differs from the remembered one. *)
Theorem X1_recomposed_exactly_when env now w :
  recomposed (draw env now w) <->
  shows_hint (sb w) = false
  /\ shows_message now (sb w) = false
  /\ (need_redraw (sb w) = true
      \/ (hint_truthy (old_hint (sb w)) = true /\ hint_truthy (hint (sb w)) = false)
      \/ msg (sb w) <> None
      \/ result_truthy (result (sb w)) = false
      \/ (Py.truthy_int (old_du (sb w)) = true
          /\ Py.truthy_int (disk_usage (cwd env)) = false)
      \/ cf_ne (old_cf (sb w)) (cf env) = true
      \/ mtime_ne (old_mtime (sb w)) (observed_mtime env) = true).
Proof.
  destruct (shows_hint (sb w)) eqn:Hh.
  { split; [intros H; destruct (draw_hint_not_recomposed env now w Hh H)|].
    intros (H & _). discriminate H. }
  destruct (shows_message now (sb w)) eqn:Hm.
  { split; [intros H; destruct (draw_message_not_recomposed env now w Hh Hm H)|].
    intros (_ & H & _). discriminate H. }
  rewrite (draw_run_content env now w Hh Hm), draw_content_recomposed.
  cbn [sb with_sb]. unfold fingerprint_stale.
  destruct (forget_hint_fields (sb w)) as (Fh & Fm & Fr & Fc & Ft & Fd & _).
  destruct (drop_message_fields (forget_hint (sb w)))
    as (_ & _ & _ & -> & -> & -> & -> & _).
  rewrite Fr, Fc, Ft, Fd.
  assert (En : need_redraw (drop_message (forget_hint (sb w))) = true <->
               need_redraw (sb w) = true
               \/ (hint_truthy (old_hint (sb w)) = true /\ hint_truthy (hint (sb w)) = false)
               \/ msg (sb w) <> None).
  { unfold drop_message. rewrite Fm. unfold forget_hint.
    destruct (msg (sb w)) as [m|].
    - cbn [need_redraw with_need_redraw]. split; [|reflexivity].
      intros _. right. right. discriminate.
    - destruct (hint_truthy (old_hint (sb w))), (hint_truthy (hint (sb w)));
        cbn [andb negb need_redraw with_need_redraw].
      all: split; [intros H; try (left; exact H); right; left; split; reflexivity|].
      all: intros [H|[[H1 H2]|H]]; try exact H; try discriminate;
        try reflexivity; try (exfalso; apply H; reflexivity). }
  rewrite !orb_true_iff, andb_true_iff, !negb_true_iff, En.
  split.
  - intros H. split; [reflexivity|]. split; [reflexivity|]. tauto.
  - intros (_ & _ & H). tauto.
Qed.

(** X2.  [request_redraw()] changes nothing but the redraw flag, and the
    next [draw()] that shows neither a hint nor a live message then
    recomposes the bar, whatever the fingerprint. *)
Theorem X2_request_redraw_forces env now w :
  world (request_redraw w) = with_sb (with_need_redraw true (sb w)) w
  /\ trace (request_redraw w) = []
  /\ (shows_hint (sb w) = false -> shows_message now (sb w) = false ->
      recomposed (draw env now (world (request_redraw w)))).
Proof.
  split; [reflexivity|]. split; [reflexivity|].
  intros Hh Hm.
  rewrite draw_run_content; [| exact Hh | exact Hm].
  apply draw_content_recomposed. cbn [sb with_sb world request_redraw].
  unfold request_redraw, update, store. cbn [world sb with_sb].
  rewrite drop_message_need_redraw; [reflexivity|].
  unfold forget_hint. cbn [old_hint hint with_need_redraw].
  destruct (hint_truthy (old_hint (sb w)) && negb (hint_truthy (hint (sb w))));
    reflexivity.
Qed.

Lemma remembered_old_cf me env :
  cf_ne (old_cf (remembered me env)) (cf env) = false.
Proof.
  unfold remembered.
  destruct (Py.truthy_int (old_du me) && negb (Py.truthy_int (disk_usage (cwd env))));
    cbn [old_cf with_old_du];
    destruct (cf_ne (old_cf me) (cf env)) eqn:Ec;
    destruct (mtime_ne (old_mtime _) (observed_mtime env));
    cbn [old_cf with_old_du with_old_cf with_old_mtime];
    rewrite ?cf_ne_refl, ?Ec; reflexivity.
Qed.

(** X3.  After a [draw()] that shows neither a hint nor a live message,
    whether it recomposed, skipped or raised, the fingerprint agrees with
    the surroundings: the remembered file is the current file object, the
    remembered modification time is the observed one, the flag is down
    and no message is held. *)
Theorem X3_fingerprint_up_to_date env now w :
  shows_hint (sb w) = false ->
  shows_message now (sb w) = false ->
  let me := sb (world (draw env now w)) in
  cf_ne (old_cf me) (cf env) = false
  /\ old_mtime me = Some (observed_mtime env)
  /\ need_redraw me = false
  /\ msg me = None.
Proof.
  intros Hh Hm me. subst me.
  rewrite (draw_run_content env now w Hh Hm).
  split; [|split; [apply draw_content_old_mtime|]].
  - destruct (draw_content_sb env (with_sb (drop_message (forget_hint (sb w))) w))
      as (res & -> & _).
    cbn [old_cf with_result with_need_redraw sb with_sb].
    apply remembered_old_cf.
  - destruct (draw_content_sb env (with_sb (drop_message (forget_hint (sb w))) w))
      as (res & -> & _).
    cbn [need_redraw msg with_result with_need_redraw sb with_sb].
    destruct (remembered_fields (drop_message (forget_hint (sb w))) env)
      as (_ & -> & _).
    split; [|apply drop_message_fields].
    destruct (need_redraw _); [|reflexivity].
    cbn [orb negb andb]. reflexivity.
Qed.

(** X4.  A bar that comes out empty is never at rest: when a [draw()]
    that shows neither a hint nor a live message leaves no result or an
    empty one, the next [draw()] without a hint recomposes again, in
    whatever surroundings and at whatever time. *)
Theorem X4_empty_result_recomposed_again env env' now now' w :
  shows_hint (sb w) = false ->
  shows_message now (sb w) = false ->
  result_truthy (result (sb (world (draw env now w)))) = false ->
  recomposed (draw env' now' (world (draw env now w))).
Proof.
  intros Hh Hm Hres.
  assert (Hh' : shows_hint (sb (world (draw env now w))) = false).
  { rewrite (draw_run_content env now w Hh Hm).
    destruct (draw_content_sb env (with_sb (drop_message (forget_hint (sb w))) w))
      as (res & -> & _).
    unfold shows_hint in *. cbn [hint with_result with_need_redraw sb with_sb].
    destruct (remembered_fields (drop_message (forget_hint (sb w))) env) as (-> & _).
    destruct (drop_message_fields (forget_hint (sb w))) as (-> & _).
    destruct (forget_hint_fields (sb w)) as (-> & _). exact Hh. }
  assert (Hm' : shows_message now' (sb (world (draw env now w))) = false).
  { unfold shows_message.
    rewrite (draw_run_content env now w Hh Hm).
    destruct (draw_content_sb env (with_sb (drop_message (forget_hint (sb w))) w))
      as (res & -> & _).
    cbn [msg with_result with_need_redraw sb with_sb].
    destruct (remembered_fields (drop_message (forget_hint (sb w))) env) as (_ & -> & _).
    destruct (drop_message_fields (forget_hint (sb w))) as (_ & -> & _). reflexivity. }
  rewrite (draw_run_content env' now' _ Hh' Hm').
  apply draw_content_recomposed. cbn [sb with_sb].
  unfold fingerprint_stale.
  destruct (forget_hint_fields (sb (world (draw env now w)))) as (_ & _ & Fr & _).
  destruct (drop_message_fields (forget_hint (sb (world (draw env now w)))))
    as (_ & _ & _ & -> & _).
  rewrite Fr, Hres. cbn [negb orb]. apply orb_true_r.
Qed.

(** ** Errors *)

Lemma _draw_message_value m w :
  msg (sb w) = Some m ->
  value (_draw_message w) =
  if addnstr_ok 0 0 (text m) (wid (sb w)) then Done tt else Raised.
Proof.
  intros E. unfold _draw_message, self, color, addnstr.
  run_step. rewrite bind_emit. cbn [value]. rewrite E.
  rewrite !bind_emit. cbn [value].
  destruct (addnstr_ok 0 0 (text m) (wid (sb w))); reflexivity.
Qed.

(** X5.  Where [draw()] can raise.  A call that shows a hint returns
    normally whatever the window does, and so does a call that is
    skipped.  A call that shows a live message raises exactly when the
    window rejects the write of the message.  Any other call that raises
    has gone through [_calc_bar]. *)
Theorem X5_where_draw_raises env now w :
  (shows_hint (sb w) = true -> value (draw env now w) = Done tt)
  /\ (forall m,
        shows_hint (sb w) = false -> msg (sb w) = Some m -> is_alive now m = true ->
        (value (draw env now w) = Raised <->
         addnstr_ok 0 0 (text m) (wid (sb w)) = false))
  /\ (value (draw env now w) = Raised ->
      shows_hint (sb w) = false
      /\ (shows_message now (sb w) = true \/ recomposed (draw env now w))).
Proof.
  assert (Hhint : shows_hint (sb w) = true -> value (draw env now w) = Done tt).
  { intros Hh. destruct (draw_run_hint env now w Hh) as [[-> _]|[-> _]]; [reflexivity|].
    unfold shows_hint in Hh. apply andb_true_iff in Hh as [_ Hs].
    destruct (hint (sb w)) as [|s|] eqn:Es; try discriminate Hs.
    apply (_draw_hint_run s). exact Es. }
  split; [exact Hhint|]. split.
  - intros m Hh Em Ha.
    rewrite (draw_run_message env now w m Hh Em Ha).
    destruct (forget_hint_fields (sb w)) as (_ & Fm & _ & _ & _ & _ & Fw).
    rewrite (_draw_message_value m); [|cbn [sb with_sb]; rewrite Fm; exact Em].
    cbn [sb with_sb]. rewrite Fw.
    destruct (addnstr_ok 0 0 (text m) (wid (sb w))); split; intros H;
      try reflexivity; discriminate H.
  - intros Hr.
    destruct (shows_hint (sb w)) eqn:Hh.
    { rewrite (Hhint eq_refl) in Hr. discriminate Hr. }
    split; [reflexivity|].
    destruct (shows_message now (sb w)) eqn:Hm; [left; reflexivity|right].
    rewrite (draw_run_content env now w Hh Hm) in Hr |- *.
    apply draw_content_recomposed.
    rewrite draw_content_run in Hr.
    destruct (need_redraw _ || fingerprint_stale _ env); [reflexivity|discriminate Hr].
Qed.

(** ** Painting the result *)

(** The loop of [_print_result], started behind the fragments already
    written. *)
Lemma _print_parts_run parts written w :
  _print_parts parts written w =
  match parts with
  | [] => {| value := Done tt; world := w; trace := [] |}
  | part :: rest =>
      if addstr_ok written (cs_string part) then
        let r := _print_parts rest (written ++ [cs_string part]) w in
        {| value := value r; world := world r;
           trace := Color (lst part) :: AddStr (cs_string part) :: trace r |}
      else
        {| value := Raised; world := w;
           trace := [Color (lst part); AddStr (cs_string part)] |}
  end.
Proof.
  destruct parts as [|part rest]; [reflexivity|].
  cbn [_print_parts]. unfold color, addstr.
  rewrite bind_emit, bind_assoc, bind_emit.
  destruct (addstr_ok written (cs_string part)).
  - run_step. reflexivity.
  - reflexivity.
Qed.

Lemma _print_parts_all all n i w :
  (i + n = length all)%nat ->
  (forall j, (i <= j < length all)%nat -> paint_accepted all j = true) ->
  _print_parts (drop i all) (map cs_string (take i all)) w =
  {| value := Done tt; world := w; trace := painted (drop i all) |}.
Proof.
  revert i. induction n as [|n IH]; intros i Hlen Hacc.
  - rewrite drop_ge by lia. reflexivity.
  - destruct (lookup_lt_is_Some_2 all i) as [part Ep]; [lia|].
    rewrite (drop_S _ _ _ Ep), _print_parts_run.
    pose proof (Hacc i ltac:(lia)) as Hi. unfold paint_accepted in Hi.
    rewrite Ep in Hi. rewrite Hi. cbn zeta.
    replace (map cs_string (take i all) ++ [cs_string part])
      with (map cs_string (take (S i) all))
      by (rewrite (take_S_r _ _ _ Ep), map_app; reflexivity).
    rewrite (IH (S i)); [reflexivity|lia|].
    intros j Hj. apply Hacc. lia.
Qed.

Lemma _print_parts_stop all n i k w :
  (i + n = length all)%nat ->
  (i <= k < length all)%nat ->
  (forall j, (i <= j < k)%nat -> paint_accepted all j = true) ->
  paint_accepted all k = false ->
  _print_parts (drop i all) (map cs_string (take i all)) w =
  {| value := Raised; world := w;
     trace := painted (take (S k - i) (drop i all)) |}.
Proof.
  revert i. induction n as [|n IH]; intros i Hlen Hk Hacc Hrej; [lia|].
  destruct (lookup_lt_is_Some_2 all i) as [part Ep]; [lia|].
  rewrite (drop_S _ _ _ Ep), _print_parts_run.
  destruct (decide (i = k)) as [->|Hne].
  - unfold paint_accepted in Hrej. rewrite Ep in Hrej. rewrite Hrej.
    replace (S k - k)%nat with 1%nat by lia. reflexivity.
  - pose proof (Hacc i ltac:(lia)) as Hi. unfold paint_accepted in Hi.
    rewrite Ep in Hi. rewrite Hi. cbn zeta.
    replace (map cs_string (take i all) ++ [cs_string part])
      with (map cs_string (take (S i) all))
      by (rewrite (take_S_r _ _ _ Ep), map_app; reflexivity).
    rewrite (IH (S i)); [|lia|lia| |exact Hrej].
    + cbn [value world trace].
      replace (S k - i)%nat with (S (S k - S i)) by lia. reflexivity.
    + intros j Hj. apply Hacc. lia.
Qed.

(** X6.  [_print_result] moves to the start of the line and writes the
    fragments in order, each in its own colours.  If the window accepts
    every write, it resets the colours at the end and returns.  If the
    window rejects the write of fragment [k], having accepted those
    before it, the call raises there: fragment [k] is the last one
    attempted and the colours are not reset.  The widget is not changed
    either way. *)
Theorem X6_print_result parts w :
  ((forall j, (j < length parts)%nat -> paint_accepted parts j = true) ->
   _print_result (Some parts) w =
   {| value := Done tt; world := w;
      trace := Move 0 0 :: painted parts ++ [ColorReset] |})
  /\ (forall k,
        (k < length parts)%nat ->
        (forall j, (j < k)%nat -> paint_accepted parts j = true) ->
        paint_accepted parts k = false ->
        _print_result (Some parts) w =
        {| value := Raised; world := w;
           trace := Move 0 0 :: painted (take (S k) parts) |}).
Proof.
  split.
  - intros Hacc.
    assert (E : _print_parts parts [] w =
                {| value := Done tt; world := w; trace := painted parts |}).
    { apply (_print_parts_all parts (length parts) 0 w eq_refl).
      intros j Hj. apply Hacc. lia. }
    unfold _print_result. rewrite bind_emit.
    rewrite (bind_done _ _ _ tt); rewrite E; reflexivity.
  - intros k Hk Hacc Hrej.
    assert (E : _print_parts parts [] w =
                {| value := Raised; world := w; trace := painted (take (S k) parts) |}).
    { pose proof (_print_parts_stop parts (length parts) 0 k w eq_refl) as E.
      replace (S k - 0)%nat with (S k) in E by lia.
      apply E; [lia| |exact Hrej]. intros j Hj. apply Hacc. lia. }
    unfold _print_result. rewrite bind_emit.
    unfold bind. rewrite E. reflexivity.
Qed.

(** ** The name caches over the life of a widget *)

Lemma caches_extended_refl w : caches_extended w w.
Proof. split; [reflexivity|]. split; [reflexivity|]. exact id. Qed.

Lemma caches_extended_trans w1 w2 w3 :
  caches_extended w1 w2 -> caches_extended w2 w3 -> caches_extended w1 w3.
Proof.
  intros (Ho & Hg & Hs) (Ho' & Hg' & Hs'). split; [|split].
  - etrans; eassumption.
  - etrans; eassumption.
  - intros H1. apply Hs', Hs, H1.
Qed.

Lemma caches_extended_same w w' :
  owners w' = owners w -> groups w' = groups w -> caches_extended w w'.
Proof.
  intros Eo Eg. unfold caches_extended, cache_sound. rewrite Eo, Eg.
  split; [reflexivity|]. split; [reflexivity|]. exact id.
Qed.

Lemma caches_extended_bind {A B} (m : M A) (k : A -> M B) w :
  caches_extended w (world (m w)) ->
  (forall a w1, caches_extended w1 (world (k a w1))) ->
  caches_extended w (world ((x <- m;; k x) w)).
Proof.
  intros Hm Hk. unfold bind. destruct (value (m w)) as [a|]; cbn [world].
  - eapply caches_extended_trans; [exact Hm|apply Hk].
  - exact Hm.
Qed.

Lemma _get_owner_extends target w : caches_extended w (world (_get_owner target w)).
Proof.
  destruct (stat target) as [st|] eqn:Es.
  - rewrite (_get_owner_run _ _ _ Es).
    destruct (owners w !! st_uid st) eqn:Ec; [apply caches_extended_refl|].
    destruct (getpwuid (st_uid st)) as [name|] eqn:Eg; [|apply caches_extended_refl].
    cbn [world]. unfold caches_extended, cache_sound.
    cbn [owners groups with_owners]. split; [|split].
    + apply insert_subseteq. exact Ec.
    + reflexivity.
    + intros [Ho Hg]. split; [|exact Hg].
      intros uid name' Hl. rewrite lookup_insert in Hl.
      destruct (decide (st_uid st = uid)) as [<-|Hne].
      * injection Hl as <-. exact Eg.
      * apply Ho. exact Hl.
  - unfold _get_owner. rewrite Es. apply caches_extended_refl.
Qed.

Lemma _get_group_extends target w : caches_extended w (world (_get_group target w)).
Proof.
  destruct (stat target) as [st|] eqn:Es.
  - rewrite (_get_group_run _ _ _ Es).
    destruct (groups w !! st_gid st) eqn:Ec; [apply caches_extended_refl|].
    destruct (getgrgid (st_gid st)) as [name|] eqn:Eg; [|apply caches_extended_refl].
    cbn [world]. unfold caches_extended, cache_sound.
    cbn [owners groups with_groups]. split; [|split].
    + reflexivity.
    + apply insert_subseteq. exact Ec.
    + intros [Ho Hg]. split; [exact Ho|].
      intros gid name' Hl. rewrite lookup_insert in Hl.
      destruct (decide (st_gid st = gid)) as [<-|Hne].
      * injection Hl as <-. exact Eg.
      * apply Hg. exact Hl.
  - unfold _get_group. rewrite Es. apply caches_extended_refl.
Qed.

Lemma _get_left_part_extends env bar w :
  caches_extended w (world (_get_left_part env bar w)).
Proof.
  unfold _get_left_part.
  destruct (left_target env) as [target|]; [|apply caches_extended_refl].
  destruct (stat target) as [st|]; [|apply caches_extended_refl].
  apply caches_extended_bind; [apply _get_owner_extends|]. intros owner w1.
  apply caches_extended_bind; [apply _get_group_extends|]. intros group w2.
  destruct (is_link target); apply caches_extended_refl.
Qed.

Lemma _get_right_part_world env bar w :
  world (_get_right_part env bar w) = w.
Proof.
  unfold _get_right_part.
  destruct (column env) as [col|]; [|reflexivity].
  destruct (target col) as [t|]; [|reflexivity].
  destruct (negb (accessible t) || _); [reflexivity|].
  destruct (files t) as [listing|]; [|reflexivity].
  repeat match goal with |- context [if ?b then _ else _] => destruct b end;
    reflexivity.
Qed.

Lemma _calc_bar_extends env w : caches_extended w (world (_calc_bar env w)).
Proof.
  unfold _calc_bar.
  apply caches_extended_bind; [apply caches_extended_refl|]. intros _ w0.
  apply caches_extended_bind; [apply _get_left_part_extends|]. intros bar1 w1.
  apply caches_extended_bind;
    [rewrite _get_right_part_world; apply caches_extended_refl|].
  intros bar2 w2.
  apply caches_extended_bind; [apply caches_extended_refl|]. intros me w3.
  apply caches_extended_same; reflexivity.
Qed.

Lemma repaint_extends env w : caches_extended w (world (repaint env w)).
Proof.
  unfold repaint.
  apply caches_extended_bind; [apply _calc_bar_extends|]. intros _ w1.
  apply caches_extended_bind; [apply caches_extended_refl|]. intros me w2.
  rewrite _print_result_world. apply caches_extended_refl.
Qed.

Lemma draw_extends env now w : caches_extended w (world (draw env now w)).
Proof.
  rewrite draw_run.
  destruct (shows_hint (sb w)).
  - destruct (hint (sb w)) as [|s|] eqn:Es; try apply caches_extended_refl.
    destruct (hint_ne_str (old_hint (sb w)) s || need_redraw (sb w));
      [|apply caches_extended_refl].
    assert (Es' : hint (sb (with_sb (with_need_redraw true (sb w)) w)) = HStr s)
      by exact Es.
    destruct (_draw_hint_run s _ Es') as (_ & -> & _).
    apply caches_extended_same; reflexivity.
  - destruct (shows_message now (forget_hint (sb w))) eqn:Hm.
    + unfold shows_message in Hm.
      destruct (msg (forget_hint (sb w))) as [m|] eqn:Em; [|discriminate Hm].
      destruct (_draw_message_run m (with_sb (forget_hint (sb w)) w) Em) as [-> _].
      apply caches_extended_same; reflexivity.
    + rewrite draw_content_run.
      destruct (need_redraw _ || fingerprint_stale _ env).
      * eapply caches_extended_trans; [|apply repaint_extends].
        apply caches_extended_same; reflexivity.
      * apply caches_extended_same; reflexivity.
Qed.

Lemma perform_extends w c : caches_extended w (perform w c).
Proof.
  destruct c as [env now| | |h]; try (apply caches_extended_same; reflexivity).
  apply draw_extends.
Qed.

(** X7.  The name caches only grow, and they stay sound: over any
    sequence of calls on the widget, every entry of the owner and group
    caches is kept as it is; and if every cached name was the one the
    user database gives, this is still so afterwards.  In particular the
    caches of a widget that starts with empty ones never hold a name
    that differs from the database. *)
Theorem X7_caches_grow_and_stay_sound calls w :
  owners w ⊆ owners (session calls w)
  /\ groups w ⊆ groups (session calls w)
  /\ (cache_sound w -> cache_sound (session calls w)).
Proof.
  change (caches_extended w (session calls w)).
  unfold session. revert w. induction calls as [|c calls IH]; intros w.
  - apply caches_extended_refl.
  - cbn [foldl]. eapply caches_extended_trans; [apply perform_extends|apply IH].
Qed.

(** X8.  Caching does not change the names shown: with sound caches,
    [_get_owner] and [_get_group] return what they return with empty
    caches, the name the user database gives for the id, or the decimal
    id when it gives none. *)
Theorem X8_cache_is_transparent target st w :
  cache_sound w ->
  stat target = Some st ->
  value (_get_owner target w) = Done (default (Py.str (st_uid st)) (getpwuid (st_uid st)))
  /\ value (_get_group target w) = Done (default (Py.str (st_gid st)) (getgrgid (st_gid st))).
Proof.
  intros [Ho Hg] Es. split.
  - rewrite (_get_owner_run _ _ _ Es).
    destruct (owners w !! st_uid st) as [name|] eqn:Ec.
    + rewrite (Ho _ _ Ec). reflexivity.
    + destruct (getpwuid (st_uid st)); reflexivity.
  - rewrite (_get_group_run _ _ _ Es).
    destruct (groups w !! st_gid st) as [name|] eqn:Ec.
    + rewrite (Hg _ _ Ec). reflexivity.
    + destruct (getgrgid (st_gid st)); reflexivity.
Qed.

Lemma _get_left_part_trace env bar w target st :
  left_target env = Some target -> stat target = Some st ->
  trace (_get_left_part env bar w) =
  trace (_get_owner target w)
  ++ trace (_get_group target (world (_get_owner target w))).
Proof.
  intros Et Es. unfold _get_left_part. rewrite Et, Es.
  destruct (_get_owner_value target st w Es) as [Ho _].
  rewrite (bind_done _ _ _ _ Ho). cbn [trace].
  pose proof (_get_group_value target st (world (_get_owner target w)) Es) as Hg.
  rewrite (bind_done _ _ _ _ Hg). cbn [trace].
  destruct (is_link target); cbn [trace ret]; rewrite app_nil_r; reflexivity.
Qed.

(** X9.  The look-ups of the left part.  Without a target, or without
    its [stat], the left part is left empty and nothing is looked up.
    Otherwise composing it asks the user database at most once for the
    owner and at most once for the group; and when both names resolve,
    composing it again, for any file of the same owner and group, asks
    nothing. *)
Theorem X9_left_part_lookups env bar w :
  ((left_target env = None
    \/ exists target, left_target env = Some target /\ stat target = None) ->
   _get_left_part env bar w = {| value := Done bar; world := w; trace := [] |})
  /\ (forall target st,
        left_target env = Some target -> stat target = Some st ->
        sublist (trace (_get_left_part env bar w))
          [GetPwUid (st_uid st); GetGrGid (st_gid st)]
        /\ (forall env' bar' target' st',
              left_target env' = Some target' -> stat target' = Some st' ->
              st_uid st' = st_uid st -> st_gid st' = st_gid st ->
              is_Some (getpwuid (st_uid st)) -> is_Some (getgrgid (st_gid st)) ->
              trace (_get_left_part env' bar' (world (_get_left_part env bar w))) = [])).
Proof.
  split.
  - intros [Et|(target & Et & Es)]; unfold _get_left_part; rewrite Et;
      [|rewrite Es]; reflexivity.
  - intros target st Et Es. split.
    + rewrite (_get_left_part_trace env bar w target st Et Es).
      rewrite (_get_owner_run _ _ w Es), (_get_group_run _ _ _ Es).
      destruct (owners w !! st_uid st); [|destruct (getpwuid (st_uid st))];
        cbn [trace world groups with_owners];
        (destruct (groups w !! st_gid st); [|destruct (getgrgid (st_gid st))]);
        cbn [trace app];
        repeat first [ apply sublist_nil | apply sublist_skip | apply sublist_cons ].
    + intros env' bar' target' st' Et' Es' Eu Eg [o Eo] [g Egr].
      assert (Hc : is_Some (owners (world (_get_left_part env bar w)) !! st_uid st)
                   /\ is_Some (groups (world (_get_left_part env bar w)) !! st_gid st)).
      { unfold _get_left_part. rewrite Et, Es.
        destruct (_get_owner_value target st w Es) as [Ho Hgs].
        rewrite (bind_done _ _ _ _ Ho). cbn [world].
        pose proof (_get_group_value target st (world (_get_owner target w)) Es) as Hg.
        rewrite (bind_done _ _ _ _ Hg). cbn [world].
        assert (Hw : forall b, world (ret (A:=Bar) b
                        (world (_get_group target (world (_get_owner target w)))))
                     = world (_get_group target (world (_get_owner target w))))
          by reflexivity.
        assert (Hfin : is_Some (owners (world (_get_group target (world (_get_owner target w)))) !! st_uid st)
                       /\ is_Some (groups (world (_get_group target (world (_get_owner target w)))) !! st_gid st)).
        { assert (Hown : is_Some (owners (world (_get_owner target w)) !! st_uid st)).
          { rewrite (_get_owner_run _ _ w Es).
            destruct (owners w !! st_uid st) eqn:Ec; [cbn [world]; rewrite Ec; eauto|].
            rewrite Eo. cbn [world owners with_owners]. rewrite lookup_insert_eq. eauto. }
          rewrite (_get_group_run _ _ _ Es).
          destruct (groups (world (_get_owner target w)) !! st_gid st) eqn:Ec.
          - cbn [world]. rewrite Ec. split; [exact Hown|eauto].
          - rewrite Egr. cbn [world owners groups with_groups].
            rewrite lookup_insert_eq. split; [exact Hown|eauto]. }
        destruct (is_link target); exact Hfin. }
      destruct Hc as [[o' Ho'] [g' Hg']].
      rewrite (_get_left_part_trace env' bar' _ target' st' Et' Es').
      rewrite (_get_owner_run _ _ _ Es'), Eu, Ho'. cbn [trace world app].
      rewrite (_get_group_run _ _ _ Es'), Eg, Hg'. reflexivity.
Qed.

(** ** What no call changes *)

Lemma forget_hint_x me : x (forget_hint me) = x me.
Proof.
  unfold forget_hint.
  destruct (hint_truthy (old_hint me) && negb (hint_truthy (hint me))); reflexivity.
Qed.

Lemma drop_message_x me : x (drop_message me) = x me.
Proof. unfold drop_message. destruct (msg me); reflexivity. Qed.

Lemma remembered_x me env : x (remembered me env) = x me.
Proof.
  unfold remembered.
  destruct (Py.truthy_int (old_du me) && negb (Py.truthy_int (disk_usage (cwd env))));
    destruct (cf_ne (old_cf _) (cf env));
    destruct (mtime_ne (old_mtime _) (observed_mtime env)); reflexivity.
Qed.

(** X10.  [draw()] never changes the hint or the geometry of the widget,
    and the only thing it does to the message is to drop it.  A call
    that does not recompose leaves the cached result and both name
    caches as they were. *)
Theorem X10_draw_frame env now w :
  hint (sb (world (draw env now w))) = hint (sb w)
  /\ wid (sb (world (draw env now w))) = wid (sb w)
  /\ x (sb (world (draw env now w))) = x (sb w)
  /\ (msg (sb (world (draw env now w))) = msg (sb w)
      \/ msg (sb (world (draw env now w))) = None)
  /\ (~ recomposed (draw env now w) ->
      result (sb (world (draw env now w))) = result (sb w)
      /\ owners (world (draw env now w)) = owners w
      /\ groups (world (draw env now w)) = groups w).
Proof.
  destruct (shows_hint (sb w)) eqn:Hh.
  { destruct (draw_run_hint env now w Hh) as [[-> _]|[_ ->]];
      cbn [skipped world sb with_sb hint wid x msg result owners groups with_need_redraw];
      repeat split; auto. }
  destruct (forget_hint_fields (sb w)) as (Fh & Fm & Fr & _ & _ & _ & Fw).
  destruct (shows_message now (sb w)) eqn:Hm.
  { unfold shows_message in Hm.
    destruct (msg (sb w)) as [m|] eqn:Em; [|discriminate Hm].
    rewrite (draw_run_message env now w m Hh Em Hm).
    assert (Em1 : msg (sb (with_sb (forget_hint (sb w)) w)) = Some m) by exact Fm.
    destruct (_draw_message_run m _ Em1) as [-> _].
    cbn [sb with_sb owners groups]. rewrite Fh, Fw, Fm, Fr, forget_hint_x.
    repeat split; auto. }
  rewrite (draw_run_content env now w Hh Hm).
  destruct (drop_message_fields (forget_hint (sb w)))
    as (Dh & Dm & _ & Dr & _ & _ & _ & Dw).
  destruct (remembered_fields (drop_message (forget_hint (sb w))) env)
    as (Rh & Rm & _ & Rr & _ & Rw).
  destruct (draw_content_sb env (with_sb (drop_message (forget_hint (sb w))) w))
    as (res & E & Hkeep).
  rewrite E. cbn [hint wid x msg result with_result with_need_redraw sb with_sb] in *.
  rewrite Rh, Dh, Fh, Rw, Dw, Fw, Rm, Dm, remembered_x, drop_message_x, forget_hint_x.
  split; [reflexivity|]. split; [reflexivity|]. split; [reflexivity|].
  split; [right; reflexivity|].
  intros Hn. rewrite draw_content_recomposed in Hn. cbn [sb with_sb] in Hn.
  apply not_true_is_false in Hn.
  rewrite (Hkeep Hn), Dr, Fr. split; [reflexivity|].
  rewrite draw_content_run. cbn [sb with_sb]. rewrite Hn.
  split; reflexivity.
Qed.

(** ** The two fields that are never set *)

(** X11.  For the life of a widget [old_du] and [old_hint] stay [None]:
    no sequence of calls assigns them anything else.  So whenever a
    non-empty hint is held, every call of [draw()] draws it again: it
    erases the line, writes the segments of the hint up to the first
    write that is rejected, at least attempting the first, and leaves
    the redraw flag set. *)
Theorem X11_old_fields_never_set calls w env now :
  old_du (sb w) = None ->
  old_hint (sb w) = HNone ->
  let w' := session calls w in
  old_du (sb w') = None
  /\ old_hint (sb w') = HNone
  /\ (forall s, hint (sb w') = HStr s -> s <> "" ->
      let segs := Py.split s in
      let n := attempts (hint_write_accepted (x (sb w')) (wid (sb w')) segs)
                 0 (length segs) in
      (1 <= n)%nat
      /\ draw env now w' =
         {| value := Done tt;
            world := with_sb (with_need_redraw true (sb w')) w';
            trace := Erase :: flat_map (hint_write (x (sb w')) (wid (sb w')) segs)
                                (seq 0 n) |}).
Proof.
  intros Hd Ho w'.
  destruct (session_keeps_old calls w Hd Ho) as [Hd' Ho']. fold w' in Hd', Ho'.
  split; [exact Hd'|]. split; [exact Ho'|].
  intros s Es Hne.
  assert (Hh : shows_hint (sb w') = true).
  { unfold shows_hint. rewrite Es. cbn [hint_truthy hint_is_str].
    rewrite andb_true_r. apply negb_true_iff, String.eqb_neq. exact Hne. }
  rewrite (hint_drawn_by_every_call env now _ Ho' Hh).
  assert (Es' : hint (sb (with_sb (with_need_redraw true (sb w')) w')) = HStr s)
    by exact Es.
  exact (_draw_hint_exact s _ Es').
Qed.

(** ** The texts of a hint *)

Lemma string_app_assoc (a b c : string) : (a +:+ b) +:+ c = a +:+ (b +:+ c).
Proof.
  induction a as [|ch a IH]; [reflexivity|].
  change (String ch ((a +:+ b) +:+ c) = String ch (a +:+ (b +:+ c))).
  rewrite IH. reflexivity.
Qed.

Lemma string_app_nil_r (a : string) : a +:+ "" = a.
Proof.
  induction a as [|ch a IH]; [reflexivity|].
  change (String ch (a +:+ "") = String ch a).
  rewrite IH. reflexivity.
Qed.

(** Joining what [split] cuts gives the string back. *)
Lemma split_go_join s cur : Py.join "//" (Py.split_go s cur) = cur +:+ s.
Proof.
  remember (String.length s) as n eqn:En.
  revert s cur En. induction n as [n IH] using lt_wf_ind. intros s cur En.
  destruct s as [|c [|d rest]].
  - change (cur = cur +:+ ""). rewrite string_app_nil_r. reflexivity.
  - reflexivity.
  - rewrite split_go_step.
    destruct (Ascii.eqb c "/" && Ascii.eqb d "/") eqn:E.
    + apply andb_true_iff in E as [Ec Ed].
      apply Ascii.eqb_eq in Ec, Ed. subst c d.
      pose proof (split_go_not_nil rest "") as Hne.
      pose proof (IH (String.length rest) ltac:(subst n; cbn; lia) rest "" eq_refl) as Hj.
      destruct (Py.split_go rest "") as [|s0 l] eqn:El; [contradiction|].
      change (cur +:+ "//" +:+ Py.join "//" (s0 :: l) = cur +:+ String "/" (String "/" rest)).
      rewrite Hj. reflexivity.
    + rewrite (IH (String.length (String d rest)) ltac:(subst n; cbn; lia)
                 (String d rest) _ eq_refl).
      rewrite string_app_assoc. reflexivity.
Qed.

Lemma written_texts_hint_writes x0 W (segs : list string) k i :
  (i + k <= length segs)%nat ->
  written_texts (flat_map (hint_write x0 W segs) (seq i k)) = take k (drop i segs).
Proof.
  revert i. induction k as [|k IH]; intros i Hle; [reflexivity|].
  destruct (lookup_lt_is_Some_2 segs i) as [seg Es]; [lia|].
  cbn [seq flat_map]. unfold written_texts in *. rewrite flat_map_app.
  rewrite (IH (S i)) by lia. unfold hint_write. rewrite Es.
  rewrite (drop_S _ _ _ Es). reflexivity.
Qed.

(** X12.  The texts that [_draw_hint] hands to the window are the
    segments of the hint, in order and without gaps: a prefix of them,
    cut after the first write that is rejected.  When every write is
    accepted, joining these texts with the separator gives the hint
    back. *)
Theorem X12_hint_texts s w :
  hint (sb w) = HStr s ->
  let segs := Py.split s in
  let n := attempts (hint_write_accepted (x (sb w)) (wid (sb w)) segs) 0 (length segs) in
  written_texts (trace (_draw_hint w)) = take n segs
  /\ ((forall i, (i < length segs)%nat ->
         hint_write_accepted (x (sb w)) (wid (sb w)) segs i = true) ->
      Py.join "//" (written_texts (trace (_draw_hint w))) = s).
Proof.
  intros Eh segs n.
  pose proof (attempts_le (hint_write_accepted (x (sb w)) (wid (sb w)) segs) 0 (length segs))
    as Hle. fold n in Hle.
  assert (Et : written_texts (trace (_draw_hint w)) = take n segs).
  { rewrite (_draw_hint_unfold s w Eh). cbn [trace]. fold segs.
    pose proof (_draw_hint_loop_trace (x (sb w)) (wid (sb w)) segs (length segs) 0 w eq_refl)
      as Ht.
    rewrite drop_0 in Ht. cbn [take Nat.even] in Ht.
    unfold total_len in Ht at 1 2. cbn [map foldr] in Ht.
    rewrite Z.sub_0_r, Z.add_0_r in Ht.
    change (written_texts (Erase :: ?t)) with (written_texts t).
    rewrite Ht. fold n.
    rewrite written_texts_hint_writes by lia. rewrite drop_0. reflexivity. }
  split; [exact Et|].
  intros Hall. rewrite Et.
  assert (En : n = length segs).
  { destruct (decide (n < length segs)%nat) as [Hlt|Hge]; [|lia].
    destruct (attempts_stop _ 0 (length segs) Hlt) as [H1 H2].
    fold n in H1, H2. rewrite Hall in H2; [discriminate|lia]. }
  rewrite En, firstn_all. apply (split_go_join s "").
Qed.

(** ** The right part when nothing is marked *)

(** X13.  [_get_right_part] adds nothing, looks nothing up and changes
    nothing when the widget has no column, the column has no target, the
    target is not accessible, or it is a directory without a listing.
    When the target is accessible, has a listing and no marked items, it
    adds exactly five fragments: the disk usage of the directory, a
    comma, the free space at the mount path of the directory, two
    spaces, and the scroll indicator. *)
Theorem X13_right_part_unmarked env bar w :
  ((column env = None
    \/ (exists col, column env = Some col /\ target col = None)
    \/ (exists col t, column env = Some col /\ target col = Some t
                      /\ (accessible t = false
                          \/ (is_directory t = true /\ files t = None)))) ->
   _get_right_part env bar w = {| value := Done bar; world := w; trace := [] |})
  /\ (forall col t listing,
        column env = Some col -> target col = Some t ->
        accessible t = true -> files t = Some listing ->
        marked_items t = [] ->
        exists bar',
          _get_right_part env bar w = {| value := Done bar'; world := w; trace := [] |}
          /\ left bar' = left bar
          /\ exists added,
               right bar' = right bar ++ added
               /\ map cs_string added =
                  [human_readable (disk_usage t); ", ";
                   human_readable (Some (get_free_space env (mount_path t))); "  ";
                   indicator false (Z.of_nat (length listing)) (hei col) (scroll_begin t)]).
Proof.
  split.
  - intros [Ec|[(col & Ec & Et)|(col & t & Ec & Et & Hg)]];
      unfold _get_right_part; rewrite Ec; try reflexivity; rewrite Et; try reflexivity.
    destruct Hg as [Ha|[Hd Hf]].
    + rewrite Ha. reflexivity.
    + rewrite Hd, Hf. rewrite bool_decide_eq_true_2 by reflexivity.
      rewrite orb_true_r. reflexivity.
  - intros col t listing Ec Et Ea Ef Hm.
    rewrite (_get_right_part_run env bar w col t listing Ec Et Ea Ef). cbn zeta.
    rewrite Hm. rewrite bool_decide_eq_false_2 by (intros H; apply H; reflexivity).
    eexists. split; [reflexivity|]. split; [reflexivity|].
    eexists. split.
    + rewrite !right_add_right, <- !app_assoc. reflexivity.
    + reflexivity.
Qed.

End Further.

(** ** The entry point *)

Lemma and_then_nil fails continue : Main.and_then fails [] continue = continue.
Proof. destruct continue; reflexivity. Qed.

Lemma and_then_cons fails a todo continue :
  Main.and_then fails (a :: todo) continue =
  if fails a then {| Main.calls := [a]; Main.final := Main.Failed a |}
  else Main.preceded_by a (Main.and_then fails todo continue).
Proof.
  unfold Main.and_then, Main.preceded_by. cbn [Main.sequence].
  destruct (fails a); [reflexivity|].
  destruct (Main.sequence fails todo) as [done [b|]]; reflexivity.
Qed.

(** The [try] block with its [finally] clause, call by call. *)
Lemma browse_run env :
  Main.browse env =
  let cd := Main.cd_after_exit (Main.args env) in
  if Main.fails env Main.NewUI then
    {| Main.calls := [Main.NewUI]; Main.final := Main.Failed Main.NewUI |}
  else
    let body :=
      if Main.fails env Main.NewFMWithUI then ([Main.NewFMWithUI], Some Main.NewFMWithUI)
      else if Main.fails env Main.FMInitialize
      then ([Main.NewFMWithUI; Main.FMInitialize], Some Main.FMInitialize)
      else if Main.fails env Main.UIInitialize
      then ([Main.NewFMWithUI; Main.FMInitialize; Main.UIInitialize],
            Some Main.UIInitialize)
      else if Main.fails env Main.Loop
      then ([Main.NewFMWithUI; Main.FMInitialize; Main.UIInitialize; Main.Loop],
            Some Main.Loop)
      else ([Main.NewFMWithUI; Main.FMInitialize; Main.UIInitialize; Main.Loop], None) in
    if Main.fails env Main.UIDestroy then
      {| Main.calls := Main.NewUI :: fst body ++ [Main.UIDestroy];
         Main.final := Main.Failed Main.UIDestroy |}
    else
      {| Main.calls :=
           Main.NewUI :: fst body ++ [Main.UIDestroy]
           ++ (if cd && negb (Main.fails env Main.NewFMWithUI)
               then [Main.WritePwd] else []);
         Main.final := match snd body with
                       | Some a => Main.Failed a
                       | None => Main.Returned
                       end |}.
Proof.
  unfold Main.browse. cbn [Main.sequence].
  destruct (Main.fails env Main.NewUI); cbn [negb andb fst snd app].
  - rewrite andb_false_r. reflexivity.
  - destruct (Main.fails env Main.NewFMWithUI); cbn [negb andb fst snd app];
      [destruct (Main.fails env Main.UIDestroy); rewrite ?andb_false_r; reflexivity|].
    destruct (Main.fails env Main.FMInitialize); cbn [negb andb fst snd app];
      [destruct (Main.fails env Main.UIDestroy); rewrite ?andb_true_r; reflexivity|].
    destruct (Main.fails env Main.UIInitialize); cbn [negb andb fst snd app];
      [destruct (Main.fails env Main.UIDestroy); rewrite ?andb_true_r; reflexivity|].
    destruct (Main.fails env Main.Loop); cbn [negb andb fst snd app];
      destruct (Main.fails env Main.UIDestroy); rewrite ?andb_true_r; reflexivity.
Qed.

(** Case analysis of [main()] over the calls that may raise and the tests
    it makes, in the order of the source. *)
Ltac main_step Hr :=
  lazymatch type of Hr with
  | context [if ?c then _ else _] => destruct c eqn:?
  end.

Ltac main_cases env :=
  let r := fresh "r" in
  let Hr := fresh "Hr" in
  remember (Main.main env) as r eqn:Hr;
  unfold Main.main in Hr;
  set (target := Py.join " " (Main.rest (Main.args env))) in *;
  rewrite ?browse_run in Hr; cbv zeta in Hr;
  destruct (Main.cd_after_exit (Main.args env)) eqn:?;
  cbn [app] in Hr;
  rewrite ?and_then_cons, ?and_then_nil in Hr;
  repeat main_step Hr;
  try match type of Hr with
      | context [Main.parse_exit env] => destruct (Main.parse_exit env) eqn:?
      end;
  cbn [Main.preceded_by Main.calls Main.final app fst snd negb andb] in Hr;
  subst r;
  cbn [Main.preceded_by Main.calls Main.final];
  repeat match goal with
         | E : negb _ = true |- _ => apply negb_true_iff in E
         | E : negb _ = false |- _ => apply negb_false_iff in E
         | E : String.eqb _ "" = true |- _ => apply String.eqb_eq in E
         | E : String.eqb _ "" = false |- _ => apply String.eqb_neq in E
         end.

Ltac in_calls H :=
  repeat (apply elem_of_cons in H as [H|H]; [try discriminate H|]);
  try (apply elem_of_nil in H; destruct H).

(** X14.  Which directory the browser is started in.  [main()] creates
    the environment for one path at most.  That path is "." when the
    arguments, joined by single spaces, give the empty string; otherwise
    it is the joined arguments, and then they name something that exists
    and is not a file.  When no call raises, the environment is created
    in both cases and [main()] returns. *)
Theorem X14_start_directory env path :
  let target := Py.join " " (Main.rest (Main.args env)) in
  (Main.NewEnvironment path ∈ Main.calls (Main.main env) ->
   (target = "" /\ path = ".")
   \/ (target <> "" /\ Main.access env target = true
       /\ Main.isfile env target = false /\ path = target))
  /\ ((forall a, Main.fails env a = false) ->
      (target = "" \/ (Main.access env target = true /\ Main.isfile env target = false)) ->
      Main.NewEnvironment (if String.eqb target "" then "." else target)
        ∈ Main.calls (Main.main env)
      /\ Main.final (Main.main env) = Main.Returned).
Proof.
  intros target0. split.
  - subst target0. main_cases env; intros H; in_calls H.
    all: injection H as <-.
    all: repeat match goal with
         | E : String.eqb _ "" = true |- _ => apply String.eqb_eq in E
         | E : String.eqb _ "" = false |- _ => apply String.eqb_neq in E
         end.
    all: first [ left; split; [assumption|reflexivity]
               | right; repeat split; assumption ].
  - intros Hok Hc. revert Hc. subst target0.
    main_cases env; intros Hc;
      try match goal with
          | E : Main.fails env _ = true |- _ => rewrite Hok in E; discriminate E
          end;
      try (exfalso; destruct Hc as [Hc|[Hc1 Hc2]]; [contradiction|congruence]);
      try (exfalso; congruence);
      try match goal with
          | E : ?t = "" |- _ => rewrite E; change (String.eqb "" "") with true
          | E : ?t <> "" |- _ => apply String.eqb_neq in E; rewrite E
          end;
      (split; [|reflexivity]);
      apply list_elem_of_In; cbn [In]; repeat (first [left; reflexivity | right]).
Qed.


(** X16.  The user interface is always cleaned up.  Once [UI()] has
    returned, [main()] calls [destroy()] exactly once, whichever call
    raises afterwards, and it is the last call it makes, but for the
    writing of the directory that may follow it.  Conversely [destroy()]
    is called only on a user interface that was created. *)
Theorem X16_ui_destroyed env :
  (Main.NewUI ∈ Main.calls (Main.main env) ->
   Main.fails env Main.NewUI = false ->
   Main.times Main.UIDestroy (Main.calls (Main.main env)) = 1%nat
   /\ Main.ends_with_cleanup (Main.calls (Main.main env)) = true)
  /\ (Main.UIDestroy ∈ Main.calls (Main.main env) ->
      Main.NewUI ∈ Main.calls (Main.main env)
      /\ Main.fails env Main.NewUI = false).
Proof.
  split.
  - main_cases env; intros H Hf; try discriminate Hf;
      try (exfalso; in_calls H; fail);
      split; reflexivity.
  - main_cases env; intros H;
      try (exfalso; in_calls H; fail);
      (split; [|reflexivity]);
      apply list_elem_of_In; cbn [In]; repeat (first [left; reflexivity | right]).
Qed.

(** X17.  How [main()] ends.  It returns only after the loop has run and
    every call it made has returned, but for the writing of the
    directory, whose failure is ignored.  An exception that leaves it is
    the exception of a call that it made and that raised, and never that
    of the writing of the directory. *)
Theorem X17_endings env :
  (Main.final (Main.main env) = Main.Returned ->
   Main.Loop ∈ Main.calls (Main.main env)
   /\ Forall (fun a => a = Main.WritePwd \/ Main.fails env a = false)
        (Main.calls (Main.main env)))
  /\ (forall a,
        Main.final (Main.main env) = Main.Failed a ->
        a ∈ Main.calls (Main.main env)
        /\ Main.fails env a = true
        /\ a <> Main.WritePwd).
Proof.
  split.
  - main_cases env; intros H; try discriminate H; split;
      try (apply list_elem_of_In; cbn [In]; repeat (first [left; reflexivity | right]); fail);
      repeat (constructor; [first [right; assumption | left; reflexivity]|]);
      constructor.
  - intros a. main_cases env; intros H; try discriminate H; injection H as <-;
      (split; [apply list_elem_of_In; cbn [In];
               repeat (first [left; reflexivity | right])|]);
      (split; [assumption|discriminate]).
Qed.

Lemma sequence_with_fails_proper f g todo :
  Forall (fun a => f a = g a) todo ->
  Main.sequence f todo = Main.sequence g todo.
Proof.
  induction 1 as [|a todo Ha _ IH]; [reflexivity|].
  cbn [Main.sequence]. rewrite Ha, IH. reflexivity.
Qed.

(** X18.  Failures while cleaning up.  If [destroy()] raises, its
    exception is the one that leaves [main()], whatever was raised
    before, it is the last call, and the directory is not written.  A
    failure of the writing of the directory changes nothing: [main()]
    makes the same calls and ends the same way as if it had succeeded. *)
Theorem X18_cleanup_failures env :
  (Main.UIDestroy ∈ Main.calls (Main.main env) ->
   Main.fails env Main.UIDestroy = true ->
   Main.final (Main.main env) = Main.Failed Main.UIDestroy
   /\ last (Main.calls (Main.main env)) = Some Main.UIDestroy)
  /\ (forall f,
        (forall a, a <> Main.WritePwd -> f a = Main.fails env a) ->
        Main.main (Main.with_fails f env) = Main.main env).
Proof.
  split.
  - main_cases env; intros H Hf; try discriminate Hf;
      try (exfalso; in_calls H; fail);
      split; reflexivity.
  - intros f Hf.
    unfold Main.main, Main.browse, Main.and_then, Main.with_fails.
    cbn [Main.fails Main.args Main.errormessage Main.access Main.isfile Main.parse_exit].
    set (target := Py.join " " (Main.rest (Main.args env))).
    rewrite !Hf by discriminate.
    repeat match goal with
           | |- context [Main.sequence f ?todo] =>
               rewrite (sequence_with_fails_proper f (Main.fails env) todo)
                 by (repeat (constructor; [apply Hf; discriminate|]);
                     try destruct (Main.cd_after_exit (Main.args env));
                     repeat (constructor; [apply Hf; discriminate|]); constructor)
           end.
    reflexivity.
Qed.

(** * The further properties at the sample data *)

(** X1 at the sample data: a fresh widget is recomposed, and not again
    by the next call. *)
Lemma X1_recomposed_exactly_when_witness :
  let w := Sample.fresh 80 in
  let r := draw (P := Sample.platform) Sample.env 0 w in
  recomposed r
  /\ ~ recomposed (draw (P := Sample.platform) Sample.env 5 (world r)).
Proof.
  cbv zeta. split.
  - apply (X1_recomposed_exactly_when (P := Sample.platform)).
    split; [reflexivity|]. split; [reflexivity|]. left. reflexivity.
  - intros H. apply (X1_recomposed_exactly_when (P := Sample.platform)) in H.
    destruct H as (_ & _ & H). vm_compute in H.
    destruct H as [H|[[H _]|[H|[H|[[H _]|[H|H]]]]]]; try discriminate H.
    apply H. reflexivity.
Defined.

(** X2 at the sample data: a widget at rest is left alone by [draw()],
    and recomposed once a redraw was requested. *)
Lemma X2_request_redraw_forces_witness :
  let w := world (draw (P := Sample.platform) Sample.env 0 (Sample.fresh 80)) in
  shows_hint (sb w) = false
  /\ shows_message 1 (sb w) = false
  /\ ~ recomposed (draw (P := Sample.platform) Sample.env 1 w)
  /\ recomposed (draw (P := Sample.platform) Sample.env 1 (world (request_redraw w))).
Proof.
  cbv zeta.
  set (w := world (draw (P := Sample.platform) Sample.env 0 (Sample.fresh 80))).
  assert (Hh : shows_hint (sb w) = false) by reflexivity.
  assert (Hm : shows_message 1 (sb w) = false) by reflexivity.
  split; [exact Hh|]. split; [exact Hm|]. split; [not_in_trace|].
  destruct (X2_request_redraw_forces (P := Sample.platform) Sample.env 1 w)
    as (_ & _ & H).
  exact (H Hh Hm).
Defined.

(** X3 at the sample data: the fingerprint after the first call. *)
Lemma X3_fingerprint_up_to_date_witness :
  let w := Sample.fresh 80 in
  let me := sb (world (draw (P := Sample.platform) Sample.env 0 w)) in
  shows_hint (sb w) = false
  /\ shows_message 0 (sb w) = false
  /\ cf_ne (old_cf me) (Some Sample.f1) = false
  /\ old_mtime me = Some 1262304000
  /\ need_redraw me = false
  /\ msg me = None.
Proof.
  cbv zeta. split; [reflexivity|]. split; [reflexivity|].
  exact (X3_fingerprint_up_to_date (P := Sample.platform) Sample.env 0
           (Sample.fresh 80) eq_refl eq_refl).
Defined.

(** X4 at the sample data: nothing is pointed at, the bar comes out
    empty, and the next call recomposes it. *)
Lemma X4_empty_result_recomposed_again_witness :
  let w := Sample.fresh 80 in
  let r := draw (P := Sample.platform) Sample.empty_env 0 w in
  result (sb (world r)) = Some []
  /\ recomposed (draw (P := Sample.platform) Sample.empty_env 1 (world r)).
Proof.
  cbv zeta. split; [vm_compute; reflexivity|].
  apply (X4_empty_result_recomposed_again (P := Sample.platform)
           Sample.empty_env Sample.empty_env 0 1 (Sample.fresh 80)).
  - reflexivity.
  - reflexivity.
  - vm_compute. reflexivity.
Defined.

(** X5 at the sample data, with a window that rejects the writes: the
    hint is drawn without raising, the message and the bar raise. *)
Lemma X5_where_draw_raises_witness :
  let w := Sample.fresh 80 in
  let wm := world (notify 0 "saved" 4 false w) in
  value (draw (P := Sample.rejecting_platform) Sample.env 0 (set_hint (HStr "a//b") w))
  = Done tt
  /\ value (draw (P := Sample.rejecting_platform) Sample.env 1 wm) = Raised
  /\ value (draw (P := Sample.rejecting_platform) Sample.env 0 w) = Raised
  /\ recomposed (draw (P := Sample.rejecting_platform) Sample.env 0 w).
Proof.
  cbv zeta.
  destruct (X5_where_draw_raises (P := Sample.rejecting_platform) Sample.env 0
              (set_hint (HStr "a//b") (Sample.fresh 80))) as (Hhint & _ & _).
  destruct (X5_where_draw_raises (P := Sample.rejecting_platform) Sample.env 1
              (world (notify 0 "saved" 4 false (Sample.fresh 80)))) as (_ & Hmsg & _).
  destruct (X5_where_draw_raises (P := Sample.rejecting_platform) Sample.env 0
              (Sample.fresh 80)) as (_ & _ & Hbar).
  assert (Hr : value (draw (P := Sample.rejecting_platform) Sample.env 0 (Sample.fresh 80))
               = Raised) by (vm_compute; reflexivity).
  split; [apply Hhint; reflexivity|].
  split; [apply (Hmsg Sample.saved); reflexivity|].
  split; [exact Hr|].
  destruct (Hbar Hr) as (_ & [H|H]); [discriminate H|exact H].
Defined.

(** X6 at the sample data: two fragments on a window that accepts them,
    and on one that rejects the second. *)
Lemma X6_print_result_witness :
  let parts := [mk_fragment "in_statusbar" "ab" ["permissions"];
                mk_fragment "in_statusbar" "cd" ["space"]] in
  let w := Sample.fresh 80 in
  _print_result (P := Sample.platform) (Some parts) w
  = {| value := Done tt; world := w;
       trace := [Move 0 0; Color ["in_statusbar"; "permissions"]; AddStr "ab";
                 Color ["in_statusbar"; "space"]; AddStr "cd"; ColorReset] |}
  /\ _print_result (P := Sample.rejecting_platform) (Some parts) w
     = {| value := Raised; world := w;
          trace := [Move 0 0; Color ["in_statusbar"; "permissions"]; AddStr "ab";
                    Color ["in_statusbar"; "space"]; AddStr "cd"] |}.
Proof.
  cbv zeta. split.
  - apply (X6_print_result (P := Sample.platform)).
    intros [|[|j]] Hj; [reflexivity|reflexivity|cbn in Hj; lia].
  - refine (proj2 (X6_print_result (P := Sample.rejecting_platform)
                     [mk_fragment "in_statusbar" "ab" ["permissions"];
                      mk_fragment "in_statusbar" "cd" ["space"]]
                     (Sample.fresh 80)) 1%nat _ _ _).
    + cbn. lia.
    + intros [|j] Hj; [reflexivity|lia].
    + reflexivity.
Defined.

(** X7 at the sample data: a widget that starts with empty caches, is
    drawn, is given a hint and is drawn again. *)
Lemma X7_caches_grow_and_stay_sound_witness :
  let calls := [CallDraw Sample.env 0; CallSetHint (HStr "a//b"); CallDraw Sample.env 1] in
  let w := Sample.fresh 80 in
  cache_sound (P := Sample.platform) w
  /\ owners (session (P := Sample.platform) calls w) !! 1000 = Some "alice"
  /\ owners w ⊆ owners (session (P := Sample.platform) calls w)
  /\ groups w ⊆ groups (session (P := Sample.platform) calls w)
  /\ cache_sound (P := Sample.platform) (session (P := Sample.platform) calls w).
Proof.
  cbv zeta.
  assert (Hs : cache_sound (P := Sample.platform) (Sample.fresh 80)).
  { split; intros k name H; cbn in H; rewrite lookup_empty in H; discriminate H. }
  destruct (X7_caches_grow_and_stay_sound (P := Sample.platform)
              [CallDraw Sample.env 0; CallSetHint (HStr "a//b"); CallDraw Sample.env 1]
              (Sample.fresh 80)) as (Ho & Hg & Hsound).
  split; [exact Hs|]. split; [vm_compute; reflexivity|].
  split; [exact Ho|]. split; [exact Hg|exact (Hsound Hs)].
Defined.

(** X8 at the sample data: a file of a known owner and group, and a file
    of an owner and a group that the user database does not know. *)
Lemma X8_cache_is_transparent_witness :
  let w := Sample.fresh 80 in
  cache_sound (P := Sample.platform) w
  /\ value (_get_owner (P := Sample.platform) Sample.f1 w) = Done "alice"
  /\ value (_get_group (P := Sample.platform) Sample.f1 w) = Done "users"
  /\ value (_get_owner (P := Sample.platform) Sample.strangers_file w) = Done "1234"
  /\ value (_get_group (P := Sample.platform) Sample.strangers_file w) = Done "4321".
Proof.
  cbv zeta.
  assert (Hs : cache_sound (P := Sample.platform) (Sample.fresh 80)).
  { split; intros k name H; cbn in H; rewrite lookup_empty in H; discriminate H. }
  split; [exact Hs|].
  destruct (X8_cache_is_transparent (P := Sample.platform) Sample.f1
              {| st_uid := 1000; st_gid := 100; st_nlink := 1; st_mtime := 1262304000 |}
              (Sample.fresh 80) Hs eq_refl) as [Ho Hg].
  destruct (X8_cache_is_transparent (P := Sample.platform) Sample.strangers_file
              {| st_uid := 1234; st_gid := 4321; st_nlink := 1; st_mtime := 1262304000 |}
              (Sample.fresh 80) Hs eq_refl) as [Ho' Hg'].
  split; [exact Ho|]. split; [exact Hg|]. split; [exact Ho'|exact Hg'].
Defined.

(** X9 at the sample data: nothing pointed at, then a file of a known
    owner and group, and another file of the same owner and group. *)
Lemma X9_left_part_lookups_witness :
  let bar := Bar_new "in_statusbar" in
  let w := Sample.fresh 80 in
  let r := _get_left_part (P := Sample.platform) Sample.env bar w in
  _get_left_part (P := Sample.platform) Sample.empty_env bar w
  = {| value := Done bar; world := w; trace := [] |}
  /\ sublist (trace r) [GetPwUid 1000; GetGrGid 100]
  /\ trace (_get_left_part (P := Sample.platform) (Sample.env_at Sample.f2) bar (world r))
     = [].
Proof.
  cbv zeta.
  destruct (X9_left_part_lookups (P := Sample.platform) Sample.empty_env
              (Bar_new "in_statusbar") (Sample.fresh 80)) as [Hnone _].
  destruct (X9_left_part_lookups (P := Sample.platform) Sample.env
              (Bar_new "in_statusbar") (Sample.fresh 80)) as [_ Hsome].
  destruct (Hsome Sample.f1
              {| st_uid := 1000; st_gid := 100; st_nlink := 1; st_mtime := 1262304000 |}
              eq_refl eq_refl) as [Hsub Hagain].
  split; [apply Hnone; left; reflexivity|]. split; [exact Hsub|].
  apply (Hagain (Sample.env_at Sample.f2) (Bar_new "in_statusbar") Sample.f2
           {| st_uid := 1000; st_gid := 100; st_nlink := 1; st_mtime := 1262304000 |});
    try reflexivity.
  - exists "alice". reflexivity.
  - exists "users". reflexivity.
Defined.

(** X10 at the sample data: the second call on a widget at rest. *)
Lemma X10_draw_frame_witness :
  let w := world (draw (P := Sample.platform) Sample.env 0 (Sample.fresh 80)) in
  let r := draw (P := Sample.platform) Sample.env 5 w in
  ~ recomposed r
  /\ result (sb (world r)) = result (sb w)
  /\ owners (world r) = owners w
  /\ groups (world r) = groups w.
Proof.
  cbv zeta.
  set (w := world (draw (P := Sample.platform) Sample.env 0 (Sample.fresh 80))).
  assert (Hn : ~ recomposed (draw (P := Sample.platform) Sample.env 5 w))
    by not_in_trace.
  split; [exact Hn|].
  destruct (X10_draw_frame (P := Sample.platform) Sample.env 5 w)
    as (_ & _ & _ & _ & H).
  exact (H Hn).
Defined.

(** X11 at the sample data: a widget that is drawn and then given a
    hint. *)
Lemma X11_old_fields_never_set_witness :
  let calls := [CallDraw Sample.env 0; CallSetHint (HStr "a//b")] in
  let w := session (P := Sample.platform) calls (Sample.fresh 80) in
  hint (sb w) = HStr "a//b"
  /\ old_du (sb w) = None
  /\ old_hint (sb w) = HNone
  /\ draw (P := Sample.platform) Sample.env 1 w =
     {| value := Done tt;
        world := with_sb (with_need_redraw true (sb w)) w;
        trace := [Erase;
                  Color ["in_statusbar"; "text"]; AddNStr 0 0 "a" 80;
                  Color ["in_statusbar"; "text"; "highlight"]; AddNStr 0 1 "b" 79] |}.
Proof.
  cbv zeta.
  destruct (X11_old_fields_never_set (P := Sample.platform)
              [CallDraw Sample.env 0; CallSetHint (HStr "a//b")]
              (Sample.fresh 80) Sample.env 1 eq_refl eq_refl) as (Hd & Ho & H).
  split; [vm_compute; reflexivity|]. split; [exact Hd|]. split; [exact Ho|].
  destruct (H "a//b" ltac:(vm_compute; reflexivity) ltac:(discriminate)) as [_ Hdraw].
  rewrite Hdraw. vm_compute. reflexivity.
Defined.

(** X12 at the sample data: a hint of two segments on a window that
    accepts every write. *)
Lemma X12_hint_texts_witness :
  let w := set_hint (HStr "a//b") (Sample.fresh 80) in
  written_texts (trace (_draw_hint (P := Sample.platform) w)) = ["a"; "b"]
  /\ Py.join "//" (written_texts (trace (_draw_hint (P := Sample.platform) w))) = "a//b".
Proof.
  cbv zeta.
  destruct (X12_hint_texts (P := Sample.platform) "a//b"
              (set_hint (HStr "a//b") (Sample.fresh 80)) eq_refl) as [Ht Hj].
  split; [exact Ht|].
  apply Hj. intros [|[|i]] Hi; [reflexivity|reflexivity|].
  vm_compute in Hi. lia.
Defined.

(** X13 at the sample data: surroundings without a column, and a column
    on a directory of five files without marked items. *)
Lemma X13_right_part_unmarked_witness :
  let bar := Bar_new "in_statusbar" in
  let w := Sample.fresh 80 in
  _get_right_part (P := Sample.platform) (Sample.env_at Sample.f1) bar w
  = {| value := Done bar; world := w; trace := [] |}
  /\ exists bar',
       _get_right_part (P := Sample.platform) Sample.env bar w
       = {| value := Done bar'; world := w; trace := [] |}
       /\ left bar' = left bar
       /\ exists added,
            right bar' = right bar ++ added
            /\ map cs_string added = ["-"; ", "; "1000000"; "  "; "All"].
Proof.
  cbv zeta.
  destruct (X13_right_part_unmarked (P := Sample.platform) (Sample.env_at Sample.f1)
              (Bar_new "in_statusbar") (Sample.fresh 80)) as [Hnone _].
  destruct (X13_right_part_unmarked (P := Sample.platform) Sample.env
              (Bar_new "in_statusbar") (Sample.fresh 80)) as [_ Hsome].
  split; [apply Hnone; left; reflexivity|].
  exact (Hsome {| target := Some (Sample.dir [] 0 None); hei := 40 |}
           (Sample.dir [] 0 None)
           [Sample.f1; Sample.f2; Sample.f3; Sample.f4; Sample.f5]
           eq_refl eq_refl eq_refl eq_refl eq_refl).
Defined.

(** X14 at the sample data: a start on a directory named by two
    arguments, and a start without arguments. *)
Lemma X14_start_directory_witness :
  let env := Sample.start false ["my"; "dir"] [] in
  let env0 := Sample.start false [] [] in
  Main.NewEnvironment "my dir" ∈ Main.calls (Main.main env)
  /\ Main.final (Main.main env) = Main.Returned
  /\ Main.access env "my dir" = true
  /\ Main.isfile env "my dir" = false
  /\ Main.NewEnvironment "." ∈ Main.calls (Main.main env0)
  /\ Main.final (Main.main env0) = Main.Returned.
Proof.
  cbv zeta.
  destruct (X14_start_directory (Sample.start false ["my"; "dir"] []) "my dir")
    as [Honly Hdoes].
  destruct (X14_start_directory (Sample.start false [] []) ".") as [_ Hdoes0].
  destruct (Hdoes (fun a => eq_refl) (or_intror (conj eq_refl eq_refl))) as [Hin Hret].
  destruct (Hdoes0 (fun a => eq_refl) (or_introl eq_refl)) as [Hin0 Hret0].
  split; [exact Hin|]. split; [exact Hret|].
  destruct (Honly Hin) as [[H _]|(_ & Ha & Hf & _)]; [discriminate H|].
  split; [exact Ha|]. split; [exact Hf|]. split; [exact Hin0|exact Hret0].
Defined.


(** X16 at the sample data: the loop raises. *)
Lemma X16_ui_destroyed_witness :
  let env := Sample.start true ["dir"] [Main.Loop] in
  Main.NewUI ∈ Main.calls (Main.main env)
  /\ Main.fails env Main.NewUI = false
  /\ Main.final (Main.main env) = Main.Failed Main.Loop
  /\ Main.times Main.UIDestroy (Main.calls (Main.main env)) = 1%nat
  /\ Main.ends_with_cleanup (Main.calls (Main.main env)) = true.
Proof.
  cbv zeta.
  assert (Hin : Main.NewUI ∈ Main.calls (Main.main (Sample.start true ["dir"] [Main.Loop])))
    by (refine (bool_decide_unpack _ _); vm_compute; exact I).
  assert (Hf : Main.fails (Sample.start true ["dir"] [Main.Loop]) Main.NewUI = false)
    by (vm_compute; reflexivity).
  destruct (X16_ui_destroyed (Sample.start true ["dir"] [Main.Loop])) as [H _].
  split; [exact Hin|]. split; [exact Hf|]. split; [vm_compute; reflexivity|].
  exact (H Hin Hf).
Defined.

(** X17 at the sample data: a start where no call raises, and one where
    the loop raises. *)
Lemma X17_endings_witness :
  let env := Sample.start true ["dir"] [] in
  let env' := Sample.start true ["dir"] [Main.Loop] in
  Main.final (Main.main env) = Main.Returned
  /\ Main.Loop ∈ Main.calls (Main.main env)
  /\ Main.final (Main.main env') = Main.Failed Main.Loop
  /\ Main.Loop ∈ Main.calls (Main.main env')
  /\ Main.fails env' Main.Loop = true.
Proof.
  cbv zeta.
  assert (Hr : Main.final (Main.main (Sample.start true ["dir"] [])) = Main.Returned)
    by (vm_compute; reflexivity).
  assert (Hl : Main.final (Main.main (Sample.start true ["dir"] [Main.Loop]))
               = Main.Failed Main.Loop) by (vm_compute; reflexivity).
  destruct (X17_endings (Sample.start true ["dir"] [])) as [H _].
  destruct (X17_endings (Sample.start true ["dir"] [Main.Loop])) as [_ H'].
  destruct (H Hr) as [Hin _].
  destruct (H' Main.Loop Hl) as (Hin' & Hf & _).
  split; [exact Hr|]. split; [exact Hin|]. split; [exact Hl|].
  split; [exact Hin'|exact Hf].
Defined.

(** X18 at the sample data: [destroy()] raises after the loop has
    returned; and the writing of the directory raises. *)
Lemma X18_cleanup_failures_witness :
  let env := Sample.start true ["dir"] [Main.UIDestroy] in
  let env' := Sample.start true ["dir"] [] in
  Main.UIDestroy ∈ Main.calls (Main.main env)
  /\ Main.final (Main.main env) = Main.Failed Main.UIDestroy
  /\ last (Main.calls (Main.main env)) = Some Main.UIDestroy
  /\ Main.main (Main.with_fails (fun a => bool_decide (a = Main.WritePwd)) env')
     = Main.main env'.
Proof.
  cbv zeta.
  assert (Hin : Main.UIDestroy
                ∈ Main.calls (Main.main (Sample.start true ["dir"] [Main.UIDestroy])))
    by (refine (bool_decide_unpack _ _); vm_compute; exact I).
  destruct (X18_cleanup_failures (Sample.start true ["dir"] [Main.UIDestroy])) as [H _].
  destruct (X18_cleanup_failures (Sample.start true ["dir"] [])) as [_ H'].
  destruct (H Hin eq_refl) as [Hf Hl].
  split; [exact Hin|]. split; [exact Hf|]. split; [exact Hl|].
  apply H'. intros a Ha. cbn [Main.fails Sample.start].
  rewrite bool_decide_eq_false_2 by exact Ha.
  symmetry. apply bool_decide_eq_false_2, not_elem_of_nil.
Defined.
